(** * KennelOS ETL: transformation and analytics-scoring engine

    A shallow embedding of [src/etl/transform.py] and of the three analyzers
    under [src/dashboard/analytics/], with the properties of the
    specification stated over it.

    Modelling conventions.
    - A pandas table is a list of typed rows that carries the columns the
      code reads; an empty frame is the empty list.
    - A Python float is an exact rational, extended with the two infinities
      and NaN ([pyfloat]) where the code can produce them (division by a
      zero duration, the mean of an empty column).  The code rounds
      doubles; at a decimal tie the binary value decides the direction,
      so a rounded value is specified by [rounds_to] (a nearest number
      with that many decimals), not by the direction [round_dec] takes.
    - Sums are exact; [Series.sum()] of an int64 column wraps beyond
      [int64_max], so a statement about the value of a sum assumes that the
      column stays below it.
    - Text is a string of bytes; [lower], [strip] and [contains] are those
      of Python on ASCII text ([is_ascii]).
    - A timestamp is an integer number of seconds since the epoch; the
      reading of the wall clock ([datetime.now()]) is an explicit argument
      [now] of every method that reads it.
    - Columns that hold a standard deviation, and a few display-only
      entries of the result mappings, are left out; each record says which. *)

From Stdlib Require Import ZArith QArith Qround Qreduction Qabs Qminmax Lqa.
From Stdlib Require Import List String Ascii Bool Lia Permutation.
From Stdlib Require Import Decimal DecimalString.
From Stdlib Require Import Sorting.Sorted Morphisms Setoid.
Import ListNotations.

Local Open Scope string_scope.
Local Open Scope list_scope.
Local Open Scope Z_scope.

(* ================================================================== *)
(** ** Numbers *)

Module PyNum.

(** Boolean comparisons on rationals. *)
Definition Qlt_bool (x y : Q) : bool := negb (Qle_bool y x).

(** Python floats: a finite value, an infinity, or NaN. *)
Inductive pyfloat : Type :=
| Fin (q : Q)
| PosInf
| NegInf
| NaN.

(** [x <= y]; every comparison with NaN is false. *)
Definition fle (x y : pyfloat) : bool :=
  match x, y with
  | NaN, _ | _, NaN => false
  | NegInf, _ => true
  | _, PosInf => true
  | Fin a, Fin b => Qle_bool a b
  | _, _ => false
  end.

Definition flt (x y : pyfloat) : bool := fle x y && negb (fle y x).
Definition fge (x y : pyfloat) : bool := fle y x.
Definition fgt (x y : pyfloat) : bool := flt y x.

Definition is_finite (x : pyfloat) : bool :=
  match x with Fin _ => true | _ => false end.

Definition is_nan (x : pyfloat) : bool :=
  match x with NaN => true | _ => false end.

(** Element-wise true division of two finite numbers, as numpy does it:
    no exception, [x / 0] is an infinity of the sign of [x] and [0 / 0]
    is NaN. *)
Definition pydiv (x y : Q) : pyfloat :=
  if Qeq_bool y 0 then
    if Qeq_bool x 0 then NaN
    else if Qle_bool 0 x then PosInf else NegInf
  else Fin (Qred (x / y)).

(** Addition of floats. *)
Definition fadd (x y : pyfloat) : pyfloat :=
  match x, y with
  | NaN, _ | _, NaN => NaN
  | PosInf, NegInf | NegInf, PosInf => NaN
  | PosInf, _ | _, PosInf => PosInf
  | NegInf, _ | _, NegInf => NegInf
  | Fin a, Fin b => Fin (Qred (a + b))
  end.

(** Division of a float by a positive count. *)
Definition fdiv_count (x : pyfloat) (n : nat) : pyfloat :=
  match x with
  | Fin a => Fin (Qred (a / inject_Z (Z.of_nat n)))
  | other => other
  end.

(** [sum()] of a numeric column. *)
Definition qsum (l : list Q) : Q := Qred (fold_right Qplus 0%Q l).

(** [mean()] of a numeric column: NaN on an empty column. *)
Definition mean (l : list Q) : pyfloat :=
  match l with
  | [] => NaN
  | _ => Fin (Qred (fold_right Qplus 0%Q l / inject_Z (Z.of_nat (List.length l))))
  end.

(** [mean()] of a float column: NaN entries are skipped. *)
Definition fmean (l : list pyfloat) : pyfloat :=
  let kept := filter (fun x => negb (is_nan x)) l in
  match kept with
  | [] => NaN
  | _ => fdiv_count (fold_right fadd (Fin 0) kept) (List.length kept)
  end.

(** Rounding to the nearest integer, ties to even. *)
Definition round_half_even (q : Q) : Z :=
  let f := Qfloor q in
  match (q - inject_Z f ?= 1 # 2)%Q with
  | Lt => f
  | Gt => f + 1
  | Eq => if Z.even f then f else f + 1
  end.

(** [round(q, n)]: rounding to [n] decimals.  Away from a decimal tie this
    is the value the code stores; at a tie the code's double decides
    between the two neighbours (see [rounds_to]). *)
Definition round_dec (n : nat) (q : Q) : Q :=
  let s := inject_Z (10 ^ Z.of_nat n) in
  Qred (inject_Z (round_half_even (q * s)) / s).

Definition fround (n : nat) (x : pyfloat) : pyfloat :=
  match x with
  | Fin q => Fin (round_dec n q)
  | other => other
  end.

(** What [round(x, n)] and [.round(n)] guarantee of the value they store:
    [r] has [n] decimals and no number with [n] decimals is nearer to [q].
    At a tie both neighbours qualify. *)
Definition rounds_to (n : nat) (q r : Q) : bool :=
  let s := inject_Z (10 ^ Z.of_nat n) in
  Qeq_bool (r * s) (inject_Z (Qfloor (r * s)))
  && Qle_bool (Qabs (r - q) * (2 * s)) 1.

(** The largest value of an int64 column. *)
Definition int64_max : Z := 2 ^ 63 - 1.

End PyNum.
Import PyNum.

(* ================================================================== *)
(** ** Time *)

Module Time.

(** Seconds since the epoch. *)
Definition instant := Z.

Definition seconds_per_day : Z := 86400.
Definition seconds_per_hour : Z := 3600.

(** [timedelta(days=d)] in seconds. *)
Definition timedelta_days (d : Z) : Z := d * seconds_per_day.

(** [.dt.date], as a day number. *)
Definition date_of (t : instant) : Z := t / seconds_per_day.

(** [.dt.hour]. *)
Definition hour_of (t : instant) : Z := (t mod seconds_per_day) / seconds_per_hour.

(** [.days] of a time difference (the floor of its length in days). *)
Definition delta_days (d : Z) : Z := d / seconds_per_day.

(** [.total_seconds() / 3600]. *)
Definition delta_hours (d : Z) : Q := Qred (inject_Z d / inject_Z seconds_per_hour).

(** An instant given as day number, hour and minute. *)
Definition at_time (day h m : Z) : instant :=
  day * seconds_per_day + h * seconds_per_hour + m * 60.

End Time.
Import Time.

(* ================================================================== *)
(** ** Configuration ([analytics/config.py]) *)

Module Config.

Inductive window_key : Type := short_term | medium_term | long_term.

Definition ANALYSIS_WINDOWS (k : window_key) : Z :=
  match k with
  | short_term => 7
  | medium_term => 30
  | long_term => 90
  end.

Record pet_wellness_cfg : Type := {
  min_activity_minutes_per_day : Q;
  max_activity_minutes_per_day : Q;
  min_feeding_times_per_day : Q;
  max_feeding_times_per_day : Q;
  weight_change_alert_threshold : Q
}.

Definition PET_WELLNESS : pet_wellness_cfg := {|
  min_activity_minutes_per_day := 60;
  max_activity_minutes_per_day := 180;
  min_feeding_times_per_day := 2;
  max_feeding_times_per_day := 4;
  weight_change_alert_threshold := 5
|}.

Record band_cfg : Type := {
  optimal_min : Q;
  optimal_max : Q;
  alert_min : Q;
  alert_max : Q
}.

Record noise_cfg : Type := {
  normal_max : Q;
  alert_threshold : Q;
  critical_threshold : Q
}.

Record environment_cfg : Type := {
  temperature : band_cfg;
  humidity : band_cfg;
  noise : noise_cfg
}.

Definition ENVIRONMENT : environment_cfg := {|
  temperature := {| optimal_min := 68; optimal_max := 78;
                    alert_min := 60; alert_max := 85 |};
  humidity := {| optimal_min := 40; optimal_max := 60;
                 alert_min := 30; alert_max := 80 |};
  noise := {| normal_max := 40; alert_threshold := 45;
              critical_threshold := 50 |}
|}.

Record staff_performance_cfg : Type := {
  min_tasks_per_hour : Q;
  target_tasks_per_hour : Q;
  max_tasks_per_hour : Q
}.

Record grooming_frequency_cfg : Type := {
  target_days_between : Z;
  alert_days_overdue : Z
}.

Record operations_cfg : Type := {
  staff_performance : staff_performance_cfg;
  grooming_frequency : grooming_frequency_cfg
}.

Definition OPERATIONS : operations_cfg := {|
  staff_performance := {| min_tasks_per_hour := 8 # 10;
                          target_tasks_per_hour := 12 # 10;
                          max_tasks_per_hour := 2 |};
  grooming_frequency := {| target_days_between := 7;
                           alert_days_overdue := 10 |}
|}.

End Config.
Import Config.

(* ================================================================== *)
(** ** Text *)

Module Text.

(** [str.lower()] on ASCII letters. *)
Definition lower_ascii (c : ascii) : ascii :=
  let n := nat_of_ascii c in
  if ((65 <=? n) && (n <=? 90))%nat then ascii_of_nat (n + 32) else c.

Fixpoint lower (s : string) : string :=
  match s with
  | EmptyString => EmptyString
  | String c t => String (lower_ascii c) (lower t)
  end.

(** Substring search, for [str.contains]. *)
Fixpoint contains (pat s : string) : bool :=
  String.prefix pat s ||
  match s with
  | EmptyString => false
  | String _ t => contains pat t
  end.

Definition is_space (c : ascii) : bool :=
  let n := nat_of_ascii c in
  ((n =? 32) || ((9 <=? n) && (n <=? 13)))%nat.

Fixpoint lstrip (s : string) : string :=
  match s with
  | EmptyString => EmptyString
  | String c t => if is_space c then lstrip t else s
  end.

Fixpoint rev_append (s acc : string) : string :=
  match s with
  | EmptyString => acc
  | String c t => rev_append t (String c acc)
  end.

Definition rev (s : string) : string := rev_append s EmptyString.

(** [str.strip()]. *)
Definition strip (s : string) : string := rev (lstrip (rev (lstrip s))).

(** Whether a text is ASCII: every byte is below 128. *)
Fixpoint is_ascii (s : string) : bool :=
  match s with
  | EmptyString => true
  | String c t => (nat_of_ascii c <? 128)%nat && is_ascii t
  end.

End Text.
Import Text.

(* ================================================================== *)
(** ** The three transformed tables *)

Record ActivityRecord : Type := {
  pet_id : string;
  pet_name : string;
  activity_type : string;
  timestamp : instant;
  duration_minutes : Q;
  staff_id : string;
  notes : string;
  date : Z;
  hour : Z
}.

Record EnvironmentReading : Type := {
  env_timestamp : instant;
  kennel_section : string;
  temperature_f : Q;
  humidity_percent : Q;
  noise_level_db : Q;
  env_date : Z;
  env_hour : Z;
  temp_comfort : string;
  humidity_comfort : string;
  noise_comfort : string
}.

Record StaffLog : Type := {
  log_staff_id : string;
  staff_name : string;
  shift_start : instant;
  shift_end : instant;
  tasks_completed : Q;
  shift_duration_hours : Q;
  shift_type : string;
  tasks_per_hour : pyfloat
}.

(* ================================================================== *)
(** ** [etl/transform.py]: [DataTransformer] *)

Module DataTransformer.

(** A row of the raw staff log.  [raw_tasks_completed] is [None] when the
    cell does not parse as a number ([pd.to_numeric(..., errors='coerce')]
    turns it into NaN). *)
Record RawStaffLog : Type := {
  raw_staff_id : string;
  raw_staff_name : string;
  raw_shift_start : instant;
  raw_shift_end : instant;
  raw_tasks_completed : option Q
}.

(** A raw activity record.  [raw_duration_minutes] is [None] when the
    value does not parse as a number.  The derived [day_of_week] column is
    not represented. *)
Record RawActivity : Type := {
  raw_pet_id : string;
  raw_pet_name : string;
  raw_activity_type : string;
  raw_timestamp : instant;
  raw_duration_minutes : option Q;
  raw_activity_staff_id : string;
  raw_notes : string
}.

Definition duration_valid (r : RawActivity) : bool :=
  match raw_duration_minutes r with
  | Some d => Qlt_bool 0 d
  | None => false
  end.

Definition activity_finish (r : RawActivity) : ActivityRecord := {|
  pet_id := raw_pet_id r;
  pet_name := raw_pet_name r;
  activity_type := strip (lower (raw_activity_type r));
  timestamp := raw_timestamp r;
  duration_minutes := match raw_duration_minutes r with Some d => d | None => 0%Q end;
  staff_id := raw_activity_staff_id r;
  notes := raw_notes r;
  date := date_of (raw_timestamp r);
  hour := hour_of (raw_timestamp r)
|}.

Definition transform_pet_activities (activities : list RawActivity) : list ActivityRecord :=
  match activities with
  | [] => []
  | _ => map activity_finish (filter duration_valid activities)
  end.

(** A raw environment row; a measurement that does not parse is [None]. *)
Record RawReading : Type := {
  raw_env_timestamp : instant;
  raw_kennel_section : string;
  raw_temperature_f : option Q;
  raw_humidity_percent : option Q;
  raw_noise_level_db : option Q
}.

Definition _categorize_temperature (temp : Q) : string :=
  if Qlt_bool temp 65 then "cold"
  else if Qle_bool temp 78 then "comfortable"
  else "warm".

Definition _categorize_humidity (hum : Q) : string :=
  if Qlt_bool hum 30 then "dry"
  else if Qle_bool hum 60 then "comfortable"
  else "humid".

Definition _categorize_noise (noise_db : Q) : string :=
  if Qlt_bool noise_db 35 then "quiet"
  else if Qle_bool noise_db 45 then "normal"
  else "loud".

(** [dropna(subset=numeric_cols)] and the comfort columns. *)
Definition reading_finish (r : RawReading) : option EnvironmentReading :=
  match raw_temperature_f r, raw_humidity_percent r, raw_noise_level_db r with
  | Some t, Some h, Some n =>
      Some {| env_timestamp := raw_env_timestamp r;
              kennel_section := raw_kennel_section r;
              temperature_f := t;
              humidity_percent := h;
              noise_level_db := n;
              env_date := date_of (raw_env_timestamp r);
              env_hour := hour_of (raw_env_timestamp r);
              temp_comfort := _categorize_temperature t;
              humidity_comfort := _categorize_humidity h;
              noise_comfort := _categorize_noise n |}
  | _, _, _ => None
  end.

Fixpoint keep_some {A : Type} (l : list (option A)) : list A :=
  match l with
  | [] => []
  | Some x :: t => x :: keep_some t
  | None :: t => keep_some t
  end.

Definition transform_environment_data (env_df : list RawReading) : list EnvironmentReading :=
  match env_df with
  | [] => []
  | _ => keep_some (map reading_finish env_df)
  end.

Definition _categorize_shift (hour : Z) : string :=
  if (5 <=? hour) && (hour <? 14) then "morning"
  else if (14 <=? hour) && (hour <? 22) then "afternoon"
  else "night".

(** The staff frame after the duration and shift-type columns are added
    and [tasks_completed] is coerced, before the [>= 0] filter. *)
Record StaffStage : Type := {
  st_raw : RawStaffLog;
  st_duration_hours : Q;
  st_shift_type : string;
  st_tasks : option Q
}.

Definition staff_stage (r : RawStaffLog) : StaffStage := {|
  st_raw := r;
  st_duration_hours := delta_hours (raw_shift_end r - raw_shift_start r);
  st_shift_type := _categorize_shift (hour_of (raw_shift_start r));
  st_tasks := raw_tasks_completed r
|}.

(** [df[df['tasks_completed'] >= 0]]: NaN compares false. *)
Definition tasks_valid (s : StaffStage) : bool :=
  match st_tasks s with
  | Some t => Qle_bool 0 t
  | None => false
  end.

(** [df['tasks_per_hour'] = df['tasks_completed'] / df['shift_duration_hours']]. *)
Definition staff_finish (s : StaffStage) : StaffLog :=
  let t := match st_tasks s with Some t => t | None => 0%Q end in
  {| log_staff_id := raw_staff_id (st_raw s);
     staff_name := raw_staff_name (st_raw s);
     shift_start := raw_shift_start (st_raw s);
     shift_end := raw_shift_end (st_raw s);
     tasks_completed := t;
     shift_duration_hours := st_duration_hours s;
     shift_type := st_shift_type s;
     tasks_per_hour := pydiv t (st_duration_hours s) |}.

Definition transform_staff_logs (staff_df : list RawStaffLog) : list StaffLog :=
  match staff_df with
  | [] => []
  | _ => map staff_finish (filter tasks_valid (map staff_stage staff_df))
  end.

End DataTransformer.

(* ================================================================== *)
(** ** Tables: sorting and grouping *)

Module Table.

Section Sort.
Context {A : Type} (leb : A -> A -> bool).

Fixpoint insert_sorted (x : A) (l : list A) : list A :=
  match l with
  | [] => [x]
  | y :: t => if leb x y then x :: l else y :: insert_sorted x t
  end.

(** [sorted] and [sort_values]: insertion sort along [leb].  It is
    stable; pandas does not fix the order of rows with equal keys. *)
Definition sort_by (l : list A) : list A := fold_right insert_sorted [] l.
End Sort.

Section GroupBy.
Context {A K : Type}.
Variable K_dec : forall x y : K, {x = y} + {x <> y}.
Variable leb : K -> K -> bool.
Variable key : A -> K.

Definition key_is (k : K) (a : A) : bool :=
  if K_dec (key a) k then true else false.

(** The distinct values of a key column, in ascending order. *)
Definition unique_sorted (ks : list K) : list K := sort_by leb (nodup K_dec ks).

(** [df.groupby(key)]: one group per distinct key, the groups in
    ascending key order, the rows of a group in their original order. *)
Definition groupby (l : list A) : list (K * list A) :=
  map (fun k => (k, filter (key_is k) l)) (unique_sorted (map key l)).

(** Whether the key of a row is one of [ks]. *)
Definition key_in (ks : list K) (a : A) : bool :=
  existsb (fun k => key_is k a) ks.
End GroupBy.

Definition pair_dec {A B : Type}
  (A_dec : forall x y : A, {x = y} + {x <> y})
  (B_dec : forall x y : B, {x = y} + {x <> y})
  (p q : A * B) : {p = q} + {p <> q}.
Proof. decide equality. Defined.

(** Lexicographic order on tuples of key columns. *)
Definition lex_leb {A B : Type}
  (A_dec : forall x y : A, {x = y} + {x <> y})
  (lebA : A -> A -> bool) (lebB : B -> B -> bool) (p q : A * B) : bool :=
  if A_dec (fst p) (fst q) then lebB (snd p) (snd q) else lebA (fst p) (fst q).

(** Key types of the groupings used below. *)
Definition pet_key : Type := string * string.
Definition pet_key_dec := pair_dec string_dec string_dec.
Definition pet_key_leb := lex_leb string_dec String.leb String.leb.

Definition pet_day_key : Type := pet_key * Z.
Definition pet_day_key_dec := pair_dec pet_key_dec Z.eq_dec.
Definition pet_day_key_leb := lex_leb pet_key_dec pet_key_leb Z.leb.

Definition slot_key : Type := Z * Z.
Definition slot_key_dec := pair_dec Z.eq_dec Z.eq_dec.
Definition slot_key_leb := lex_leb Z.eq_dec Z.leb Z.leb.

(** [df.empty]. *)
Definition is_empty {A : Type} (l : list A) : bool :=
  match l with [] => true | _ => false end.

(** [series.value_counts()]: the distinct labels with their number of
    occurrences, the most frequent first. *)
Definition label_sizes (labels : list string) : list (string * nat) :=
  map (fun g : string * list string => (fst g, List.length (snd g)))
      (groupby string_dec String.leb (fun x => x) labels).

Definition value_counts (labels : list string) : list (string * nat) :=
  sort_by (fun x y : string * nat => (snd y <=? snd x)%nat) (label_sizes labels).

(** [dict.get(k, 0)] on such a mapping. *)
Fixpoint count_of (k : string) (d : list (string * nat)) : nat :=
  match d with
  | [] => 0%nat
  | (k', n) :: rest => if String.eqb k k' then n else count_of k rest
  end.

(** [len(x)] as a number. *)
Definition count_q (n : nat) : Q := inject_Z (Z.of_nat n).

(** [a / b] on numbers, for a divisor that is not zero. *)
Definition truediv (a b : Q) : Q := Qred (a / b).

(** [days or default]: [None] and [0] are both falsy. *)
Definition days_or (days : option Z) (default : Z) : Z :=
  match days with
  | Some d => if d =? 0 then default else d
  | None => default
  end.

(** [df[df[ts] >= cutoff_date]]. *)
Definition since {A : Type} (ts : A -> instant) (cutoff_date : instant) (l : list A) : list A :=
  filter (fun r => cutoff_date <=? ts r) l.

(** Two readings of the clock select the same rows of a table for a
    window of [days] days. *)
Definition same_window {A : Type} (ts : A -> instant) (l : list A)
  (now1 now2 : instant) (days : Z) : Prop :=
  forall r, In r l ->
    (now1 - timedelta_days days <=? ts r) = (now2 - timedelta_days days <=? ts r).

(** The mapping an analysis method returns: either the single key
    ['error'] with its message, or the method's metrics. *)
Inductive analysis (A : Type) : Type :=
| Error (msg : string)
| Metrics (a : A).
Arguments Error {A} msg.
Arguments Metrics {A} a.

(** ['error' in result]. *)
Definition has_error {A : Type} (r : analysis A) : bool :=
  match r with Error _ => true | Metrics _ => false end.

End Table.
Import Table.

(* ================================================================== *)
(** ** [etl/transform.py]: [create_daily_summary] and [transform_all_data] *)

Module DailySummaries.

(** A row of the daily summary.  [None] is Python's [None]; the counts
    [len(...)] are always numbers. *)
Record DailySummary : Type := {
  summary_date : Z;
  total_activities : nat;
  total_activity_minutes : option Q;
  unique_pets : option nat;
  avg_temperature : option pyfloat;
  avg_humidity : option pyfloat;
  avg_noise : option pyfloat;
  staff_shifts : nat;
  total_tasks : option Q
}.

(** [dates.update(xs)] on a set of dates. *)
Definition set_update (dates xs : list Z) : list Z := nodup Z.eq_dec (dates ++ xs).

Definition summary_dates (pet_df : list ActivityRecord)
  (env_df : list EnvironmentReading) (staff_df : list StaffLog) : list Z :=
  let dates := [] in
  let dates := if negb (is_empty pet_df)
               then set_update dates (nodup Z.eq_dec (map date pet_df)) else dates in
  let dates := if negb (is_empty env_df)
               then set_update dates (nodup Z.eq_dec (map env_date env_df)) else dates in
  let dates := if negb (is_empty staff_df)
               then set_update dates
                      (nodup Z.eq_dec (map (fun s => date_of (shift_start s)) staff_df))
               else dates in
  dates.

Definition summary_row (pet_df : list ActivityRecord)
  (env_df : list EnvironmentReading) (staff_df : list StaffLog) (d : Z) : DailySummary :=
  let day_activities :=
    if negb (is_empty pet_df) then filter (fun a => date a =? d) pet_df else [] in
  let day_env :=
    if negb (is_empty env_df) then filter (fun e => env_date e =? d) env_df else [] in
  let day_staff :=
    if negb (is_empty staff_df)
    then filter (fun s => date_of (shift_start s) =? d) staff_df else [] in
  {| summary_date := d;
     total_activities := List.length day_activities;
     total_activity_minutes :=
       if negb (is_empty day_activities)
       then Some (qsum (map duration_minutes day_activities)) else Some 0%Q;
     unique_pets :=
       if negb (is_empty day_activities)
       then Some (List.length (nodup string_dec (map pet_id day_activities)))
       else Some 0%nat;
     avg_temperature :=
       if negb (is_empty day_env) then Some (mean (map temperature_f day_env)) else None;
     avg_humidity :=
       if negb (is_empty day_env) then Some (mean (map humidity_percent day_env)) else None;
     avg_noise :=
       if negb (is_empty day_env) then Some (mean (map noise_level_db day_env)) else None;
     staff_shifts := List.length day_staff;
     total_tasks :=
       if negb (is_empty day_staff)
       then Some (qsum (map tasks_completed day_staff)) else Some 0%Q |}.

Definition create_daily_summary (pet_df : list ActivityRecord)
  (env_df : list EnvironmentReading) (staff_df : list StaffLog) : list DailySummary :=
  map (summary_row pet_df env_df staff_df)
      (sort_by Z.leb (summary_dates pet_df env_df staff_df)).

Record TransformedData : Type := {
  td_pet_activities : list ActivityRecord;
  td_environment : list EnvironmentReading;
  td_staff_logs : list StaffLog;
  td_daily_summary : list DailySummary
}.

Definition transform_all_data (raw_activities : list DataTransformer.RawActivity)
  (raw_environment : list DataTransformer.RawReading)
  (raw_staff : list DataTransformer.RawStaffLog) : TransformedData :=
  let pet_activities := DataTransformer.transform_pet_activities raw_activities in
  let environment := DataTransformer.transform_environment_data raw_environment in
  let staff_logs := DataTransformer.transform_staff_logs raw_staff in
  {| td_pet_activities := pet_activities;
     td_environment := environment;
     td_staff_logs := staff_logs;
     td_daily_summary := create_daily_summary pet_activities environment staff_logs |}.

End DailySummaries.

(* ================================================================== *)
(** ** [analytics/pet_wellness.py]: [PetWellnessAnalyzer] *)

(** The three windowed methods; [get_pet_wellness_summary], which only
    combines them, is not represented. *)

Module PetWellnessAnalyzer.

(** [self.df]: the analyzer's copy of the activity table.  The
    [pd.to_datetime] conversions of [__init__] are the identity on
    instants and day numbers. *)
Definition init (pet_activities_df : list ActivityRecord) : list ActivityRecord :=
  pet_activities_df.

Definition _categorize_activity_level (avg_minutes : pyfloat) : string :=
  if flt avg_minutes (Fin (min_activity_minutes_per_day PET_WELLNESS)) then "low"
  else if fgt avg_minutes (Fin (max_activity_minutes_per_day PET_WELLNESS)) then "high"
  else "optimal".

Definition _categorize_feeding_frequency (avg_feedings : pyfloat) : string :=
  if flt avg_feedings (Fin (min_feeding_times_per_day PET_WELLNESS)) then "infrequent"
  else if fgt avg_feedings (Fin (max_feeding_times_per_day PET_WELLNESS)) then "excessive"
  else "normal".

Definition pet_of (a : ActivityRecord) : pet_key := (pet_id a, pet_name a).
Definition pet_day_of (a : ActivityRecord) : pet_day_key := (pet_of a, date a).

(** A row of [daily_activity]: per pet and day, the summed duration and
    the number of activities. *)
Record DailyActivity : Type := {
  da_pet : pet_key;
  da_date : Z;
  da_duration_minutes : Q;
  da_activity_count : nat
}.

(** A row of [pet_averages]. *)
Record PetAverage : Type := {
  pa_pet : pet_key;
  avg_daily_minutes : pyfloat;
  avg_daily_activities : pyfloat;
  activity_status : string
}.

(** Descending order of a float column, NaN last. *)
Definition desc_leb (x y : pyfloat) : bool := is_nan y || fge x y.

Definition daily_activity_of (recent_df : list ActivityRecord) : list DailyActivity :=
  map (fun g : pet_day_key * list ActivityRecord =>
         {| da_pet := fst (fst g);
            da_date := snd (fst g);
            da_duration_minutes := qsum (map duration_minutes (snd g));
            da_activity_count := List.length (snd g) |})
      (groupby pet_day_key_dec pet_day_key_leb pet_day_of recent_df).

Definition pet_averages_of (daily_activity : list DailyActivity) : list PetAverage :=
  map (fun g : pet_key * list DailyActivity =>
         let avg := fround 2 (mean (map da_duration_minutes (snd g))) in
         {| pa_pet := fst g;
            avg_daily_minutes := avg;
            avg_daily_activities :=
              fround 2 (mean (map (fun r => count_q (da_activity_count r)) (snd g)));
            activity_status := _categorize_activity_level avg |})
      (groupby pet_key_dec pet_key_leb da_pet daily_activity).

Definition get_avg_activity_time_per_pet (self_df : list ActivityRecord)
  (now : instant) (days : option Z) : list PetAverage :=
  let days := days_or days (ANALYSIS_WINDOWS medium_term) in
  let cutoff_date := now - timedelta_days days in
  let recent_df := since timestamp cutoff_date self_df in
  let daily_activity := daily_activity_of recent_df in
  let pet_averages := pet_averages_of daily_activity in
  sort_by (fun x y => desc_leb (avg_daily_minutes x) (avg_daily_minutes y)) pet_averages.

(** A row of [avg_feedings].  The [feeding_consistency] column (a
    standard deviation) is not represented. *)
Record FeedingRow : Type := {
  fr_pet : pet_key;
  avg_feedings_per_day : pyfloat;
  min_daily : nat;
  max_daily : nat;
  feeding_status : string
}.

Record FeedingAnalysis : Type := {
  total_pets_analyzed : nat;
  avg_feedings_across_kennel : pyfloat;
  pets_with_irregular_feeding : nat;
  feeding_detailed_per_pet : list FeedingRow
}.

Definition get_feeding_frequency_analysis (self_df : list ActivityRecord)
  (now : instant) (days : option Z) : analysis FeedingAnalysis :=
  let days := days_or days (ANALYSIS_WINDOWS medium_term) in
  let cutoff_date := now - timedelta_days days in
  let feeding_df :=
    filter (fun a => String.eqb (activity_type a) "feeding" && (cutoff_date <=? timestamp a))
           self_df in
  let daily_feeding :=
    map (fun g : pet_day_key * list ActivityRecord => (fst (fst g), List.length (snd g)))
        (groupby pet_day_key_dec pet_day_key_leb pet_day_of feeding_df) in
  let avg_feedings :=
    map (fun g : pet_key * list (pet_key * nat) =>
           let counts := map snd (snd g) in
           let avg := fround 2 (mean (map count_q counts)) in
           {| fr_pet := fst g;
              avg_feedings_per_day := avg;
              min_daily := fold_right Nat.min (hd 0%nat counts) counts;
              max_daily := fold_right Nat.max 0%nat counts;
              feeding_status := _categorize_feeding_frequency avg |})
        (groupby pet_key_dec pet_key_leb fst daily_feeding) in
  Metrics {|
    total_pets_analyzed := List.length avg_feedings;
    avg_feedings_across_kennel := fmean (map avg_feedings_per_day avg_feedings);
    pets_with_irregular_feeding :=
      List.length (filter (fun r => negb (String.eqb (feeding_status r) "normal")) avg_feedings);
    feeding_detailed_per_pet := avg_feedings |}.

Record WeightRow : Type := {
  wr_pet : pet_key;
  total_weight_checks_of_pet : nat;
  first_check : instant;
  latest_check : instant;
  latest_notes : string;
  days_between_checks : Z
}.

Record WeightAnalysis : Type := {
  pets_with_weight_monitoring : nat;
  total_weight_checks : nat;
  avg_checks_per_pet : pyfloat;
  weight_detailed_per_pet : list WeightRow;
  recent_weight_activities : list ActivityRecord
}.

Definition get_weight_trend_analysis (self_df : list ActivityRecord)
  (now : instant) (days : option Z) : analysis WeightAnalysis :=
  let days := days_or days (ANALYSIS_WINDOWS medium_term) in
  let cutoff_date := now - timedelta_days days in
  let medical_df :=
    filter (fun a => String.eqb (activity_type a) "medical" && (cutoff_date <=? timestamp a))
           self_df in
  let weight_mentions := filter (fun a => contains "weight" (lower (notes a))) medical_df in
  let weight_checks_per_pet :=
    map (fun g : pet_key * list ActivityRecord =>
           let ts := map timestamp (snd g) in
           let first := fold_right Z.min (hd 0 ts) ts in
           let latest := fold_right Z.max (hd 0 ts) ts in
           {| wr_pet := fst g;
              total_weight_checks_of_pet := List.length (snd g);
              first_check := first;
              latest_check := latest;
              latest_notes := hd "" (map notes (snd g));
              days_between_checks := delta_days (latest - first) |})
        (groupby pet_key_dec pet_key_leb pet_of weight_mentions) in
  Metrics {|
    pets_with_weight_monitoring := List.length weight_checks_per_pet;
    total_weight_checks := List.length weight_mentions;
    avg_checks_per_pet :=
      if negb (is_empty weight_checks_per_pet)
      then mean (map (fun r => count_q (total_weight_checks_of_pet r)) weight_checks_per_pet)
      else Fin 0;
    weight_detailed_per_pet := weight_checks_per_pet;
    recent_weight_activities :=
      firstn 10 (sort_by (fun x y => timestamp y <=? timestamp x) weight_mentions) |}.

End PetWellnessAnalyzer.

(* ================================================================== *)
(** ** [analytics/environmental.py]: [EnvironmentalAnalyzer] *)

(** The three windowed methods and the comfort score;
    [get_environmental_summary], which only combines them, is not
    represented. *)

Module EnvironmentalAnalyzer.

Definition init (environment_df : list EnvironmentReading) : list EnvironmentReading :=
  environment_df.

Definition within (lo hi : Q) (x : pyfloat) : bool :=
  fle (Fin lo) x && fle x (Fin hi).

Definition _rate_temperature_comfort (temp : pyfloat) : string :=
  let config := temperature ENVIRONMENT in
  if within (optimal_min config) (optimal_max config) temp then "optimal"
  else if within (alert_min config) (alert_max config) temp then "acceptable"
  else "poor".

Definition _rate_humidity_comfort (hum : pyfloat) : string :=
  let config := humidity ENVIRONMENT in
  if within (optimal_min config) (optimal_max config) hum then "optimal"
  else if within (alert_min config) (alert_max config) hum then "acceptable"
  else "poor".

Definition _categorize_noise_level (noise_db : pyfloat) : string :=
  let config := noise ENVIRONMENT in
  if fle noise_db (Fin (normal_max config)) then "normal"
  else if fle noise_db (Fin (alert_threshold config)) then "elevated"
  else if fle noise_db (Fin (critical_threshold config)) then "high"
  else "critical".

Definition _categorize_temperature_range (temp : pyfloat) : string :=
  if flt temp (Fin 65) then "cold"
  else if flt temp (Fin 72) then "cool"
  else if fle temp (Fin 78) then "optimal"
  else if fle temp (Fin 82) then "warm"
  else "hot".

Definition fabs (x : pyfloat) : pyfloat :=
  match x with
  | Fin q => Fin (Qabs q)
  | PosInf | NegInf => PosInf
  | NaN => NaN
  end.

Definition _interpret_correlation (correlation : pyfloat) : string :=
  let abs_corr := fabs correlation in
  if fge abs_corr (Fin (7 # 10)) then "strong"
  else if fge abs_corr (Fin (4 # 10)) then "moderate"
  else if fge abs_corr (Fin (2 # 10)) then "weak"
  else "negligible".

(** The [overall] statistics.  The three standard deviations are not
    represented. *)
Record OverallStats : Type := {
  avg_temperature : pyfloat;
  avg_humidity : pyfloat;
  avg_noise : pyfloat;
  total_readings : nat;
  days_analyzed : Z
}.

(** The three sub-scores of [_calculate_comfort_score]. *)
Definition temp_score (overall_stats : OverallStats) : Q :=
  if within (optimal_min (temperature ENVIRONMENT)) (optimal_max (temperature ENVIRONMENT))
            (avg_temperature overall_stats) then 100 else 50.

Definition humidity_score (overall_stats : OverallStats) : Q :=
  if within (optimal_min (humidity ENVIRONMENT)) (optimal_max (humidity ENVIRONMENT))
            (avg_humidity overall_stats) then 100 else 50.

Definition noise_score (overall_stats : OverallStats) : Q :=
  if fle (avg_noise overall_stats) (Fin (normal_max (noise ENVIRONMENT))) then 100 else 50.

Definition _calculate_comfort_score (overall_stats : OverallStats) : Q :=
  round_dec 1 ((temp_score overall_stats + humidity_score overall_stats
                + noise_score overall_stats) / 3).

(** A row of [section_stats]: the rounded means (the other statistics of
    the section are not represented) and the two comfort ratings. *)
Record SectionStats : Type := {
  section : string;
  mean_temperature_f : pyfloat;
  mean_humidity_percent : pyfloat;
  mean_noise_level_db : pyfloat;
  temp_comfort_rating : string;
  humidity_comfort_rating : string
}.

Record ComfortSummary : Type := {
  temperature_comfort_distribution : list (string * nat);
  humidity_comfort_distribution : list (string * nat);
  noise_level_distribution : list (string * nat)
}.

(** The frames here carry the [temp_comfort], [humidity_comfort] and
    [noise_comfort] columns, so the first branch is the one taken. *)
Definition _get_comfort_summary (df : list EnvironmentReading) : ComfortSummary := {|
  temperature_comfort_distribution := value_counts (map temp_comfort df);
  humidity_comfort_distribution := value_counts (map humidity_comfort df);
  noise_level_distribution := value_counts (map noise_comfort df)
|}.

Record TemperatureHumidity : Type := {
  overall : OverallStats;
  by_section : list SectionStats;
  comfort_summary : ComfortSummary
}.

Definition get_temperature_humidity_averages (self_df : list EnvironmentReading)
  (now : instant) (days : option Z) (by_section_flag : bool)
  : analysis TemperatureHumidity :=
  let days := days_or days (ANALYSIS_WINDOWS medium_term) in
  let cutoff_date := now - timedelta_days days in
  let recent_df := since env_timestamp cutoff_date self_df in
  let section_stats :=
    if by_section_flag then
      map (fun g : string * list EnvironmentReading =>
             let t := fround 2 (mean (map temperature_f (snd g))) in
             let h := fround 2 (mean (map humidity_percent (snd g))) in
             {| section := fst g;
                mean_temperature_f := t;
                mean_humidity_percent := h;
                mean_noise_level_db := fround 2 (mean (map noise_level_db (snd g)));
                temp_comfort_rating := _rate_temperature_comfort t;
                humidity_comfort_rating := _rate_humidity_comfort h |})
          (groupby string_dec String.leb kennel_section recent_df)
    else [] in
  let overall_stats := {|
    avg_temperature := mean (map temperature_f recent_df);
    avg_humidity := mean (map humidity_percent recent_df);
    avg_noise := mean (map noise_level_db recent_df);
    total_readings := List.length recent_df;
    days_analyzed := days |} in
  Metrics {| overall := overall_stats;
             by_section := section_stats;
             comfort_summary := _get_comfort_summary recent_df |}.

Definition slot_of (e : EnvironmentReading) : slot_key := (env_date e, env_hour e).

(** The noise analysis.  [daily_breakdown] is kept in long form, one
    entry per (date, category), before [unstack]. *)
Record NoiseAlerts : Type := {
  total_alerts : nat;
  critical_alerts : nat;
  alerts_per_day : Q;
  hourly_alerts : list (slot_key * nat);
  daily_breakdown : list ((Z * string) * nat);
  peak_noise_hours : list (Z * pyfloat);
  noise_distribution : list (string * nat);
  recent_alerts : list EnvironmentReading
}.

Definition get_noise_level_alerts (self_df : list EnvironmentReading)
  (now : instant) (days : option Z) : analysis NoiseAlerts :=
  let days := days_or days (ANALYSIS_WINDOWS short_term) in
  let cutoff_date := now - timedelta_days days in
  let recent_df := since env_timestamp cutoff_date self_df in
  let alert_threshold := alert_threshold (noise ENVIRONMENT) in
  let critical_threshold := critical_threshold (noise ENVIRONMENT) in
  let noise_category := fun e => _categorize_noise_level (Fin (noise_level_db e)) in
  let above := fun (th : Q) (e : EnvironmentReading) => Qlt_bool th (noise_level_db e) in
  let hourly_alerts :=
    map (fun g : slot_key * list EnvironmentReading => (fst g, List.length (snd g)))
        (groupby slot_key_dec slot_key_leb slot_of (filter (above alert_threshold) recent_df)) in
  let daily_alerts :=
    map (fun g : (Z * string) * list EnvironmentReading => (fst g, List.length (snd g)))
        (groupby (pair_dec Z.eq_dec string_dec) (lex_leb Z.eq_dec Z.leb String.leb)
                 (fun e => (env_date e, noise_category e)) recent_df) in
  let hourly_avg :=
    map (fun g : Z * list EnvironmentReading =>
           (fst g, fround 2 (mean (map noise_level_db (snd g)))))
        (groupby Z.eq_dec Z.leb env_hour recent_df) in
  let peak_hours :=
    sort_by (fun x y : Z * pyfloat => PetWellnessAnalyzer.desc_leb (snd x) (snd y))
            (filter (fun x : Z * pyfloat => fgt (snd x) (Fin alert_threshold)) hourly_avg) in
  let alerts := filter (above alert_threshold) recent_df in
  Metrics {|
    total_alerts := List.length alerts;
    critical_alerts := List.length (filter (above critical_threshold) recent_df);
    alerts_per_day := truediv (count_q (List.length alerts)) (inject_Z days);
    hourly_alerts := hourly_alerts;
    daily_breakdown := daily_alerts;
    peak_noise_hours := peak_hours;
    noise_distribution := value_counts (map noise_category recent_df);
    recent_alerts := skipn (List.length alerts - 10) alerts |}.

Record EnvHourly : Type := {
  eh_slot : slot_key;
  eh_temperature_f : pyfloat;
  eh_humidity_percent : pyfloat;
  eh_noise_level_db : pyfloat
}.

Record ActivityHourly : Type := {
  ah_slot : slot_key;
  ah_total_activity_minutes : Q;
  ah_activity_count : nat
}.

(** A row of the inner join on [(date, hour)]. *)
Record Merged : Type := {
  m_slot : slot_key;
  m_temperature_f : pyfloat;
  m_humidity_percent : pyfloat;
  m_noise_level_db : pyfloat;
  m_total_activity_minutes : Q;
  m_activity_count : nat
}.

Definition env_hourly_of (recent : list EnvironmentReading) : list EnvHourly :=
  map (fun g : slot_key * list EnvironmentReading =>
         {| eh_slot := fst g;
            eh_temperature_f := mean (map temperature_f (snd g));
            eh_humidity_percent := mean (map humidity_percent (snd g));
            eh_noise_level_db := mean (map noise_level_db (snd g)) |})
      (groupby slot_key_dec slot_key_leb slot_of recent).

Definition activity_hourly_of (recent : list ActivityRecord) : list ActivityHourly :=
  map (fun g : slot_key * list ActivityRecord =>
         {| ah_slot := fst g;
            ah_total_activity_minutes := qsum (map duration_minutes (snd g));
            ah_activity_count := List.length (snd g) |})
      (groupby slot_key_dec slot_key_leb (fun a => (date a, hour a)) recent).

(** [pd.merge(env_hourly, activity_hourly, on=['date', 'hour'], how='inner')]. *)
Definition merge_inner (env_hourly : list EnvHourly) (activity_hourly : list ActivityHourly)
  : list Merged :=
  flat_map (fun e =>
    map (fun a => {| m_slot := eh_slot e;
                     m_temperature_f := eh_temperature_f e;
                     m_humidity_percent := eh_humidity_percent e;
                     m_noise_level_db := eh_noise_level_db e;
                     m_total_activity_minutes := ah_total_activity_minutes a;
                     m_activity_count := ah_activity_count a |})
        (filter (fun a => if slot_key_dec (ah_slot a) (eh_slot e) then true else false)
                activity_hourly))
    env_hourly.

(** The hourly join computed inside [get_temperature_activity_correlation]. *)
Definition merged_df_of (self_df : list EnvironmentReading)
  (pet_activities_df : list ActivityRecord) (now : instant) (days : option Z) : list Merged :=
  let days := days_or days (ANALYSIS_WINDOWS medium_term) in
  let cutoff_date := now - timedelta_days days in
  merge_inner (env_hourly_of (since env_timestamp cutoff_date self_df))
              (activity_hourly_of (since timestamp cutoff_date pet_activities_df)).

Definition temp_range (m : Merged) : string :=
  _categorize_temperature_range (m_temperature_f m).

(** [series.idxmax()]: the label of the first largest entry. *)
Fixpoint idxmax (l : list (string * pyfloat)) : option (string * pyfloat) :=
  match l with
  | [] => None
  | x :: t =>
      match idxmax t with
      | Some y => if fgt (snd y) (snd x) then Some y else Some x
      | None => Some x
      end
  end.

Definition _find_optimal_temperature_range (merged_df : list Merged) : string :=
  let activity_by_temp :=
    map (fun g : string * list Merged =>
           (fst g, mean (map m_total_activity_minutes (snd g))))
        (groupby string_dec String.leb temp_range merged_df) in
  match idxmax activity_by_temp with
  | Some best => fst best
  | None => "unknown"
  end.

Record CorrelationAnalysis : Type := {
  temperature_activity_correlation : pyfloat;
  temperature_count_correlation : pyfloat;
  humidity_activity_correlation : pyfloat;
  activity_by_temperature_range : list (string * (pyfloat * pyfloat));
  optimal_temperature_range : string;
  data_points : nat;
  correlation_strength : string
}.

Section Correlation.
(** [Series.corr]: the Pearson coefficient of two columns, computed by
    pandas. *)
Variable corr : list pyfloat -> list pyfloat -> pyfloat.

Definition get_temperature_activity_correlation (self_df : list EnvironmentReading)
  (pet_activities_df : list ActivityRecord) (now : instant) (days : option Z)
  : analysis CorrelationAnalysis :=
  let merged_df := merged_df_of self_df pet_activities_df now days in
  if is_empty merged_df then
    Error "No matching data found for correlation analysis"
  else
    let minutes := map (fun m => Fin (m_total_activity_minutes m)) merged_df in
    let counts := map (fun m => Fin (count_q (m_activity_count m))) merged_df in
    let temp_activity_corr := corr (map m_temperature_f merged_df) minutes in
    let temp_count_corr := corr (map m_temperature_f merged_df) counts in
    let humidity_activity_corr := corr (map m_humidity_percent merged_df) minutes in
    let activity_by_temp :=
      map (fun g : string * list Merged =>
             (fst g,
              (fround 2 (mean (map m_total_activity_minutes (snd g))),
               fround 2 (mean (map (fun m => count_q (m_activity_count m)) (snd g))))))
          (groupby string_dec String.leb temp_range merged_df) in
    Metrics {|
      temperature_activity_correlation := fround 3 temp_activity_corr;
      temperature_count_correlation := fround 3 temp_count_corr;
      humidity_activity_correlation := fround 3 humidity_activity_corr;
      activity_by_temperature_range := activity_by_temp;
      optimal_temperature_range := _find_optimal_temperature_range merged_df;
      data_points := List.length merged_df;
      correlation_strength := _interpret_correlation temp_activity_corr |}.
End Correlation.

End EnvironmentalAnalyzer.

(* ================================================================== *)
(** ** [analytics/operations.py]: [OperationsAnalyzer] *)

Module OperationsAnalyzer.

Record t : Type := {
  staff_df : list StaffLog;
  activities_df : list ActivityRecord
}.

Definition init (staff_logs_df : list StaffLog) (pet_activities_df : list ActivityRecord) : t :=
  {| staff_df := staff_logs_df; activities_df := pet_activities_df |}.

Definition pet_of := PetWellnessAnalyzer.pet_of.

(** *** Grooming *)

Record PetGrooming : Type := {
  pg_pet : pet_key;
  pg_total_grooming_sessions : nat;
  first_groom : instant;
  latest_groom : instant;
  pg_avg_duration : pyfloat;
  days_since_last_groom : Z;
  grooming_frequency_days : Q
}.

Record DailyGrooming : Type := {
  dg_date : Z;
  grooming_sessions : nat;
  total_minutes : Q;
  dg_avg_duration : pyfloat;
  staff_involved : nat
}.

Record GroomingAnalysis : Type := {
  total_grooming_sessions : nat;
  pets_groomed : nat;
  avg_sessions_per_pet : pyfloat;
  avg_grooming_duration : pyfloat;
  pets_needing_grooming : nat;
  pets_overdue_grooming : nat;
  grooming_schedule_compliance : Q;
  grooming_detailed_per_pet : list PetGrooming;
  daily_patterns : list DailyGrooming;
  pets_needing_attention : list (pet_key * Z)
}.

(** The grooming rows of the window. *)
Definition grooming_df_of (self : t) (now : instant) (days : option Z) : list ActivityRecord :=
  let days := days_or days (ANALYSIS_WINDOWS medium_term) in
  let cutoff_date := now - timedelta_days days in
  filter (fun a => String.eqb (activity_type a) "grooming" && (cutoff_date <=? timestamp a))
         (activities_df self).

(** The per-pet grooming table [pet_grooming]. *)
Definition pet_grooming_of (now : instant) (grooming_df : list ActivityRecord)
  : list PetGrooming :=
  map (fun g : pet_key * list ActivityRecord =>
         let ts := map timestamp (snd g) in
         let n := List.length (snd g) in
         let first := fold_right Z.min (hd 0 ts) ts in
         let latest := fold_right Z.max (hd 0 ts) ts in
         {| pg_pet := fst g;
            pg_total_grooming_sessions := n;
            first_groom := first;
            latest_groom := latest;
            pg_avg_duration := mean (map duration_minutes (snd g));
            days_since_last_groom := delta_days (now - latest);
            grooming_frequency_days :=
              if (1 <? n)%nat
              then truediv (inject_Z (delta_days (latest - first)))
                           (inject_Z (Z.max 1 (Z.of_nat n - 1)))
              else 0%Q |})
      (groupby pet_key_dec pet_key_leb pet_of grooming_df).

Definition get_grooming_cleaning_frequency (self : t) (now : instant) (days : option Z)
  : analysis GroomingAnalysis :=
  let grooming_df := grooming_df_of self now days in
  if is_empty grooming_df then
    Error "No grooming data found for the specified period"
  else
    let pet_grooming := pet_grooming_of now grooming_df in
    let target_days := target_days_between (grooming_frequency OPERATIONS) in
    let alert_days := alert_days_overdue (grooming_frequency OPERATIONS) in
    let pets_needing_grooming :=
      filter (fun p => target_days <? days_since_last_groom p) pet_grooming in
    let pets_overdue_grooming :=
      filter (fun p => alert_days <? days_since_last_groom p) pet_grooming in
    let daily_grooming :=
      map (fun g : Z * list ActivityRecord =>
             {| dg_date := fst g;
                grooming_sessions := List.length (snd g);
                total_minutes := qsum (map duration_minutes (snd g));
                dg_avg_duration := mean (map duration_minutes (snd g));
                staff_involved := List.length (nodup string_dec (map staff_id (snd g))) |})
          (groupby Z.eq_dec Z.leb date grooming_df) in
    Metrics {|
      total_grooming_sessions := List.length grooming_df;
      pets_groomed := List.length pet_grooming;
      avg_sessions_per_pet :=
        mean (map (fun p => count_q (pg_total_grooming_sessions p)) pet_grooming);
      avg_grooming_duration := mean (map duration_minutes grooming_df);
      pets_needing_grooming := List.length pets_needing_grooming;
      pets_overdue_grooming := List.length pets_overdue_grooming;
      grooming_schedule_compliance :=
        if (0 <? List.length pet_grooming)%nat
        then Qred ((1 - truediv (count_q (List.length pets_overdue_grooming))
                                (count_q (List.length pet_grooming))) * 100)
        else 0%Q;
      grooming_detailed_per_pet := pet_grooming;
      daily_patterns := daily_grooming;
      pets_needing_attention :=
        map (fun p => (pg_pet p, days_since_last_groom p)) pets_overdue_grooming |}.

(** *** Staff performance *)

Definition _rate_staff_performance (tasks_per_hour : pyfloat) : string :=
  let config := staff_performance OPERATIONS in
  if fge tasks_per_hour (Fin (target_tasks_per_hour config)) then "excellent"
  else if fge tasks_per_hour (Fin (min_tasks_per_hour config)) then "satisfactory"
  else "below_target".

Record StaffPerformance : Type := {
  sp_staff : string * string;
  total_tasks : Q;
  avg_tasks_per_shift : pyfloat;
  total_hours : Q;
  avg_hours_per_shift : pyfloat;
  avg_tasks_per_hour : pyfloat;
  total_shifts : nat;
  performance_rating : string
}.

(** The staff analysis.  [detailed_staff_metrics] (the left join with
    the per-staff activity counts) is not represented. *)
Record StaffAnalysis : Type := {
  total_staff_analyzed : nat;
  avg_tasks_per_hour_kennel : pyfloat;
  top_performers : list StaffPerformance;
  staff_needing_support : list StaffPerformance;
  shift_type_performance : list (string * pyfloat);
  performance_distribution : list (string * nat)
}.

(** The staff rows of the window. *)
Definition recent_staff_of (self : t) (now : instant) (days : option Z) : list StaffLog :=
  let days := days_or days (ANALYSIS_WINDOWS medium_term) in
  let cutoff_date := now - timedelta_days days in
  since shift_start cutoff_date (staff_df self).

(** The table [staff_performance], grouped by [(staff_id, staff_name)];
    pairs of strings are compared as the pet keys are. *)
Definition staff_performance_of (recent_staff : list StaffLog) : list StaffPerformance :=
  map (fun g : (string * string) * list StaffLog =>
         let avg := fround 2 (fmean (map tasks_per_hour (snd g))) in
         {| sp_staff := fst g;
            total_tasks := round_dec 2 (qsum (map tasks_completed (snd g)));
            avg_tasks_per_shift := fround 2 (mean (map tasks_completed (snd g)));
            total_hours := round_dec 2 (qsum (map shift_duration_hours (snd g)));
            avg_hours_per_shift := fround 2 (mean (map shift_duration_hours (snd g)));
            avg_tasks_per_hour := avg;
            total_shifts := List.length (snd g);
            performance_rating := _rate_staff_performance avg |})
      (groupby pet_key_dec pet_key_leb (fun s => (log_staff_id s, staff_name s)) recent_staff).

Definition get_staff_performance_analysis (self : t) (now : instant) (days : option Z)
  : analysis StaffAnalysis :=
  let recent_staff := recent_staff_of self now days in
  if is_empty recent_staff then
    Error "No staff data found for the specified period"
  else
    let staff_performance := staff_performance_of recent_staff in
    let shift_analysis :=
      map (fun g : (string * string) * list StaffLog =>
             (snd (fst g), fmean (map tasks_per_hour (snd g))))
          (groupby pet_key_dec pet_key_leb (fun s => (log_staff_id s, shift_type s))
                   recent_staff) in
    Metrics {|
      total_staff_analyzed := List.length staff_performance;
      avg_tasks_per_hour_kennel := fmean (map avg_tasks_per_hour staff_performance);
      top_performers :=
        firstn 5 (sort_by (fun x y => PetWellnessAnalyzer.desc_leb
                                        (avg_tasks_per_hour x) (avg_tasks_per_hour y))
                          staff_performance);
      staff_needing_support :=
        filter (fun s => String.eqb (performance_rating s) "below_target") staff_performance;
      shift_type_performance :=
        map (fun g : string * list (string * pyfloat) => (fst g, fmean (map snd (snd g))))
            (groupby string_dec String.leb fst shift_analysis);
      performance_distribution := value_counts (map performance_rating staff_performance) |}.

(** *** Alert trends *)

Record AlertSummary : Type := {
  health_alerts_trend : string;
  feeding_delays_trend : string
}.

Record AlertAnalysis : Type := {
  total_health_alerts : nat;
  total_feeding_delays : nat;
  avg_health_alerts_per_day : Q;
  avg_feeding_delays_per_day : Q;
  peak_health_alert_hours : list (Z * nat);
  peak_feeding_issue_hours : list (Z * nat);
  pets_with_frequent_health_alerts : list (pet_key * nat);
  pets_with_feeding_issues : list (pet_key * nat);
  staff_alert_response : list (string * nat);
  daily_health_trend : list (Z * nat);
  daily_feeding_trend : list (Z * nat);
  alert_summary : AlertSummary
}.

Definition normal_feeding_hours : list Z := [7; 8; 12; 13; 17; 18].

(** [df.groupby(key).size()]. *)
Definition group_sizes {K : Type} (K_dec : forall x y : K, {x = y} + {x <> y})
  (leb : K -> K -> bool) (key : ActivityRecord -> K) (l : list ActivityRecord)
  : list (K * nat) :=
  map (fun g : K * list ActivityRecord => (fst g, List.length (snd g)))
      (groupby K_dec leb key l).

(** [series.nlargest(3)]. *)
Definition nlargest3 (l : list (Z * nat)) : list (Z * nat) :=
  firstn 3 (sort_by (fun x y : Z * nat => (snd y <=? snd x)%nat) l).

Definition trend_of (daily : list (Z * nat)) : string :=
  let counts := map (fun x : Z * nat => count_q (snd x)) daily in
  let tail3 := skipn (List.length counts - 3) counts in
  let head3 := firstn 3 counts in
  if fgt (mean tail3) (mean head3) then "increasing" else "stable".

Definition get_alert_trends_analysis (self : t) (now : instant) (days : option Z)
  : analysis AlertAnalysis :=
  let days := days_or days (ANALYSIS_WINDOWS medium_term) in
  let cutoff_date := now - timedelta_days days in
  let recent_activities := since timestamp cutoff_date (activities_df self) in
  let health_alerts :=
    filter (fun a => String.eqb (activity_type a) "medical") recent_activities in
  let feeding_activities :=
    filter (fun a => String.eqb (activity_type a) "feeding") recent_activities in
  let feeding_delays :=
    filter (fun a => negb (existsb (Z.eqb (hour a)) normal_feeding_hours))
           feeding_activities in
  let daily_health_alerts := group_sizes Z.eq_dec Z.leb date health_alerts in
  let daily_feeding_delays := group_sizes Z.eq_dec Z.leb date feeding_delays in
  let hourly_health_alerts := group_sizes Z.eq_dec Z.leb hour health_alerts in
  let hourly_feeding_issues := group_sizes Z.eq_dec Z.leb hour feeding_delays in
  let pet_health_alerts := group_sizes pet_key_dec pet_key_leb pet_of health_alerts in
  let pet_feeding_issues := group_sizes pet_key_dec pet_key_leb pet_of feeding_delays in
  let staff_alert_handling := group_sizes string_dec String.leb staff_id health_alerts in
  Metrics {|
    total_health_alerts := List.length health_alerts;
    total_feeding_delays := List.length feeding_delays;
    avg_health_alerts_per_day := truediv (count_q (List.length health_alerts)) (inject_Z days);
    avg_feeding_delays_per_day := truediv (count_q (List.length feeding_delays)) (inject_Z days);
    peak_health_alert_hours := nlargest3 hourly_health_alerts;
    peak_feeding_issue_hours := nlargest3 hourly_feeding_issues;
    pets_with_frequent_health_alerts :=
      filter (fun x : pet_key * nat => (2 <? snd x)%nat) pet_health_alerts;
    pets_with_feeding_issues :=
      filter (fun x : pet_key * nat => (1 <? snd x)%nat) pet_feeding_issues;
    staff_alert_response := staff_alert_handling;
    daily_health_trend := daily_health_alerts;
    daily_feeding_trend := daily_feeding_delays;
    alert_summary := {|
      health_alerts_trend := trend_of daily_health_alerts;
      feeding_delays_trend := trend_of daily_feeding_delays |} |}.

(** *** Scores and summary *)

Definition _calculate_staff_score (staff_analysis : analysis StaffAnalysis) : Q :=
  match staff_analysis with
  | Error _ => 50
  | Metrics a =>
      let performance_dist := performance_distribution a in
      let total_staff := fold_right Nat.add 0%nat (map snd performance_dist) in
      if (total_staff =? 0)%nat then 50
      else
        let excellent := count_of "excellent" performance_dist in
        let satisfactory := count_of "satisfactory" performance_dist in
        let score := truediv (count_q excellent * 100 + count_q satisfactory * 70)
                             (count_q total_staff) in
        Qmin 100 score
  end.

Definition _calculate_alert_score (alert_analysis : analysis AlertAnalysis) : Q :=
  match alert_analysis with
  | Error _ => 50
  | Metrics a =>
      let health_alerts_per_day := avg_health_alerts_per_day a in
      let feeding_delays_per_day := avg_feeding_delays_per_day a in
      let health_penalty := Qmin 30 (health_alerts_per_day * 5) in
      let feeding_penalty := Qmin 20 (feeding_delays_per_day * 10) in
      Qmax 0 (100 - health_penalty - feeding_penalty)
  end.

(** The summary.  [key_recommendations] (a list of messages) is not
    represented. *)
Record OperationsSummary : Type := {
  operations_score : Q;
  grooming_operations : analysis GroomingAnalysis;
  staff_performance_analysis : analysis StaffAnalysis;
  alert_management : analysis AlertAnalysis
}.

Definition get_operations_summary (self : t) (now : instant) : OperationsSummary :=
  let grooming_analysis := get_grooming_cleaning_frequency self now None in
  let staff_analysis := get_staff_performance_analysis self now None in
  let alert_analysis := get_alert_trends_analysis self now None in
  let grooming_score :=
    match grooming_analysis with
    | Metrics g => grooming_schedule_compliance g
    | Error _ => 0%Q
    end in
  let staff_score := _calculate_staff_score staff_analysis in
  let alert_score := _calculate_alert_score alert_analysis in
  let overall_score := ((grooming_score + staff_score + alert_score) / 3)%Q in
  {| operations_score := round_dec 1 overall_score;
     grooming_operations := grooming_analysis;
     staff_performance_analysis := staff_analysis;
     alert_management := alert_analysis |}.

End OperationsAnalyzer.

(* ================================================================== *)
(** ** The score formula in the words of the specification *)

Module SpecWords.

(** "a staff score = (excellent_count x 100 + satisfactory_count x 70) /
    total_staff (0 if no staff)". *)
Definition staff_score (excellent_count satisfactory_count total_staff : nat) : Q :=
  if (total_staff =? 0)%nat then 0
  else (count_q excellent_count * 100 + count_q satisfactory_count * 70)
       / count_q total_staff.

(** "an alert score = 100 - min(30, healthAlertsPerDay x 5) -
    min(20, feedingDelaysPerDay x 10), floored at 0". *)
Definition alert_score (health_alerts_per_day feeding_delays_per_day : Q) : Q :=
  Qmax 0 (100 - Qmin 30 (health_alerts_per_day * 5) - Qmin 20 (feeding_delays_per_day * 10)).

(** "overall score = unweighted mean of" the three sub-scores. *)
Definition operations_score (grooming_compliance staff alert : Q) : Q :=
  (grooming_compliance + staff + alert) / 3.

End SpecWords.

(* ================================================================== *)
(** ** Concrete tables used in the examples *)

Module Scenarios.

Import DataTransformer.

Definition activity (pet type : string) (day h : Z) (minutes : Q) : ActivityRecord := {|
  pet_id := pet; pet_name := pet; activity_type := type;
  timestamp := at_time day h 0; duration_minutes := minutes;
  staff_id := "S1"; notes := ""; date := day; hour := h |}.

Definition reading (day h : Z) (temp hum noise_db : Q) : EnvironmentReading := {|
  env_timestamp := at_time day h 0; kennel_section := "A";
  temperature_f := temp; humidity_percent := hum; noise_level_db := noise_db;
  env_date := day; env_hour := h;
  temp_comfort := "comfortable"; humidity_comfort := "comfortable";
  noise_comfort := "normal" |}.

(** A shift from 09:00 to 17:00 with ten tasks. *)
Definition day_shift (day : Z) : RawStaffLog := {|
  raw_staff_id := "S1"; raw_staff_name := "Ann";
  raw_shift_start := at_time day 9 0; raw_shift_end := at_time day 17 0;
  raw_tasks_completed := Some 10%Q |}.

(** A shift that ends when it starts. *)
Definition empty_shift : RawStaffLog := {|
  raw_staff_id := "S2"; raw_staff_name := "Bob";
  raw_shift_start := at_time 100 9 0; raw_shift_end := at_time 100 9 0;
  raw_tasks_completed := Some 3%Q |}.

(** Rex: 30, 45 and 0 minutes on three days, as extracted. *)
Definition raw_activity (pet type : string) (day h : Z) (minutes : Q) : RawActivity := {|
  raw_pet_id := pet; raw_pet_name := pet; raw_activity_type := type;
  raw_timestamp := at_time day h 0; raw_duration_minutes := Some minutes;
  raw_activity_staff_id := "S1"; raw_notes := "" |}.

Definition rex_raw_activities : list RawActivity :=
  [raw_activity "Rex" " Play" 100 9 30; raw_activity "Rex" "play" 101 9 45;
   raw_activity "Rex" "play" 102 9 0].

(** One grooming session and one medical visit, both on day 100. *)
Definition day100_activities : list ActivityRecord :=
  [activity "Rex" "grooming" 100 9 30; activity "Rex" "medical" 100 10 15].

(** One reading and one activity in the same hour. *)
Definition one_reading : list EnvironmentReading := [reading 100 9 70 50 35].
Definition one_activity : list ActivityRecord := [activity "Rex" "play" 100 9 30].

End Scenarios.

(* ================================================================== *)
(** ** [analytics/pet_wellness.py]: [get_pet_wellness_summary] *)

Module WellnessSummary.

Import PetWellnessAnalyzer.

Record PetWellnessSummary : Type := {
  total_pets : nat;
  activity_wellness_rate : Q;
  feeding_wellness_rate : Q;
  pets_needing_attention : list PetAverage;
  activity_details : list PetAverage;
  feeding_details : analysis FeedingAnalysis;
  weight_monitoring : analysis WeightAnalysis
}.

Definition status_is (label : string) (r : PetAverage) : bool :=
  String.eqb (activity_status r) label.

Definition feeding_is (label : string) (r : FeedingRow) : bool :=
  String.eqb (feeding_status r) label.

(** [(part / total * 100) if total > 0 else 0]. *)
Definition rate_percent (part total : nat) : Q :=
  if (0 <? total)%nat then Qred (count_q part / count_q total * 100) else 0.

(** The summary at the default window.  [None] stands for the [KeyError]
    that [feeding_analysis['detailed_per_pet']] raises on an error
    mapping. *)
Definition get_pet_wellness_summary (self_df : list ActivityRecord) (now : instant)
  : option PetWellnessSummary :=
  let activity_analysis := get_avg_activity_time_per_pet self_df now None in
  let feeding_analysis := get_feeding_frequency_analysis self_df now None in
  let weight_analysis := get_weight_trend_analysis self_df now None in
  let total_pets := List.length activity_analysis in
  let active_pets := List.length (filter (status_is "optimal") activity_analysis) in
  match feeding_analysis with
  | Error _ => None
  | Metrics f =>
      let well_fed_pets :=
        List.length (filter (feeding_is "normal") (feeding_detailed_per_pet f)) in
      Some {|
        total_pets := total_pets;
        activity_wellness_rate := rate_percent active_pets total_pets;
        feeding_wellness_rate := rate_percent well_fed_pets total_pets;
        pets_needing_attention :=
          filter (fun r => status_is "low" r || status_is "high" r) activity_analysis;
        activity_details := activity_analysis;
        feeding_details := feeding_analysis;
        weight_monitoring := weight_analysis |}
  end.

End WellnessSummary.

(* ================================================================== *)
(** ** [analytics/operations.py]: [_generate_recommendations] *)

Module Recommendations.

Import OperationsAnalyzer.

(** [str(n)] of a count. *)
Definition nat_to_string (n : nat) : string :=
  NilEmpty.string_of_uint (Nat.to_uint n).

Definition grooming_message (n : nat) : string :=
  "Schedule grooming for " ++ nat_to_string n ++ " overdue pets".

Definition staff_message (n : nat) : string :=
  "Provide additional training/support to " ++ nat_to_string n ++ " staff members".

Definition health_message : string :=
  "Review health monitoring protocols - high alert frequency detected".

Definition feeding_message : string :=
  "Optimize feeding schedules to reduce delays".

Definition smooth_message : string :=
  "Operations are running smoothly - maintain current standards".

(** The entries each of the three analyses contributes.  An error
    mapping has a non-empty message, so [not x.get('error')] fails on it. *)
Definition grooming_recommendations (grooming : analysis GroomingAnalysis) : list string :=
  match grooming with
  | Metrics g =>
      if (0 <? pets_overdue_grooming g)%nat
      then [grooming_message (pets_overdue_grooming g)] else []
  | Error _ => []
  end.

Definition staff_recommendations (staff : analysis StaffAnalysis) : list string :=
  match staff with
  | Metrics s =>
      let below_target := List.length (staff_needing_support s) in
      if (0 <? below_target)%nat then [staff_message below_target] else []
  | Error _ => []
  end.

Definition alert_recommendations (alerts : analysis AlertAnalysis) : list string :=
  match alerts with
  | Metrics a =>
      (if Qlt_bool 2 (avg_health_alerts_per_day a) then [health_message] else [])
      ++ (if Qlt_bool 1 (avg_feeding_delays_per_day a) then [feeding_message] else [])
  | Error _ => []
  end.

Definition _generate_recommendations (grooming : analysis GroomingAnalysis)
  (staff : analysis StaffAnalysis) (alerts : analysis AlertAnalysis) : list string :=
  let recommendations :=
    grooming_recommendations grooming ++ staff_recommendations staff
    ++ alert_recommendations alerts in
  if is_empty recommendations then [smooth_message] else recommendations.

(** The [key_recommendations] entry of [get_operations_summary]. *)
Definition key_recommendations (self : t) (now : instant) : list string :=
  _generate_recommendations
    (get_grooming_cleaning_frequency self now None)
    (get_staff_performance_analysis self now None)
    (get_alert_trends_analysis self now None).

End Recommendations.

(* ================================================================== *)
(** ** Orders on the category labels *)

Module Labels.

(** The four noise categories, from the quietest. *)
Definition noise_rank (label : string) : nat :=
  if String.eqb label "normal" then 0
  else if String.eqb label "elevated" then 1
  else if String.eqb label "high" then 2
  else 3.

(** The four correlation strengths, from the weakest. *)
Definition strength_rank (label : string) : nat :=
  if String.eqb label "negligible" then 0
  else if String.eqb label "weak" then 1
  else if String.eqb label "moderate" then 2
  else 3.

End Labels.

(* ================================================================== *)
(** ** [dashboard/app_working.py]: the metric functions *)

Module WorkingDashboard.

(** [series.min()] and [series.max()] of a column that is not empty. *)
Definition column_min (l : list Q) : Q := fold_right Qmin (hd 0%Q l) l.
Definition column_max (l : list Q) : Q := fold_right Qmax (hd 0%Q l) l.

Record EnvironmentalMetrics : Type := {
  em_avg_temperature : pyfloat;
  em_avg_humidity : pyfloat;
  em_avg_noise : pyfloat;
  em_temp_range : Q * Q;
  em_humidity_range : Q * Q;
  em_noise_alerts : nat;
  em_total_readings : nat
}.

(** [None] is the empty mapping [{}]. *)
Definition calculate_environmental_metrics (environment_df : list EnvironmentReading)
  (now : instant) (days : Z) : option EnvironmentalMetrics :=
  let cutoff_date := now - timedelta_days days in
  let recent_df := since env_timestamp cutoff_date environment_df in
  if is_empty recent_df then None
  else Some {|
    em_avg_temperature := mean (map temperature_f recent_df);
    em_avg_humidity := mean (map humidity_percent recent_df);
    em_avg_noise := mean (map noise_level_db recent_df);
    em_temp_range := (column_min (map temperature_f recent_df),
                      column_max (map temperature_f recent_df));
    em_humidity_range := (column_min (map humidity_percent recent_df),
                          column_max (map humidity_percent recent_df));
    em_noise_alerts :=
      List.length (filter (fun e => Qlt_bool 45 (noise_level_db e)) recent_df);
    em_total_readings := List.length recent_df |}.

(** A row of [pet_averages], which has no status column here. *)
Record PetAverageRow : Type := {
  par_pet : pet_key;
  par_avg_daily_minutes : pyfloat;
  par_avg_daily_activities : pyfloat
}.

Record WellnessMetrics : Type := {
  wm_activity_analysis : list PetAverageRow;
  wm_feeding_analysis : list (pet_key * nat);
  wm_total_pets : nat;
  wm_total_activities : nat;
  wm_activity_types : list (string * nat)
}.

Definition calculate_pet_wellness_metrics (pet_activities_df : list ActivityRecord)
  (now : instant) (days : Z) : option WellnessMetrics :=
  let cutoff_date := now - timedelta_days days in
  let recent_df := since timestamp cutoff_date pet_activities_df in
  if is_empty recent_df then None
  else
    let daily_activity := PetWellnessAnalyzer.daily_activity_of recent_df in
    let pet_averages :=
      map (fun g : pet_key * list PetWellnessAnalyzer.DailyActivity =>
             {| par_pet := fst g;
                par_avg_daily_minutes :=
                  fround 2 (mean (map PetWellnessAnalyzer.da_duration_minutes (snd g)));
                par_avg_daily_activities :=
                  fround 2 (mean (map (fun r => count_q
                                         (PetWellnessAnalyzer.da_activity_count r))
                                      (snd g))) |})
          (groupby pet_key_dec pet_key_leb PetWellnessAnalyzer.da_pet daily_activity) in
    let feeding_df :=
      filter (fun a => String.eqb (activity_type a) "feeding") recent_df in
    let feeding_counts :=
      OperationsAnalyzer.group_sizes pet_key_dec pet_key_leb
        PetWellnessAnalyzer.pet_of feeding_df in
    Some {|
      wm_activity_analysis := pet_averages;
      wm_feeding_analysis := feeding_counts;
      wm_total_pets := List.length pet_averages;
      wm_total_activities := List.length recent_df;
      wm_activity_types := value_counts (map activity_type recent_df) |}.

(** The two groups of keys of [calculate_operations_metrics]; a group is
    absent ([None]) when its window is empty. *)
Record StaffMetrics : Type := {
  om_total_staff : nat;
  om_avg_tasks_per_hour : pyfloat;
  om_total_shifts : nat
}.

Record ActivityMetrics : Type := {
  om_grooming_sessions : nat;
  om_medical_checks : nat;
  om_pets_groomed : nat
}.

Definition calculate_operations_metrics (staff_logs_df : list StaffLog)
  (pet_activities_df : list ActivityRecord) (now : instant) (days : Z)
  : option StaffMetrics * option ActivityMetrics :=
  let cutoff_date := now - timedelta_days days in
  let recent_staff := since shift_start cutoff_date staff_logs_df in
  let recent_activities := since timestamp cutoff_date pet_activities_df in
  let staff_part :=
    if negb (is_empty recent_staff) then
      Some {| om_total_staff :=
                List.length (nodup string_dec (map log_staff_id recent_staff));
              om_avg_tasks_per_hour := fmean (map tasks_per_hour recent_staff);
              om_total_shifts := List.length recent_staff |}
    else None in
  let activity_part :=
    if negb (is_empty recent_activities) then
      let grooming_activities :=
        filter (fun a => String.eqb (activity_type a) "grooming") recent_activities in
      let medical_activities :=
        filter (fun a => String.eqb (activity_type a) "medical") recent_activities in
      Some {| om_grooming_sessions := List.length grooming_activities;
              om_medical_checks := List.length medical_activities;
              om_pets_groomed :=
                if negb (is_empty grooming_activities)
                then List.length (nodup string_dec (map pet_id grooming_activities))
                else 0%nat |}
    else None in
  (staff_part, activity_part).

End WorkingDashboard.

(* ================================================================== *)
(** ** [etl/db.py]: the database URL *)

Module Db.

Definition truthy (s : option string) : bool :=
  match s with
  | Some (String _ _) => true
  | _ => false
  end.

Definition default_url : string := "sqlite:///output/kennelos.db".

(** The URL [get_engine] connects to, given its argument and the value of
    the [DATABASE_URL] environment variable ([None]: not set). *)
Definition engine_url (db_url env_url : option string) : string :=
  let url := if truthy db_url then db_url else env_url in
  if negb (truthy url) then default_url
  else match url with Some u => u | None => default_url end.

(** Whether [check_same_thread] is passed: [url.startswith('sqlite')]. *)
Definition sqlite_args (db_url env_url : option string) : bool :=
  String.prefix "sqlite" (engine_url db_url env_url).

End Db.

(* ================================================================== *)
(** * Properties *)

(** ** Facts about the number model *)

Module PyNumFacts.

Lemma round_half_even_comp (p q : Q) : p == q -> round_half_even p = round_half_even q.
Proof.
  intros E. unfold round_half_even.
  rewrite (Qfloor_comp _ _ E).
  assert (C : (p - inject_Z (Qfloor q) ?= 1 # 2)%Q = (q - inject_Z (Qfloor q) ?= 1 # 2)%Q).
  { apply Qcompare_comp; [rewrite E|]; reflexivity. }
  rewrite C. reflexivity.
Qed.

Lemma round_dec_comp (n : nat) (p q : Q) : p == q -> round_dec n p = round_dec n q.
Proof.
  intros E. unfold round_dec.
  set (s := inject_Z (10 ^ Z.of_nat n)).
  rewrite (round_half_even_comp (p * s) (q * s)); [reflexivity|].
  rewrite E. reflexivity.
Qed.

(** The rounded integer is within one half of the number. *)
Lemma round_half_even_near (x : Q) :
  (- (1 # 2) <= inject_Z (round_half_even x) - x)%Q /\
  (inject_Z (round_half_even x) - x <= 1 # 2)%Q.
Proof.
  unfold round_half_even. cbv zeta.
  pose proof (Qfloor_le x) as L. pose proof (Qlt_floor x) as U.
  rewrite inject_Z_plus in U. change (inject_Z 1) with 1%Q in U.
  set (f := Qfloor x) in *.
  destruct (Qcompare_spec (x - inject_Z f) (1 # 2)) as [E|Lt|Gt].
  - destruct (Z.even f).
    + split; lra.
    + rewrite inject_Z_plus. change (inject_Z 1) with 1%Q. split; lra.
  - split; lra.
  - rewrite inject_Z_plus. change (inject_Z 1) with 1%Q. split; lra.
Qed.

(** [round_dec] gives a nearest number with [n] decimals. *)
Lemma round_dec_rounds_to (n : nat) (q : Q) : rounds_to n q (round_dec n q) = true.
Proof.
  unfold rounds_to, round_dec. cbv zeta.
  set (s := inject_Z (10 ^ Z.of_nat n)).
  set (k := round_half_even (q * s)).
  assert (P : (0 < s)%Q).
  { unfold s. change 0%Q with (inject_Z 0). rewrite <- Zlt_Qlt.
    apply Z.pow_pos_nonneg; lia. }
  assert (H : (Qred (inject_Z k / s) * s == inject_Z k)%Q).
  { rewrite Qred_correct. field. lra. }
  apply andb_true_iff. split.
  - apply Qeq_bool_iff. rewrite H. rewrite Qfloor_Z. reflexivity.
  - apply Qle_bool_iff.
    assert (E : ((Qred (inject_Z k / s) - q) * (2 * s) == 2 * (inject_Z k - q * s))%Q).
    { setoid_replace ((Qred (inject_Z k / s) - q) * (2 * s))%Q
        with (2 * (Qred (inject_Z k / s) * s) - 2 * (q * s))%Q by ring.
      rewrite H. ring. }
    assert (A : (Qabs (2 * s) == 2 * s)%Q) by (apply Qabs_pos; lra).
    rewrite <- A at 1. rewrite <- Qabs_Qmult, E.
    apply Qabs_Qle_condition.
    destruct (round_half_even_near (q * s)) as [N1 N2]. fold k in N1, N2.
    set (x := (q * s)%Q) in *. split; lra.
Qed.

Lemma fge_trans (x y z : pyfloat) :
  fge x y = true -> fge y z = true -> fge x z = true.
Proof.
  unfold fge. destruct x, y, z; simpl; try congruence.
  rewrite !Qle_bool_iff. intros A B. apply (Qle_trans _ _ _ B A).
Qed.


End PyNumFacts.

(** ** Staff transformation *)

Module TransformFacts.

Import DataTransformer Scenarios.

Lemma eight_hours (day : Z) : at_time day 17 0 - at_time day 9 0 = 28800.
Proof. unfold at_time, seconds_per_day, seconds_per_hour. lia. Qed.

(** C5, as amended: a shift from 09:00 to 17:00 of one day with ten
    completed tasks lasts eight hours, its transformed [tasks_per_hour] is
    1.25 (the fraction 5/4), and with the configured target (1.2) and
    minimum (0.8) rates the rating of 1.25 tasks per hour is ['excellent'],
    since it reaches the target. *)
Theorem day_shift_is_rated_excellent :
  forall (id name : string) (day : Z),
    let row := {| raw_staff_id := id; raw_staff_name := name;
                  raw_shift_start := at_time day 9 0;
                  raw_shift_end := at_time day 17 0;
                  raw_tasks_completed := Some 10%Q |} in
    target_tasks_per_hour (staff_performance OPERATIONS) = (12 # 10)%Q /\
    min_tasks_per_hour (staff_performance OPERATIONS) = (8 # 10)%Q /\
    exists out,
      transform_staff_logs [row] = [out] /\
      shift_duration_hours out = 8%Q /\
      tasks_per_hour out = Fin (5 # 4) /\
      OperationsAnalyzer._rate_staff_performance (tasks_per_hour out) = "excellent".
Proof.
  intros id name day row. split; [reflexivity|]. split; [reflexivity|].
  eexists. split.
  - unfold transform_staff_logs, row. simpl. reflexivity.
  - unfold staff_finish, staff_stage. simpl.
    rewrite eight_hours. repeat split; vm_compute; reflexivity.
Qed.

(** C5 as stated fails: the row of the example is rated ['excellent'],
    not ['satisfactory']. *)
Lemma day_shift_is_not_rated_satisfactory :
  exists out,
    transform_staff_logs [day_shift 100] = [out] /\
    tasks_per_hour out = Fin (5 # 4) /\
    OperationsAnalyzer._rate_staff_performance (tasks_per_hour out) <> "satisfactory".
Proof.
  eexists. split; [reflexivity|]. split; [reflexivity|].
  vm_compute. discriminate.
Qed.

(** C8: the transformation has no guard against a zero duration.  Every
    row it keeps has [tasks_per_hour = tasks_completed /
    shift_duration_hours].  A row whose shift ends when it starts and whose
    task count is a number [t >= 0] is kept, its duration is the number
    zero (not a missing value), and its [tasks_per_hour] is the quotient
    [t / 0], which is not a finite number. *)
Theorem zero_duration_shift_reaches_division :
  forall (staff_df : list RawStaffLog),
    (forall out,
        In out (transform_staff_logs staff_df) ->
        tasks_per_hour out = pydiv (tasks_completed out) (shift_duration_hours out)) /\
    (forall (r : RawStaffLog) (t : Q),
        In r staff_df ->
        raw_shift_end r = raw_shift_start r ->
        raw_tasks_completed r = Some t ->
        (0 <= t)%Q ->
        exists out,
          In out (transform_staff_logs staff_df) /\
          log_staff_id out = raw_staff_id r /\
          shift_start out = raw_shift_start r /\
          shift_end out = shift_start out /\
          tasks_completed out = t /\
          shift_duration_hours out = 0%Q /\
          tasks_per_hour out = pydiv t 0 /\
          is_finite (tasks_per_hour out) = false).
Proof.
  intros staff_df. split.
  - intros out Hout. destruct staff_df as [|r0 rest]; [destruct Hout|].
    unfold transform_staff_logs in Hout. apply in_map_iff in Hout.
    destruct Hout as [s [E _]]. subst out. reflexivity.
  - intros r t Hin Hend Ht Hpos.
    exists (staff_finish (staff_stage r)). split.
    + destruct staff_df as [|r0 rest]; [destruct Hin|].
      unfold transform_staff_logs. apply in_map, filter_In. split.
      * apply in_map, Hin.
      * unfold tasks_valid, staff_stage; simpl. rewrite Ht.
        apply Qle_bool_iff, Hpos.
    + unfold staff_finish. simpl. rewrite Ht. rewrite Hend, Z.sub_diag.
      repeat split; try reflexivity.
      change (delta_hours 0) with 0%Q. unfold pydiv. simpl.
      destruct (Qeq_bool t 0); [reflexivity|].
      destruct (Qle_bool 0 t); reflexivity.
Qed.

Lemma zero_duration_shift_reaches_division_witness :
  exists out,
    In out (transform_staff_logs [day_shift 100; empty_shift]) /\
    log_staff_id out = "S2" /\
    shift_start out = at_time 100 9 0 /\
    shift_end out = shift_start out /\
    tasks_completed out = 3%Q /\
    shift_duration_hours out = 0%Q /\
    tasks_per_hour out = pydiv 3 0 /\
    is_finite (tasks_per_hour out) = false.
Proof.
  apply (proj2 (zero_duration_shift_reaches_division [day_shift 100; empty_shift])
               empty_shift 3%Q).
  - simpl. right. left. reflexivity.
  - reflexivity.
  - reflexivity.
  - vm_compute. discriminate.
Defined.

End TransformFacts.

(** ** Facts about sorting and grouping *)

Module TableFacts.

Section SortFacts.
Context {A : Type} (leb : A -> A -> bool).

Lemma insert_sorted_perm (x : A) (l : list A) :
  Permutation (insert_sorted leb x l) (x :: l).
Proof.
  induction l as [|y t IH]; simpl.
  - apply Permutation_refl.
  - destruct (leb x y).
    + apply Permutation_refl.
    + eapply Permutation_trans; [apply perm_skip, IH | apply perm_swap].
Qed.

Lemma sort_by_perm (l : list A) : Permutation (sort_by leb l) l.
Proof.
  induction l as [|x t IH]; simpl.
  - apply perm_nil.
  - eapply Permutation_trans; [apply insert_sorted_perm | apply perm_skip, IH].
Qed.

Lemma sort_by_In (x : A) (l : list A) : In x (sort_by leb l) <-> In x l.
Proof.
  split; apply Permutation_in;
    [apply sort_by_perm | apply Permutation_sym, sort_by_perm].
Qed.

Lemma sort_by_NoDup (l : list A) : NoDup l -> NoDup (sort_by leb l).
Proof. apply Permutation_NoDup, Permutation_sym, sort_by_perm. Qed.

Lemma sort_by_length (l : list A) : List.length (sort_by leb l) = List.length l.
Proof. apply Permutation_length, sort_by_perm. Qed.

Lemma sort_by_nil (l : list A) : sort_by leb l = [] -> l = [].
Proof.
  intros E. apply length_zero_iff_nil.
  rewrite <- sort_by_length, E. reflexivity.
Qed.

Hypothesis leb_total : forall x y, leb x y = true \/ leb y x = true.

Lemma insert_sorted_Sorted (x : A) (l : list A) :
  Sorted (fun a b => leb a b = true) l ->
  Sorted (fun a b => leb a b = true) (insert_sorted leb x l).
Proof.
  induction l as [|y t IH]; intros S; simpl.
  - repeat constructor.
  - destruct (leb x y) eqn:E.
    + constructor; [exact S | constructor; exact E].
    + inversion S as [|? ? St Hd]; subst.
      constructor; [apply IH, St|].
      destruct t as [|z t']; simpl.
      * constructor. destruct (leb_total x y) as [C|C]; [congruence | exact C].
      * destruct (leb x z).
        -- constructor. destruct (leb_total x y) as [C|C]; [congruence | exact C].
        -- inversion Hd; subst. constructor. assumption.
Qed.

Lemma sort_by_Sorted (l : list A) :
  Sorted (fun a b => leb a b = true) (sort_by leb l).
Proof.
  induction l as [|x t IH]; simpl.
  - constructor.
  - apply insert_sorted_Sorted, IH.
Qed.

End SortFacts.

Lemma Sorted_weaken {A : Type} (R R' : A -> A -> Prop) (P : A -> Prop) (l : list A) :
  (forall x y, P x -> P y -> R x y -> R' x y) ->
  Forall P l -> Sorted R l -> Sorted R' l.
Proof.
  intros W F S. induction S as [|x t St IH Hd].
  - constructor.
  - inversion F as [|? ? Px Ft]; subst.
    constructor; [apply IH, Ft|].
    destruct Hd as [|y t' Rxy]; constructor.
    inversion Ft; subst. apply W; assumption.
Qed.

Section GroupByFacts.
Context {A K : Type}.
Variable K_dec : forall x y : K, {x = y} + {x <> y}.
Variable leb : K -> K -> bool.
Variable key : A -> K.

Lemma key_is_true (k : K) (a : A) : key_is K_dec key k a = true <-> key a = k.
Proof. unfold key_is. destruct (K_dec (key a) k); split; congruence. Qed.

Lemma unique_sorted_In (k : K) (ks : list K) :
  In k (unique_sorted K_dec leb ks) <-> In k ks.
Proof. unfold unique_sorted. rewrite sort_by_In. apply nodup_In. Qed.

Lemma unique_sorted_NoDup (ks : list K) : NoDup (unique_sorted K_dec leb ks).
Proof. apply sort_by_NoDup, NoDup_nodup. Qed.

Lemma unique_sorted_length (ks : list K) :
  List.length (unique_sorted K_dec leb ks) = List.length (nodup K_dec ks).
Proof. apply sort_by_length. Qed.

Lemma groupby_keys (l : list A) :
  map fst (groupby K_dec leb key l) = unique_sorted K_dec leb (map key l).
Proof. unfold groupby. rewrite map_map. simpl. apply map_id. Qed.

Lemma groupby_In (g : K * list A) (l : list A) :
  In g (groupby K_dec leb key l) <->
  In (fst g) (map key l) /\ snd g = filter (key_is K_dec key (fst g)) l.
Proof.
  unfold groupby. rewrite in_map_iff. split.
  - intros [k [E Hk]]. subst g. simpl. split; [|reflexivity].
    apply -> unique_sorted_In in Hk. exact Hk.
  - intros [Hk E]. exists (fst g). split.
    + destruct g; simpl in *. subst. reflexivity.
    + apply unique_sorted_In, Hk.
Qed.

Lemma groupby_group_nonempty (g : K * list A) (l : list A) :
  In g (groupby K_dec leb key l) -> snd g <> [].
Proof.
  intros Hg. apply groupby_In in Hg. destruct Hg as [Hk E].
  apply in_map_iff in Hk. destruct Hk as [a [Ea Ha]].
  assert (Hin : In a (snd g)).
  { rewrite E. apply filter_In. split; [exact Ha | apply key_is_true, Ea]. }
  intros N. rewrite N in Hin. destruct Hin.
Qed.

Lemma groupby_group_incl (g : K * list A) (l : list A) (a : A) :
  In g (groupby K_dec leb key l) -> In a (snd g) -> In a l /\ key a = fst g.
Proof.
  intros Hg Ha. apply groupby_In in Hg. destruct Hg as [_ E].
  rewrite E in Ha. apply filter_In in Ha. destruct Ha as [Hl Hk].
  split; [exact Hl | apply key_is_true, Hk].
Qed.

Lemma groupby_nil : groupby K_dec leb key [] = [].
Proof. reflexivity. Qed.

Lemma groupby_length (l : list A) :
  List.length (groupby K_dec leb key l) = List.length (nodup K_dec (map key l)).
Proof. unfold groupby. rewrite length_map. apply unique_sorted_length. Qed.

Lemma groupby_keys_NoDup (l : list A) : NoDup (map fst (groupby K_dec leb key l)).
Proof. rewrite groupby_keys. apply unique_sorted_NoDup. Qed.

Lemma key_in_true (ks : list K) (a : A) :
  key_in K_dec key ks a = true <-> In (key a) ks.
Proof.
  unfold key_in. rewrite existsb_exists. split.
  - intros [k [Hk E]]. apply key_is_true in E. subst. exact Hk.
  - intros H. exists (key a). split; [exact H | apply key_is_true; reflexivity].
Qed.

(** The groups of distinct keys partition the rows: sums add up. *)
Lemma qsum_groups (f : A -> Q) (ks : list K) (l : list A) :
  NoDup ks ->
  fold_right Qplus 0%Q
    (map (fun k => fold_right Qplus 0%Q (map f (filter (key_is K_dec key k) l))) ks)
  == fold_right Qplus 0%Q (map f (filter (key_in K_dec key ks) l)).
Proof.
  intros ND. induction ND as [|k ks' Hk ND IH]; simpl.
  - induction l as [|a t IHt]; simpl; [reflexivity | exact IHt].
  - rewrite IH. clear IH.
    induction l as [|a t IHt]; simpl.
    + reflexivity.
    + destruct (key_is K_dec key k a) eqn:E1; simpl.
      * assert (E2 : key_in K_dec key ks' a = false).
        { destruct (key_in K_dec key ks' a) eqn:E2; [|reflexivity].
          apply key_in_true in E2. apply key_is_true in E1. subst. contradiction. }
        fold (key_in K_dec key ks' a). rewrite E2. simpl. rewrite <- IHt. ring.
      * fold (key_in K_dec key ks' a). destruct (key_in K_dec key ks' a); simpl.
        -- rewrite <- IHt. ring.
        -- exact IHt.
Qed.

(** ... and so do the group sizes. *)
Lemma size_groups (ks : list K) (l : list A) :
  NoDup ks ->
  fold_right Nat.add 0%nat (map (fun k => List.length (filter (key_is K_dec key k) l)) ks)
  = List.length (filter (key_in K_dec key ks) l).
Proof.
  intros ND. induction ND as [|k ks' Hk ND IH]; simpl.
  - induction l as [|a t IHt]; simpl; [reflexivity | exact IHt].
  - rewrite IH. clear IH.
    induction l as [|a t IHt]; simpl.
    + reflexivity.
    + destruct (key_is K_dec key k a) eqn:E1; simpl.
      * assert (E2 : key_in K_dec key ks' a = false).
        { destruct (key_in K_dec key ks' a) eqn:E2; [|reflexivity].
          apply key_in_true in E2. apply key_is_true in E1. subst. contradiction. }
        fold (key_in K_dec key ks' a). rewrite E2. simpl. rewrite <- IHt. lia.
      * fold (key_in K_dec key ks' a). destruct (key_in K_dec key ks' a); simpl.
        -- rewrite <- IHt. lia.
        -- exact IHt.
Qed.

Lemma filter_all (p : A -> bool) (l : list A) :
  (forall a, In a l -> p a = true) -> filter p l = l.
Proof.
  induction l as [|a t IH]; intros H; simpl.
  - reflexivity.
  - rewrite (H a (or_introl eq_refl)). f_equal. apply IH.
    intros b Hb. apply H. right. exact Hb.
Qed.

End GroupByFacts.

Lemma is_empty_true {A : Type} (l : list A) : is_empty l = true <-> l = [].
Proof. destruct l; simpl; split; congruence. Qed.

Lemma is_empty_false {A : Type} (l : list A) : is_empty l = false <-> l <> [].
Proof. destruct l; simpl; split; congruence. Qed.

End TableFacts.

(** ** Environmental analyzer *)

Module EnvironmentFacts.

Import EnvironmentalAnalyzer Scenarios.

(** C7: each of the three sub-scores is 50 or 100, the comfort score is
    their mean rounded to one decimal, hence one of 50.0, 66.7, 83.3 and
    100.0, and never outside [0, 100]; for every statistics mapping,
    those with NaN or infinite averages included. *)
Theorem comfort_score_is_one_of_four :
  forall s : OverallStats,
    (temp_score s = 50%Q \/ temp_score s = 100%Q) /\
    (humidity_score s = 50%Q \/ humidity_score s = 100%Q) /\
    (noise_score s = 50%Q \/ noise_score s = 100%Q) /\
    _calculate_comfort_score s
      = round_dec 1 ((temp_score s + humidity_score s + noise_score s) / 3) /\
    (_calculate_comfort_score s = 50%Q \/
     _calculate_comfort_score s = (667 # 10)%Q \/
     _calculate_comfort_score s = (833 # 10)%Q \/
     _calculate_comfort_score s = 100%Q) /\
    (0 <= _calculate_comfort_score s)%Q /\
    (_calculate_comfort_score s <= 100)%Q.
Proof.
  intros s. unfold _calculate_comfort_score, temp_score, humidity_score, noise_score.
  destruct (within _ _ (avg_temperature s));
    destruct (within _ _ (avg_humidity s));
    destruct (fle (avg_noise s) _);
    (repeat split;
     try (left; reflexivity); try (right; reflexivity);
     try (vm_compute; discriminate));
    vm_compute; tauto.
Qed.

(** C10: without a [days] argument [get_noise_level_alerts] works on the
    7-day [short_term] window: its alerts are the readings above the alert
    threshold since [now - 7 days], and [alerts_per_day] is their number
    divided by 7.  Each of the eight other windowed methods of the three
    analyzers works on the 30-day [medium_term] window. *)
Theorem noise_alerts_default_to_short_term :
  forall (corr : list pyfloat -> list pyfloat -> pyfloat)
         (env : list EnvironmentReading) (acts : list ActivityRecord)
         (staff : list StaffLog) (now : instant) (by_section_flag : bool),
    ANALYSIS_WINDOWS short_term = 7 /\
    ANALYSIS_WINDOWS medium_term = 30 /\
    get_noise_level_alerts env now None = get_noise_level_alerts env now (Some 7) /\
    (exists a,
        get_noise_level_alerts env now None = Metrics a /\
        total_alerts a
          = List.length
              (filter (fun e => Qlt_bool (alert_threshold (noise ENVIRONMENT))
                                         (noise_level_db e))
                      (since env_timestamp (now - timedelta_days 7) env)) /\
        alerts_per_day a = truediv (count_q (total_alerts a)) 7) /\
    get_temperature_humidity_averages env now None by_section_flag
      = get_temperature_humidity_averages env now (Some 30) by_section_flag /\
    get_temperature_activity_correlation corr env acts now None
      = get_temperature_activity_correlation corr env acts now (Some 30) /\
    PetWellnessAnalyzer.get_avg_activity_time_per_pet acts now None
      = PetWellnessAnalyzer.get_avg_activity_time_per_pet acts now (Some 30) /\
    PetWellnessAnalyzer.get_feeding_frequency_analysis acts now None
      = PetWellnessAnalyzer.get_feeding_frequency_analysis acts now (Some 30) /\
    PetWellnessAnalyzer.get_weight_trend_analysis acts now None
      = PetWellnessAnalyzer.get_weight_trend_analysis acts now (Some 30) /\
    OperationsAnalyzer.get_grooming_cleaning_frequency
        (OperationsAnalyzer.init staff acts) now None
      = OperationsAnalyzer.get_grooming_cleaning_frequency
          (OperationsAnalyzer.init staff acts) now (Some 30) /\
    OperationsAnalyzer.get_staff_performance_analysis
        (OperationsAnalyzer.init staff acts) now None
      = OperationsAnalyzer.get_staff_performance_analysis
          (OperationsAnalyzer.init staff acts) now (Some 30) /\
    OperationsAnalyzer.get_alert_trends_analysis
        (OperationsAnalyzer.init staff acts) now None
      = OperationsAnalyzer.get_alert_trends_analysis
          (OperationsAnalyzer.init staff acts) now (Some 30).
Proof.
  intros corr env acts staff now by_section_flag.
  repeat split; try reflexivity.
  eexists. split; [reflexivity|]. split; reflexivity.
Qed.

(** C2 as stated fails when the join has exactly one row: the method
    then returns correlation results, whatever pandas computes for the
    coefficients. *)
Lemma single_row_join_is_not_an_error :
  List.length (merged_df_of one_reading one_activity (at_time 101 0 0) None) = 1%nat /\
  forall corr,
    has_error (get_temperature_activity_correlation
                 corr one_reading one_activity (at_time 101 0 0) None) = false.
Proof.
  split; [vm_compute; reflexivity|].
  intros corr. unfold get_temperature_activity_correlation.
  replace (merged_df_of one_reading one_activity (at_time 101 0 0) None)
    with [{| m_slot := (100, 9); m_temperature_f := Fin 70;
             m_humidity_percent := Fin 50; m_noise_level_db := Fin 35;
             m_total_activity_minutes := 30; m_activity_count := 1 |}]
    by (vm_compute; reflexivity).
  reflexivity.
Qed.

(** C2, as amended: the method returns the error mapping exactly when
    the hourly join is empty; on a join with one row or more it returns
    correlation results over all the rows of the join. *)
Theorem correlation_error_iff_join_empty :
  forall (corr : list pyfloat -> list pyfloat -> pyfloat)
         (env : list EnvironmentReading) (acts : list ActivityRecord)
         (now : instant) (days : option Z),
    (merged_df_of env acts now days = [] ->
     get_temperature_activity_correlation corr env acts now days
       = Error "No matching data found for correlation analysis") /\
    (merged_df_of env acts now days <> [] ->
     exists a,
       get_temperature_activity_correlation corr env acts now days = Metrics a /\
       data_points a = List.length (merged_df_of env acts now days) /\
       temperature_activity_correlation a
         = fround 3 (corr (map m_temperature_f (merged_df_of env acts now days))
                          (map (fun m => Fin (m_total_activity_minutes m))
                               (merged_df_of env acts now days))) /\
       correlation_strength a
         = _interpret_correlation
             (corr (map m_temperature_f (merged_df_of env acts now days))
                   (map (fun m => Fin (m_total_activity_minutes m))
                        (merged_df_of env acts now days)))).
Proof.
  intros corr env acts now days. unfold get_temperature_activity_correlation.
  split; intros H.
  - rewrite H. reflexivity.
  - destruct (merged_df_of env acts now days) as [|m rest] eqn:E; [congruence|].
    simpl is_empty. cbv iota. eexists. split; [reflexivity|].
    repeat split; reflexivity.
Qed.

Lemma correlation_error_iff_join_empty_witness :
  get_temperature_activity_correlation (fun _ _ => NaN) [] one_activity (at_time 101 0 0) None
    = Error "No matching data found for correlation analysis" /\
  exists a,
    get_temperature_activity_correlation
      (fun _ _ => NaN) one_reading one_activity (at_time 101 0 0) None = Metrics a /\
    data_points a = 1%nat /\
    correlation_strength a = "negligible".
Proof.
  split.
  - apply (correlation_error_iff_join_empty
             (fun _ _ => NaN) [] one_activity (at_time 101 0 0) None).
    vm_compute. reflexivity.
  - destruct (correlation_error_iff_join_empty
                (fun _ _ => NaN) one_reading one_activity (at_time 101 0 0) None)
      as [_ H].
    destruct H as [a [E [D [_ S]]]]; [vm_compute; discriminate|].
    exists a. split; [exact E|]. split.
    + rewrite D. vm_compute. reflexivity.
    + rewrite S. vm_compute. reflexivity.
Defined.

End EnvironmentFacts.

(** ** Facts about [value_counts] *)

Module CountFacts.

Import TableFacts.

Lemma count_of_In (k : string) (n : nat) (d : list (string * nat)) :
  NoDup (map fst d) -> In (k, n) d -> count_of k d = n.
Proof.
  induction d as [|[k' n'] rest IH]; intros ND Hin; simpl in *.
  - destruct Hin.
  - inversion ND as [|? ? Hk ND']; subst.
    destruct Hin as [E|Hin].
    + inversion E; subst. rewrite String.eqb_refl. reflexivity.
    + destruct (String.eqb k k') eqn:E.
      * apply String.eqb_eq in E. subst.
        exfalso. apply Hk. apply in_map_iff. exists (k', n). split; [reflexivity | exact Hin].
      * apply IH; assumption.
Qed.

Lemma count_of_absent (k : string) (d : list (string * nat)) :
  ~ In k (map fst d) -> count_of k d = 0%nat.
Proof.
  induction d as [|[k' n'] rest IH]; intros Hk; simpl in *.
  - reflexivity.
  - destruct (String.eqb k k') eqn:E.
    + apply String.eqb_eq in E. subst. exfalso. apply Hk. left. reflexivity.
    + apply IH. intros H. apply Hk. right. exact H.
Qed.

Lemma label_sizes_keys (labels : list string) :
  map fst (label_sizes labels) = unique_sorted string_dec String.leb labels.
Proof.
  unfold label_sizes. rewrite map_map. simpl.
  rewrite <- (map_id labels) at 2.
  apply (groupby_keys string_dec String.leb (fun x => x)).
Qed.

Lemma value_counts_perm (labels : list string) :
  Permutation (value_counts labels) (label_sizes labels).
Proof. apply sort_by_perm. Qed.

Lemma value_counts_NoDup (labels : list string) :
  NoDup (map fst (value_counts labels)).
Proof.
  eapply Permutation_NoDup.
  - apply Permutation_sym, Permutation_map, value_counts_perm.
  - rewrite label_sizes_keys. apply unique_sorted_NoDup.
Qed.

Lemma string_key_is (k x : string) :
  key_is string_dec (fun x => x) k x = String.eqb x k.
Proof.
  unfold key_is. destruct (string_dec x k) as [E|N].
  - subst. symmetry. apply String.eqb_refl.
  - symmetry. apply String.eqb_neq, N.
Qed.

(** [dist.get(k, 0)] is the number of occurrences of [k]. *)
Lemma count_of_value_counts (k : string) (labels : list string) :
  count_of k (value_counts labels)
  = List.length (filter (fun x => String.eqb x k) labels).
Proof.
  rewrite <- (filter_ext _ _ (string_key_is k)).
  destruct (in_dec string_dec k labels) as [Hin|Hout].
  - apply count_of_In; [apply value_counts_NoDup|].
    apply (Permutation_in _ (Permutation_sym (value_counts_perm labels))).
    unfold label_sizes. apply in_map_iff.
    exists (k, filter (key_is string_dec (fun x => x) k) labels). split; [reflexivity|].
    apply groupby_In. simpl. split; [|reflexivity].
    rewrite map_id. exact Hin.
  - rewrite count_of_absent.
    + symmetry. apply length_zero_iff_nil.
      destruct (filter _ labels) as [|a t] eqn:E; [reflexivity|].
      assert (Ha : In a (filter (key_is string_dec (fun x => x) k) labels))
        by (rewrite E; left; reflexivity).
      apply filter_In in Ha. destruct Ha as [Hl Hk].
      apply key_is_true in Hk. subst. contradiction.
    + intros H. apply Hout.
      apply (Permutation_in _ (Permutation_map fst (value_counts_perm labels))) in H.
      rewrite label_sizes_keys in H.
      apply (proj1 (unique_sorted_In string_dec String.leb k labels)), H.
Qed.

(** [sum(dist.values())] is the number of labels. *)
Lemma sum_of_value_counts (labels : list string) :
  fold_right Nat.add 0%nat (map snd (value_counts labels)) = List.length labels.
Proof.
  change (list_sum (map snd (value_counts labels)) = List.length labels).
  rewrite (Permutation_list_sum (Permutation_map snd (value_counts_perm labels))).
  unfold label_sizes, groupby. rewrite !map_map. simpl.
  change (fold_right Nat.add 0%nat
            (map (fun k => List.length (filter (key_is string_dec (fun x => x) k) labels))
                 (unique_sorted string_dec String.leb (map (fun x => x) labels)))
          = List.length labels).
  rewrite size_groups by apply unique_sorted_NoDup.
  rewrite filter_all; [reflexivity|].
  intros a Ha. apply key_in_true. apply unique_sorted_In. rewrite map_id. exact Ha.
Qed.

End CountFacts.

(** ** Operations analyzer *)

Module OperationsFacts.

Import OperationsAnalyzer Scenarios TableFacts CountFacts.

Lemma groupby_of_nonempty {A K : Type} (K_dec : forall x y : K, {x = y} + {x <> y})
  (leb : K -> K -> bool) (key : A -> K) (l : list A) :
  l <> [] -> groupby K_dec leb key l <> [].
Proof.
  intros Hl Hg. destruct l as [|a t]; [congruence|].
  assert (Hin : In (key a) (map fst (groupby K_dec leb key (a :: t)))).
  { rewrite groupby_keys. apply unique_sorted_In. left. reflexivity. }
  rewrite Hg in Hin. destruct Hin.
Qed.

Lemma staff_table_nonempty (recent_staff : list StaffLog) :
  recent_staff <> [] -> List.length (staff_performance_of recent_staff) <> 0%nat.
Proof.
  intros H E. apply length_zero_iff_nil in E.
  unfold staff_performance_of in E. apply map_eq_nil in E.
  revert E. apply groupby_of_nonempty, H.
Qed.

(** The number of staff members with a given rating. *)
Lemma rated_count (k : string) (table : list StaffPerformance) :
  count_of k (value_counts (map performance_rating table))
  = List.length (filter (fun s => String.eqb (performance_rating s) k) table).
Proof.
  rewrite count_of_value_counts, filter_map_swap, length_map. reflexivity.
Qed.

Lemma staff_score_value (self : t) (now : instant) (days : option Z) :
  _calculate_staff_score (get_staff_performance_analysis self now days)
  = if is_empty (recent_staff_of self now days) then 50%Q
    else
      let table := staff_performance_of (recent_staff_of self now days) in
      Qmin 100
        (truediv
           (count_q (List.length
                       (filter (fun s => String.eqb (performance_rating s) "excellent") table))
            * 100
            + count_q (List.length
                         (filter (fun s => String.eqb (performance_rating s) "satisfactory")
                                 table))
              * 70)
           (count_q (List.length table))).
Proof.
  unfold get_staff_performance_analysis.
  destruct (is_empty (recent_staff_of self now days)) eqn:E; [reflexivity|].
  apply is_empty_false in E. apply staff_table_nonempty in E.
  unfold _calculate_staff_score. cbv zeta. unfold performance_distribution.
  rewrite sum_of_value_counts, length_map, !rated_count.
  destruct (Nat.eqb_spec (List.length (staff_performance_of (recent_staff_of self now days))) 0);
    [contradiction | reflexivity].
Qed.

(** C4, as amended: [operations_score] is the mean of three sub-scores,
    rounded to one decimal: a number with one decimal that is as near to
    the mean as any.  (a) The grooming compliance percentage, or 0
    when the grooming analysis is an error.  (b) The staff score:
    [(excellent x 100 + satisfactory x 70) / total_staff], capped at 100,
    over the staff of the 30-day window; it is 50 (not 0) when that window
    has no staff row.  (c) The alert score
    [100 - min(30, health alerts per day x 5) - min(20, feeding delays per
    day x 10)], floored at 0, the rates being counts over the 30 days of
    the window. *)
Theorem operations_score_formula :
  forall (self : t) (now : instant),
    let summary := get_operations_summary self now in
    let table := staff_performance_of (recent_staff_of self now None) in
    let rated := fun k =>
      List.length (filter (fun s => String.eqb (performance_rating s) k) table) in
    let grooming_score :=
      match get_grooming_cleaning_frequency self now None with
      | Metrics g => grooming_schedule_compliance g
      | Error _ => 0%Q
      end in
    let staff_score :=
      if is_empty (recent_staff_of self now None) then 50%Q
      else Qmin 100 (truediv (count_q (rated "excellent") * 100
                              + count_q (rated "satisfactory") * 70)
                             (count_q (List.length table))) in
    exists alerts,
      get_alert_trends_analysis self now None = Metrics alerts /\
      avg_health_alerts_per_day alerts
        = truediv (count_q (total_health_alerts alerts)) 30 /\
      avg_feeding_delays_per_day alerts
        = truediv (count_q (total_feeding_delays alerts)) 30 /\
      rounds_to 1
        ((grooming_score + staff_score
          + Qmax 0 (100 - Qmin 30 (avg_health_alerts_per_day alerts * 5)
                        - Qmin 20 (avg_feeding_delays_per_day alerts * 10))) / 3)
        (operations_score summary) = true /\
      (recent_staff_of self now None = [] -> staff_score = 50%Q) /\
      (get_staff_performance_analysis self now None
         = Error "No staff data found for the specified period" <->
       recent_staff_of self now None = []).
Proof.
  intros self now summary table rated grooming_score staff_score.
  eexists. split; [reflexivity|].
  split; [reflexivity|]. split; [reflexivity|].
  split; [|split].
  - unfold summary, get_operations_summary. cbv zeta. unfold operations_score.
    rewrite staff_score_value. apply PyNumFacts.round_dec_rounds_to.
  - intros E. unfold staff_score. rewrite E. reflexivity.
  - unfold get_staff_performance_analysis.
    destruct (recent_staff_of self now None) as [|s rest]; simpl.
    + split; reflexivity.
    + split; discriminate.
Qed.

Lemma operations_score_formula_witness :
  exists alerts,
    get_alert_trends_analysis (init [] day100_activities) (at_time 101 0 0) None
      = Metrics alerts /\
    rounds_to 1
      ((100 + 50
        + Qmax 0 (100 - Qmin 30 (avg_health_alerts_per_day alerts * 5)
                      - Qmin 20 (avg_feeding_delays_per_day alerts * 10))) / 3)
      (operations_score (get_operations_summary (init [] day100_activities)
                                                (at_time 101 0 0))) = true.
Proof.
  destruct (operations_score_formula (init [] day100_activities) (at_time 101 0 0))
    as [alerts [E [_ [_ [S [F _]]]]]].
  exists alerts. split; [exact E|].
  rewrite (F eq_refl) in S.
  replace (get_grooming_cleaning_frequency (init [] day100_activities) (at_time 101 0 0) None)
    with (Metrics {|
      total_grooming_sessions := 1; pets_groomed := 1;
      avg_sessions_per_pet := Fin 1; avg_grooming_duration := Fin 30;
      pets_needing_grooming := 0; pets_overdue_grooming := 0;
      grooming_schedule_compliance := 100;
      grooming_detailed_per_pet :=
        [{| pg_pet := ("Rex", "Rex"); pg_total_grooming_sessions := 1;
            first_groom := at_time 100 9 0; latest_groom := at_time 100 9 0;
            pg_avg_duration := Fin 30; days_since_last_groom := 0;
            grooming_frequency_days := 0 |}];
      daily_patterns :=
        [{| dg_date := 100; grooming_sessions := 1; total_minutes := 30;
            dg_avg_duration := Fin 30; staff_involved := 1 |}];
      pets_needing_attention := [] |}) in S
    by (vm_compute; reflexivity).
  exact S.
Defined.

(** C4 as stated fails: with no staff the staff score is 50, not 0, and
    the score of the summary is not the mean the claim describes. *)
Lemma no_staff_scores_fifty_not_zero :
  get_staff_performance_analysis (init [] day100_activities) (at_time 101 0 0) None
    = Error "No staff data found for the specified period" /\
  _calculate_staff_score
    (staff_performance_analysis
       (get_operations_summary (init [] day100_activities) (at_time 101 0 0))) = 50%Q /\
  SpecWords.staff_score 0 0 0 = 0%Q /\
  (exists g a,
      get_grooming_cleaning_frequency (init [] day100_activities) (at_time 101 0 0) None
        = Metrics g /\
      get_alert_trends_analysis (init [] day100_activities) (at_time 101 0 0) None
        = Metrics a /\
      ~ (operations_score
           (get_operations_summary (init [] day100_activities) (at_time 101 0 0))
         == SpecWords.operations_score
              (grooming_schedule_compliance g)
              (SpecWords.staff_score 0 0 0)
              (SpecWords.alert_score (avg_health_alerts_per_day a)
                                     (avg_feeding_delays_per_day a)))).
Proof.
  split; [reflexivity|]. split; [reflexivity|]. split; [reflexivity|].
  eexists. eexists. split; [vm_compute; reflexivity|]. split; [vm_compute; reflexivity|].
  vm_compute. discriminate.
Qed.

End OperationsFacts.

(** ** The error contract and the dependence on the clock *)

Module ContractFacts.

Import Scenarios TableFacts.
Import PetWellnessAnalyzer EnvironmentalAnalyzer OperationsAnalyzer.

(** C1 as stated fails: [get_alert_trends_analysis] has no guard; on a
    window without any record it returns its metrics, not an error. *)
Lemma alert_trends_on_empty_window_is_not_an_error :
  since timestamp (at_time 100 0 0 - timedelta_days 30)
        (activities_df (init [] [activity "Rex" "medical" 1 9 30])) = [] /\
  has_error (get_alert_trends_analysis
               (init [] [activity "Rex" "medical" 1 9 30]) (at_time 100 0 0) None) = false.
Proof. split; reflexivity. Qed.

(** C1, as amended: the soft-failure contract holds for the three
    guarded methods.  [get_grooming_cleaning_frequency] and
    [get_staff_performance_analysis] return the error mapping exactly when
    their windowed rows are empty, [get_temperature_activity_correlation]
    exactly when the hourly join is empty.  [get_alert_trends_analysis]
    has no guard: on an empty window it returns metrics with zero counts
    and ['stable'] trends; [get_avg_activity_time_per_pet] returns an
    empty table. *)
Theorem error_mapping_on_empty_window :
  forall (corr : list pyfloat -> list pyfloat -> pyfloat)
         (self : OperationsAnalyzer.t) (env : list EnvironmentReading)
         (acts : list ActivityRecord) (now : instant) (days : option Z),
    (grooming_df_of self now days = [] ->
     get_grooming_cleaning_frequency self now days
       = Error "No grooming data found for the specified period") /\
    (grooming_df_of self now days <> [] ->
     has_error (get_grooming_cleaning_frequency self now days) = false) /\
    (recent_staff_of self now days = [] ->
     get_staff_performance_analysis self now days
       = Error "No staff data found for the specified period") /\
    (recent_staff_of self now days <> [] ->
     has_error (get_staff_performance_analysis self now days) = false) /\
    (merged_df_of env acts now days = [] ->
     get_temperature_activity_correlation corr env acts now days
       = Error "No matching data found for correlation analysis") /\
    (merged_df_of env acts now days <> [] ->
     has_error (get_temperature_activity_correlation corr env acts now days) = false) /\
    (since timestamp (now - timedelta_days (days_or days 30)) (activities_df self) = [] ->
     exists a,
       get_alert_trends_analysis self now days = Metrics a /\
       total_health_alerts a = 0%nat /\
       total_feeding_delays a = 0%nat /\
       alert_summary a = {| health_alerts_trend := "stable";
                            feeding_delays_trend := "stable" |}) /\
    (since timestamp (now - timedelta_days (days_or days 30)) acts = [] ->
     get_avg_activity_time_per_pet acts now days = []).
Proof.
  intros corr self env acts now days.
  unfold get_grooming_cleaning_frequency, get_staff_performance_analysis,
    get_temperature_activity_correlation.
  repeat split.
  - intros E. rewrite E. reflexivity.
  - intros N. apply is_empty_false in N. rewrite N. reflexivity.
  - intros E. rewrite E. reflexivity.
  - intros N. apply is_empty_false in N. rewrite N. reflexivity.
  - intros E. rewrite E. reflexivity.
  - intros N. apply is_empty_false in N. rewrite N. reflexivity.
  - intros E. unfold get_alert_trends_analysis. cbv zeta.
    change (ANALYSIS_WINDOWS medium_term) with 30. rewrite E.
    eexists. split; [reflexivity|]. repeat split.
  - intros E. unfold get_avg_activity_time_per_pet. cbv zeta.
    change (ANALYSIS_WINDOWS medium_term) with 30. rewrite E. reflexivity.
Qed.

Lemma error_mapping_on_empty_window_witness :
  get_grooming_cleaning_frequency
    (init [] [activity "Rex" "grooming" 1 9 30]) (at_time 100 0 0) None
    = Error "No grooming data found for the specified period" /\
  get_avg_activity_time_per_pet [activity "Rex" "grooming" 1 9 30] (at_time 100 0 0) None = [].
Proof.
  destruct (error_mapping_on_empty_window
              (fun _ _ => NaN) (init [] [activity "Rex" "grooming" 1 9 30]) []
              [activity "Rex" "grooming" 1 9 30] (at_time 100 0 0) None)
    as [G [_ [_ [_ [_ [_ [_ P]]]]]]].
  split; [apply G | apply P]; reflexivity.
Defined.

(** C9 as stated fails: with the same configuration, the same tables and
    the same [days], the result depends on when the method runs. *)
Lemma result_changes_with_invocation_time :
  has_error (get_grooming_cleaning_frequency
               (init [] day100_activities) (at_time 101 0 0) (Some 30)) = false /\
  get_grooming_cleaning_frequency (init [] day100_activities) (at_time 200 0 0) (Some 30)
    = Error "No grooming data found for the specified period" /\
  get_alert_trends_analysis (init [] day100_activities) (at_time 101 0 0) (Some 30)
    <> get_alert_trends_analysis (init [] day100_activities) (at_time 200 0 0) (Some 30).
Proof.
  split; [vm_compute; reflexivity|]. split; [vm_compute; reflexivity|].
  vm_compute. discriminate.
Qed.

Lemma since_same_window {A : Type} (ts : A -> instant) (l : list A)
  (now1 now2 : instant) (d : Z) :
  same_window ts l now1 now2 d ->
  since ts (now1 - timedelta_days d) l = since ts (now2 - timedelta_days d) l.
Proof. intros H. unfold since. apply filter_ext_in. exact H. Qed.

Lemma typed_rows_same_window (type : string) (acts : list ActivityRecord)
  (now1 now2 : instant) (d : Z) :
  same_window timestamp acts now1 now2 d ->
  filter (fun a => String.eqb (activity_type a) type
                   && (now1 - timedelta_days d <=? timestamp a)) acts
  = filter (fun a => String.eqb (activity_type a) type
                     && (now2 - timedelta_days d <=? timestamp a)) acts.
Proof. intros H. apply filter_ext_in. intros a Ha. rewrite (H a Ha). reflexivity. Qed.

Lemma fold_max_In (d : Z) (l : list Z) : In (fold_right Z.max d l) (d :: l).
Proof.
  induction l as [|x t IH]; simpl.
  - left. reflexivity.
  - destruct (Z.max_spec x (fold_right Z.max d t)) as [[_ E]|[_ E]]; rewrite E.
    + destruct IH as [IH|IH]; [left; exact IH | right; right; exact IH].
    + right. left. reflexivity.
Qed.

Lemma latest_In (l : list Z) : l <> [] -> In (fold_right Z.max (hd 0 l) l) l.
Proof.
  destruct l as [|x t]; [congruence|]. intros _.
  destruct (fold_max_In x (x :: t)) as [E|H]; [|exact H].
  simpl hd. rewrite <- E. left. reflexivity.
Qed.

Lemma pet_grooming_same (now1 now2 : instant) (grooming_df : list ActivityRecord) :
  (forall a, In a grooming_df ->
             delta_days (now1 - timestamp a) = delta_days (now2 - timestamp a)) ->
  pet_grooming_of now1 grooming_df = pet_grooming_of now2 grooming_df.
Proof.
  intros H. unfold pet_grooming_of. apply map_ext_in. intros g Hg. cbv zeta.
  assert (L : In (fold_right Z.max (hd 0 (map timestamp (snd g))) (map timestamp (snd g)))
                 (map timestamp (snd g))).
  { apply latest_In. intros N. apply map_eq_nil in N.
    revert N. apply (groupby_group_nonempty _ _ _ _ _ Hg). }
  apply in_map_iff in L. destruct L as [a [Ea Ha]].
  destruct (groupby_group_incl _ _ _ _ _ _ Hg Ha) as [Hdf _].
  rewrite <- Ea, (H a Hdf). reflexivity.
Qed.

(** C9, as amended: a result is a function of the configuration, the
    tables, [days] and the reading of the clock.  It depends on the clock
    only through the rows the window [timestamp >= now - days] selects
    and, for grooming, through the whole days elapsed since a grooming
    session: two invocations for which these agree, in particular two at
    the same instant, return identical results. *)
Theorem results_depend_on_clock_through_window :
  forall (corr : list pyfloat -> list pyfloat -> pyfloat)
         (acts : list ActivityRecord) (env : list EnvironmentReading)
         (staff : list StaffLog) (now1 now2 : instant) (days : option Z)
         (by_section_flag : bool),
    same_window timestamp acts now1 now2 (days_or days (ANALYSIS_WINDOWS medium_term)) ->
    same_window env_timestamp env now1 now2 (days_or days (ANALYSIS_WINDOWS medium_term)) ->
    same_window env_timestamp env now1 now2 (days_or days (ANALYSIS_WINDOWS short_term)) ->
    same_window shift_start staff now1 now2 (days_or days (ANALYSIS_WINDOWS medium_term)) ->
    (forall a, In a acts -> activity_type a = "grooming" ->
               delta_days (now1 - timestamp a) = delta_days (now2 - timestamp a)) ->
    get_avg_activity_time_per_pet acts now1 days
      = get_avg_activity_time_per_pet acts now2 days /\
    get_feeding_frequency_analysis acts now1 days
      = get_feeding_frequency_analysis acts now2 days /\
    get_weight_trend_analysis acts now1 days
      = get_weight_trend_analysis acts now2 days /\
    get_temperature_humidity_averages env now1 days by_section_flag
      = get_temperature_humidity_averages env now2 days by_section_flag /\
    get_noise_level_alerts env now1 days = get_noise_level_alerts env now2 days /\
    get_temperature_activity_correlation corr env acts now1 days
      = get_temperature_activity_correlation corr env acts now2 days /\
    get_grooming_cleaning_frequency (init staff acts) now1 days
      = get_grooming_cleaning_frequency (init staff acts) now2 days /\
    get_staff_performance_analysis (init staff acts) now1 days
      = get_staff_performance_analysis (init staff acts) now2 days /\
    get_alert_trends_analysis (init staff acts) now1 days
      = get_alert_trends_analysis (init staff acts) now2 days.
Proof.
  intros corr acts env staff now1 now2 days by_section_flag Ha He30 He7 Hs Hg.
  pose proof (since_same_window _ _ _ _ _ Ha) as Sa.
  pose proof (since_same_window _ _ _ _ _ He30) as Se30.
  pose proof (since_same_window _ _ _ _ _ He7) as Se7.
  pose proof (since_same_window _ _ _ _ _ Hs) as Ss.
  repeat split.
  - unfold get_avg_activity_time_per_pet. cbv zeta. rewrite Sa. reflexivity.
  - unfold get_feeding_frequency_analysis. cbv zeta.
    rewrite (typed_rows_same_window "feeding" _ _ _ _ Ha). reflexivity.
  - unfold get_weight_trend_analysis. cbv zeta.
    rewrite (typed_rows_same_window "medical" _ _ _ _ Ha). reflexivity.
  - unfold get_temperature_humidity_averages. cbv zeta. rewrite Se30. reflexivity.
  - unfold get_noise_level_alerts. cbv zeta. rewrite Se7. reflexivity.
  - unfold get_temperature_activity_correlation, merged_df_of. cbv zeta.
    rewrite Sa, Se30. reflexivity.
  - unfold get_grooming_cleaning_frequency, grooming_df_of. cbv zeta.
    simpl activities_df.
    rewrite (typed_rows_same_window "grooming" _ _ _ _ Ha).
    rewrite (pet_grooming_same now1 now2).
    + reflexivity.
    + intros a Hin. apply filter_In in Hin. destruct Hin as [Hin Ht].
      apply andb_prop in Ht. destruct Ht as [Ht _].
      apply Hg; [exact Hin | apply String.eqb_eq, Ht].
  - unfold get_staff_performance_analysis, recent_staff_of. cbv zeta.
    simpl staff_df. rewrite Ss. reflexivity.
  - unfold get_alert_trends_analysis. cbv zeta. simpl activities_df.
    rewrite Sa. reflexivity.
Qed.

Lemma results_depend_on_clock_through_window_witness :
  at_time 101 0 0 <> at_time 101 0 1 /\
  get_grooming_cleaning_frequency (init [] day100_activities) (at_time 101 0 0) None
    = get_grooming_cleaning_frequency (init [] day100_activities) (at_time 101 0 1) None /\
  get_alert_trends_analysis (init [] day100_activities) (at_time 101 0 0) None
    = get_alert_trends_analysis (init [] day100_activities) (at_time 101 0 1) None.
Proof.
  split; [vm_compute; discriminate|].
  destruct (results_depend_on_clock_through_window
              (fun _ _ => NaN) day100_activities one_reading []
              (at_time 101 0 0) (at_time 101 0 1) None true)
    as [_ [_ [_ [_ [_ [_ [G [_ T]]]]]]]].
  - intros r [E|[E|[]]]; subst; vm_compute; reflexivity.
  - intros r [E|[]]; subst; vm_compute; reflexivity.
  - intros r [E|[]]; subst; vm_compute; reflexivity.
  - intros r [].
  - intros r [E|[E|[]]] _; subst; vm_compute; reflexivity.
  - split; [exact G | exact T].
Defined.

End ContractFacts.

(** ** Daily summary *)

Module SummaryFacts.

Import DailySummaries Scenarios TableFacts.

Lemma guarded_filter {A : Type} (f : A -> bool) (l : list A) :
  (if negb (is_empty l) then filter f l else []) = filter f l.
Proof. destruct l; reflexivity. Qed.

Lemma set_update_In (dates xs : list Z) (d : Z) :
  In d (set_update dates xs) <-> In d dates \/ In d xs.
Proof. unfold set_update. rewrite nodup_In. apply in_app_iff. Qed.

Lemma summary_dates_NoDup (pet_df : list ActivityRecord)
  (env_df : list EnvironmentReading) (staff_df : list StaffLog) :
  NoDup (summary_dates pet_df env_df staff_df).
Proof.
  unfold summary_dates, set_update.
  destruct (negb (is_empty staff_df)); [apply NoDup_nodup|].
  destruct (negb (is_empty env_df)); [apply NoDup_nodup|].
  destruct (negb (is_empty pet_df)); [apply NoDup_nodup | constructor].
Qed.

Lemma summary_dates_In (pet_df : list ActivityRecord)
  (env_df : list EnvironmentReading) (staff_df : list StaffLog) (d : Z) :
  In d (summary_dates pet_df env_df staff_df) <->
  In d (map date pet_df) \/ In d (map env_date env_df) \/
  In d (map (fun s => date_of (shift_start s)) staff_df).
Proof.
  unfold summary_dates.
  destruct pet_df as [|a pt]; destruct env_df as [|e et]; destruct staff_df as [|s st];
    cbn [is_empty negb];
    repeat rewrite set_update_In; repeat rewrite nodup_In;
    cbn [map In]; tauto.
Qed.

Lemma summary_row_date (pet_df : list ActivityRecord)
  (env_df : list EnvironmentReading) (staff_df : list StaffLog) (l : list Z) :
  map summary_date (map (summary_row pet_df env_df staff_df) l) = l.
Proof. rewrite map_map. simpl. apply map_id. Qed.

(** C3, as amended: the summary has exactly one row per calendar date
    present in one of the three tables and no row for another date.  On a
    date without environment readings the three averages are null.  On a
    date without activities [total_activities] is zero and so are
    [total_activity_minutes] and [unique_pets]; on a date without staff
    shifts [staff_shifts] and [total_tasks] are zero. *)
Theorem daily_summary_rows :
  forall (pet_df : list ActivityRecord) (env_df : list EnvironmentReading)
         (staff_df : list StaffLog),
    NoDup (map summary_date (create_daily_summary pet_df env_df staff_df)) /\
    (forall d,
        In d (map summary_date (create_daily_summary pet_df env_df staff_df)) <->
        (exists a, In a pet_df /\ date a = d) \/
        (exists e, In e env_df /\ env_date e = d) \/
        (exists s, In s staff_df /\ date_of (shift_start s) = d)) /\
    (forall row,
        In row (create_daily_summary pet_df env_df staff_df) ->
        total_activities row
          = List.length (filter (fun a => date a =? summary_date row) pet_df) /\
        staff_shifts row
          = List.length
              (filter (fun s => date_of (shift_start s) =? summary_date row) staff_df) /\
        (filter (fun e => env_date e =? summary_date row) env_df = [] ->
         avg_temperature row = None /\ avg_humidity row = None /\ avg_noise row = None) /\
        (filter (fun e => env_date e =? summary_date row) env_df <> [] ->
         avg_temperature row
           = Some (mean (map temperature_f
                             (filter (fun e => env_date e =? summary_date row) env_df))) /\
         avg_humidity row <> None /\ avg_noise row <> None) /\
        (filter (fun a => date a =? summary_date row) pet_df = [] ->
         total_activities row = 0%nat /\
         total_activity_minutes row = Some 0%Q /\
         unique_pets row = Some 0%nat) /\
        (filter (fun s => date_of (shift_start s) =? summary_date row) staff_df = [] ->
         staff_shifts row = 0%nat /\ total_tasks row = Some 0%Q)).
Proof.
  intros pet_df env_df staff_df. unfold create_daily_summary.
  rewrite summary_row_date. split; [|split].
  - apply sort_by_NoDup, summary_dates_NoDup.
  - intros d. rewrite sort_by_In, summary_dates_In, !in_map_iff.
    split; (intros [[x [E H]]|[[x [E H]]|[x [E H]]]];
            [left | right; left | right; right]; exists x; tauto).
  - intros row Hrow. apply in_map_iff in Hrow. destruct Hrow as [d [E _]].
    subst row. unfold summary_row. cbv zeta. rewrite !guarded_filter.
    cbn [summary_date total_activities staff_shifts avg_temperature avg_humidity
         avg_noise total_activity_minutes unique_pets total_tasks].
    split; [reflexivity|]. split; [reflexivity|].
    split; [intros H; rewrite H; repeat split; reflexivity|].
    split.
    { intros H.
      destruct (filter (fun e => env_date e =? d) env_df) as [|e rest]; [congruence|].
      split; [reflexivity|]. split; discriminate. }
    split; intros H; rewrite H; repeat split; reflexivity.
Qed.

Lemma daily_summary_rows_witness :
  exists row,
    create_daily_summary [] one_reading [] = [row] /\
    summary_date row = 100 /\
    avg_temperature row = Some (Fin 70) /\
    total_activities row = 0%nat /\
    total_activity_minutes row = Some 0%Q /\
    unique_pets row = Some 0%nat /\
    staff_shifts row = 0%nat /\
    total_tasks row = Some 0%Q.
Proof.
  destruct (daily_summary_rows [] one_reading []) as [_ [_ H]].
  exists (summary_row [] one_reading [] 100).
  split; [vm_compute; reflexivity|].
  destruct (H (summary_row [] one_reading [] 100))
    as [_ [_ [_ [T [[A [M U]] [S K]]]]]].
  - left. vm_compute. reflexivity.
  - reflexivity.
  - reflexivity.
  - split; [reflexivity|]. split; [destruct T as [T _]; [vm_compute; discriminate|]; exact T|].
    repeat split; assumption.
Defined.

(** C3 as stated fails: on a date with environment readings only, the
    activity minutes, the number of pets and the task total are the
    number zero, not null. *)
Lemma absent_source_totals_are_zero_not_null :
  exists row,
    create_daily_summary [] one_reading [] = [row] /\
    filter (fun a => date a =? summary_date row) [] = [] /\
    total_activity_minutes row = Some 0%Q /\
    total_activity_minutes row <> None /\
    unique_pets row <> None /\
    total_tasks row <> None.
Proof.
  eexists. split; [vm_compute; reflexivity|].
  repeat split; discriminate.
Qed.

End SummaryFacts.

(** ** Pet wellness analyzer *)

Module WellnessFacts.

Import PetWellnessAnalyzer Scenarios TableFacts PyNumFacts.

Lemma mean_nonempty (l : list Q) :
  l <> [] ->
  mean l = Fin (Qred (fold_right Qplus 0%Q l / count_q (List.length l))).
Proof. destruct l; [congruence | reflexivity]. Qed.

Lemma sum_map_Qeq {K : Type} (g h : K -> Q) (ks : list K) :
  (forall k, g k == h k) ->
  fold_right Qplus 0%Q (map g ks) == fold_right Qplus 0%Q (map h ks).
Proof.
  intros E. induction ks as [|k t IH]; simpl; [reflexivity|].
  rewrite IH, (E k). reflexivity.
Qed.

Section PerPet.
Variable recent : list ActivityRecord.
Variable p : pet_key.

(** The (pet, day) keys of the window, and those of the pet [p]. *)
Lemma day_keys_of_pet_NoDup :
  NoDup (filter (key_is pet_key_dec fst p)
                (unique_sorted pet_day_key_dec pet_day_key_leb (map pet_day_of recent))).
Proof. apply NoDup_filter, unique_sorted_NoDup. Qed.

Lemma day_keys_of_pet_In (k : pet_day_key) :
  In k (filter (key_is pet_key_dec fst p)
               (unique_sorted pet_day_key_dec pet_day_key_leb (map pet_day_of recent)))
  <-> exists a, In a recent /\ pet_of a = p /\ k = (p, date a).
Proof.
  rewrite filter_In, unique_sorted_In, in_map_iff, key_is_true. split.
  - intros [[a [E Ha]] Hp]. exists a. subst k. unfold pet_day_of in *. simpl in Hp.
    subst p. repeat split. exact Ha.
  - intros [a [Ha [Hp E]]]. subst k. split; [|reflexivity].
    exists a. split; [|exact Ha]. unfold pet_day_of. rewrite Hp. reflexivity.
Qed.

(** The rows of [daily_activity] of the pet [p]. *)
Lemma daily_rows_of_pet :
  filter (key_is pet_key_dec da_pet p) (daily_activity_of recent)
  = map (fun k : pet_day_key =>
           {| da_pet := fst k; da_date := snd k;
              da_duration_minutes :=
                qsum (map duration_minutes
                          (filter (key_is pet_day_key_dec pet_day_of k) recent));
              da_activity_count :=
                List.length (filter (key_is pet_day_key_dec pet_day_of k) recent) |})
        (filter (key_is pet_key_dec fst p)
                (unique_sorted pet_day_key_dec pet_day_key_leb (map pet_day_of recent))).
Proof.
  unfold daily_activity_of, groupby. rewrite map_map. simpl.
  rewrite filter_map_swap. reflexivity.
Qed.

(** The activities of the pet [p] in the window. *)
Lemma rows_of_pet :
  filter (key_in pet_day_key_dec pet_day_of
            (filter (key_is pet_key_dec fst p)
                    (unique_sorted pet_day_key_dec pet_day_key_leb (map pet_day_of recent))))
         recent
  = filter (key_is pet_key_dec pet_of p) recent.
Proof.
  apply filter_ext_in. intros a Ha. apply eq_true_iff_eq.
  rewrite key_in_true, key_is_true, day_keys_of_pet_In. split.
  - intros [b [_ [Hp E]]]. unfold pet_day_of in E. inversion E. reflexivity.
  - intros Hp. exists a. repeat split; try assumption.
    unfold pet_day_of. rewrite Hp. reflexivity.
Qed.

(** The per-day sums of the pet add up to the sum of its activities. *)
Lemma daily_sums_of_pet :
  fold_right Qplus 0%Q
    (map da_duration_minutes (filter (key_is pet_key_dec da_pet p) (daily_activity_of recent)))
  == fold_right Qplus 0%Q
       (map duration_minutes (filter (key_is pet_key_dec pet_of p) recent)).
Proof.
  rewrite daily_rows_of_pet, map_map. simpl.
  rewrite <- rows_of_pet.
  rewrite <- (qsum_groups pet_day_key_dec pet_day_of duration_minutes _ recent
                day_keys_of_pet_NoDup).
  apply sum_map_Qeq. intros k. apply Qred_correct.
Qed.

(** The pet has one row of [daily_activity] per day with an activity. *)
Lemma daily_count_of_pet :
  List.length (filter (key_is pet_key_dec da_pet p) (daily_activity_of recent))
  = List.length
      (nodup Z.eq_dec (map date (filter (key_is pet_key_dec pet_of p) recent))).
Proof.
  rewrite daily_rows_of_pet, length_map.
  rewrite <- (length_map (@snd pet_key Z)).
  apply Permutation_length, NoDup_Permutation.
  - apply NoDup_map_NoDup_ForallPairs; [|apply day_keys_of_pet_NoDup].
    intros k1 k2 H1 H2 E.
    apply day_keys_of_pet_In in H1. apply day_keys_of_pet_In in H2.
    destruct H1 as [a1 [_ [_ E1]]]. destruct H2 as [a2 [_ [_ E2]]].
    subst. simpl in E. rewrite E. reflexivity.
  - apply NoDup_nodup.
  - intros d. rewrite nodup_In, !in_map_iff. split.
    + intros [k [E Hk]]. apply day_keys_of_pet_In in Hk.
      destruct Hk as [a [Ha [Hp Ek]]]. subst. exists a. split; [reflexivity|].
      apply filter_In. split; [exact Ha | apply key_is_true; reflexivity].
    + intros [a [E Ha]]. apply filter_In in Ha. destruct Ha as [Ha Hp].
      apply key_is_true in Hp. exists (p, date a). split; [exact E|].
      apply day_keys_of_pet_In. exists a. repeat split; assumption.
Qed.

End PerPet.

Lemma pets_of_daily_activity (recent : list ActivityRecord) (p : pet_key) :
  In p (map da_pet (daily_activity_of recent)) <->
  exists a, In a recent /\ pet_of a = p.
Proof.
  unfold daily_activity_of, groupby. rewrite !map_map. simpl.
  rewrite in_map_iff. split.
  - intros [k [E Hk]].
    apply (proj1 (unique_sorted_In pet_day_key_dec pet_day_key_leb k _)) in Hk.
    apply in_map_iff in Hk. destruct Hk as [a [Ea Ha]]. subst. exists a.
    split; [exact Ha | reflexivity].
  - intros [a [Ha E]]. exists (pet_day_of a). split; [exact E|].
    apply unique_sorted_In, in_map, Ha.
Qed.


Lemma average_row (recent : list ActivityRecord) (row : PetAverage) :
  In row (pet_averages_of (daily_activity_of recent)) ->
  (0 < List.length
         (nodup Z.eq_dec
            (map date (filter (key_is pet_key_dec pet_of (pa_pet row)) recent))))%nat /\
  avg_daily_minutes row
    = Fin (round_dec 2
             (fold_right Qplus 0%Q
                (map duration_minutes
                     (filter (key_is pet_key_dec pet_of (pa_pet row)) recent))
              / count_q
                  (List.length
                     (nodup Z.eq_dec
                        (map date
                             (filter (key_is pet_key_dec pet_of (pa_pet row)) recent)))))) /\
  activity_status row = _categorize_activity_level (avg_daily_minutes row).
Proof.
  unfold pet_averages_of. intros Hrow. apply in_map_iff in Hrow.
  destruct Hrow as [g [E Hg]]. subst row. cbn [pa_pet avg_daily_minutes activity_status].
  pose proof (groupby_group_nonempty _ _ _ _ _ Hg) as Hne.
  apply groupby_In in Hg. destruct Hg as [_ Hsnd]. rewrite Hsnd in *. clear Hsnd.
  set (p := fst g) in *.
  split; [|split; [|reflexivity]].
  - rewrite <- daily_count_of_pet.
    apply Nat.neq_0_lt_0. intros N. apply length_zero_iff_nil in N.
    apply Hne. exact N.
  - rewrite mean_nonempty
      by (intros N; apply map_eq_nil in N; contradiction).
    cbn [fround]. f_equal. apply round_dec_comp.
    rewrite Qred_correct, daily_sums_of_pet, length_map, daily_count_of_pet.
    reflexivity.
Qed.




End WellnessFacts.

(* ================================================================== *)
(** * Further properties of the code *)

(** ** List and number helpers *)

Module ExtraFacts.

Import TableFacts.

Lemma filter_length_mono {A : Type} (p q : A -> bool) (l : list A) :
  (forall a, In a l -> p a = true -> q a = true) ->
  (List.length (filter p l) <= List.length (filter q l))%nat.
Proof.
  induction l as [|a t IH]; intros H; simpl; [lia|].
  assert (IH' : (List.length (filter p t) <= List.length (filter q t))%nat).
  { apply IH. intros b Hb. apply H. right. exact Hb. }
  destruct (p a) eqn:Pa.
  - rewrite (H a (or_introl eq_refl) Pa). simpl. lia.
  - destruct (q a); simpl; lia.
Qed.

Lemma filter_length_bound {A : Type} (p : A -> bool) (l : list A) :
  (List.length (filter p l) <= List.length l)%nat.
Proof.
  induction l as [|a t IH]; simpl; [lia|]. destruct (p a); simpl; lia.
Qed.

Lemma filter_split_length {A : Type} (p q r : A -> bool) (l : list A) :
  (forall a, In a l -> p a = q a || r a) ->
  (forall a, In a l -> q a = true -> r a = false) ->
  List.length (filter p l)
  = (List.length (filter q l) + List.length (filter r l))%nat.
Proof.
  induction l as [|a t IH]; intros U D; simpl; [reflexivity|].
  assert (IH' : List.length (filter p t)
                = (List.length (filter q t) + List.length (filter r t))%nat).
  { apply IH; intros b Hb; [apply U | apply D]; right; exact Hb. }
  rewrite (U a (or_introl eq_refl)).
  destruct (q a) eqn:Qa.
  - rewrite (D a (or_introl eq_refl) Qa). simpl. lia.
  - destruct (r a); simpl; lia.
Qed.

Lemma sum_nonneg (l : list Q) :
  (forall x, In x l -> 0 <= x)%Q -> (0 <= fold_right Qplus 0 l)%Q.
Proof.
  induction l as [|x t IH]; intros H; simpl.
  - apply Qle_refl.
  - apply (Qle_trans _ (0 + 0)); [apply Qle_refl|]. apply Qplus_le_compat.
    + apply H. left. reflexivity.
    + apply IH. intros y Hy. apply H. right. exact Hy.
Qed.

Lemma sum_positive (l : list Q) :
  l <> [] -> (forall x, In x l -> 0 < x)%Q -> (0 < fold_right Qplus 0 l)%Q.
Proof.
  destruct l as [|x t]; [congruence|]. intros _ H. simpl.
  apply (Qle_lt_trans _ (0 + 0)); [apply Qle_refl|]. apply Qplus_lt_le_compat.
  - apply H. left. reflexivity.
  - apply sum_nonneg. intros y Hy. apply Qlt_le_weak, H. right. exact Hy.
Qed.

Lemma Zleb_total (x y : Z) : (x <=? y) = true \/ (y <=? x) = true.
Proof. destruct (Z.leb_spec x y); [left; reflexivity | right; apply Z.leb_le; lia]. Qed.

(** Sorting distinct integers gives a strictly increasing list. *)
Lemma sort_distinct_increasing (l : list Z) :
  NoDup l -> StronglySorted Z.lt (sort_by Z.leb l).
Proof.
  intros ND.
  assert (S : StronglySorted Z.le (sort_by Z.leb l)).
  { apply Sorted_StronglySorted; [intros x y z; apply Z.le_trans|].
    apply (Sorted_weaken (fun a b => (a <=? b) = true) _ (fun _ => True)).
    - intros x y _ _ H. apply Z.leb_le, H.
    - apply Forall_forall. intros; exact I.
    - apply sort_by_Sorted, Zleb_total. }
  pose proof (sort_by_NoDup Z.leb l ND) as ND'.
  induction S as [|x t St IH Hx]; [constructor|].
  inversion ND' as [|? ? Hnot NDt]; subst.
  constructor; [apply IH, NDt|].
  rewrite Forall_forall in *. intros y Hy.
  specialize (Hx y Hy). assert (x <> y) by (intros E; subst; contradiction). lia.
Qed.

End ExtraFacts.

(** ** The transformer *)

Module TransformExtras.

Import DataTransformer DailySummaries Scenarios TableFacts ExtraFacts.

Lemma hour_of_range (t : instant) : 0 <= hour_of t < 24.
Proof.
  unfold hour_of, seconds_per_day, seconds_per_hour.
  pose proof (Z.mod_pos_bound t 86400 ltac:(lia)) as B.
  split.
  - apply Z.div_pos; lia.
  - apply Z.div_lt_upper_bound; lia.
Qed.

Lemma pet_activities_unfold (activities : list RawActivity) :
  transform_pet_activities activities
  = map activity_finish (filter duration_valid activities).
Proof. destruct activities; reflexivity. Qed.

Lemma duration_valid_iff (r : RawActivity) :
  duration_valid r = true <->
  exists d, raw_duration_minutes r = Some d /\ (0 < d)%Q.
Proof.
  unfold duration_valid, Qlt_bool.
  destruct (raw_duration_minutes r) as [d|].
  - rewrite negb_true_iff. split.
    + intros H. exists d. split; [reflexivity|].
      apply Qnot_le_lt. intros L. apply Qle_bool_iff in L. congruence.
    + intros [d' [Ed Hd]]. inversion Ed; subst.
      destruct (Qle_bool d' 0) eqn:L; [|reflexivity].
      apply Qle_bool_iff in L. exfalso. apply (Qlt_not_le _ _ Hd L).
  - split; [discriminate | intros [d [Ed _]]; discriminate].
Qed.

Lemma kept_duration_positive (activities : list RawActivity) (a : ActivityRecord) :
  In a (transform_pet_activities activities) -> (0 < duration_minutes a)%Q.
Proof.
  rewrite pet_activities_unfold. intros Ha.
  apply in_map_iff in Ha. destruct Ha as [r [Er Hr]].
  apply filter_In in Hr. destruct Hr as [_ Hv]. apply duration_valid_iff in Hv.
  destruct Hv as [d [Ed Hd]]. subst a. unfold activity_finish. simpl.
  rewrite Ed. exact Hd.
Qed.

(** Only the activity rows whose duration is a positive number survive
    [transform_pet_activities]: every output row has a positive duration
    and its [date] and [hour] (between 0 and 23) are those of its
    timestamp; a raw row is kept exactly when its duration parses and is
    positive. *)
Theorem pet_activities_keep_positive_durations :
  forall (activities : list RawActivity),
    (forall a,
        In a (transform_pet_activities activities) ->
        (0 < duration_minutes a)%Q /\
        date a = date_of (timestamp a) /\
        hour a = hour_of (timestamp a) /\
        0 <= hour a < 24) /\
    (forall r,
        In r activities ->
        (In (activity_finish r) (transform_pet_activities activities) <->
         exists d, raw_duration_minutes r = Some d /\ (0 < d)%Q)) /\
    (List.length (transform_pet_activities activities) <= List.length activities)%nat.
Proof.
  intros activities. split; [|split].
  - intros a Ha. split; [apply (kept_duration_positive activities), Ha|].
    rewrite pet_activities_unfold in Ha.
    apply in_map_iff in Ha. destruct Ha as [r [Er _]]. subst a. simpl.
    repeat split; apply hour_of_range.
  - intros r Hr. split.
    + intros Hin. apply kept_duration_positive in Hin.
      unfold activity_finish in Hin. simpl in Hin.
      destruct (raw_duration_minutes r) as [d|].
      * exists d. split; [reflexivity | exact Hin].
      * exfalso. apply (Qlt_irrefl 0), Hin.
    + intros Hv. rewrite pet_activities_unfold. apply in_map, filter_In.
      split; [exact Hr | apply duration_valid_iff, Hv].
  - rewrite pet_activities_unfold, length_map. apply filter_length_bound.
Qed.

Lemma pet_activities_keep_positive_durations_witness :
  In (activity_finish (raw_activity "Rex" "play" 101 9 45))
     (transform_pet_activities rex_raw_activities) /\
  ~ In (activity_finish (raw_activity "Rex" "play" 102 9 0))
       (transform_pet_activities rex_raw_activities).
Proof.
  destruct (pet_activities_keep_positive_durations rex_raw_activities) as [_ [H _]].
  split.
  - apply H; [right; left; reflexivity|].
    exists 45%Q. split; [reflexivity | reflexivity].
  - intros Hin. apply H in Hin; [|right; right; left; reflexivity].
    destruct Hin as [d [Ed Hd]]. inversion Ed; subst d. discriminate Hd.
Defined.

Lemma keep_some_In {A : Type} (l : list (option A)) (x : A) :
  In x (keep_some l) <-> In (Some x) l.
Proof.
  induction l as [|[y|] t IH]; simpl.
  - tauto.
  - rewrite IH. split; intros [H|H]; auto; left; congruence.
  - rewrite IH. split; [auto | intros [H|H]; [discriminate | exact H]].
Qed.

Lemma keep_some_length {A B : Type} (f : A -> option B) (l : list A) :
  (List.length (keep_some (map f l))
   + List.length (filter (fun a => match f a with None => true | Some _ => false end) l)
   = List.length l)%nat.
Proof.
  induction l as [|a t IH]; simpl; [reflexivity|].
  destruct (f a); simpl; lia.
Qed.

(** [transform_environment_data] drops a row as a whole as soon as one of
    its three measurements does not parse: every output row comes from a
    raw row with all three numbers, carries them unchanged with the date
    and hour of its timestamp and the three comfort labels of its values,
    and the rows kept and the rows with a missing measurement add up to
    the input. *)
Theorem environment_rows_need_all_measurements :
  forall (env_df : list RawReading),
    (forall e,
        In e (transform_environment_data env_df) ->
        (exists r,
            In r env_df /\
            raw_temperature_f r = Some (temperature_f e) /\
            raw_humidity_percent r = Some (humidity_percent e) /\
            raw_noise_level_db r = Some (noise_level_db e) /\
            raw_env_timestamp r = env_timestamp e /\
            raw_kennel_section r = kennel_section e) /\
        env_date e = date_of (env_timestamp e) /\
        env_hour e = hour_of (env_timestamp e) /\
        0 <= env_hour e < 24 /\
        temp_comfort e = _categorize_temperature (temperature_f e) /\
        humidity_comfort e = _categorize_humidity (humidity_percent e) /\
        noise_comfort e = _categorize_noise (noise_level_db e)) /\
    (List.length (transform_environment_data env_df)
     + List.length
         (filter (fun r =>
                    match raw_temperature_f r, raw_humidity_percent r,
                          raw_noise_level_db r with
                    | Some _, Some _, Some _ => false
                    | _, _, _ => true
                    end) env_df)
     = List.length env_df)%nat.
Proof.
  intros env_df.
  assert (E : transform_environment_data env_df = keep_some (map reading_finish env_df)).
  { destruct env_df; reflexivity. }
  rewrite E. split.
  - intros e He. apply keep_some_In, in_map_iff in He.
    destruct He as [r [Er Hr]]. unfold reading_finish in Er.
    destruct (raw_temperature_f r) as [t|] eqn:Et; [|discriminate].
    destruct (raw_humidity_percent r) as [h|] eqn:Eh; [|discriminate].
    destruct (raw_noise_level_db r) as [n|] eqn:En; [|discriminate].
    inversion Er; subst e; simpl.
    split; [exists r; repeat split; assumption|].
    repeat split; apply hour_of_range.
  - rewrite <- (keep_some_length reading_finish env_df). f_equal. f_equal.
    apply filter_ext. intros r. unfold reading_finish.
    destruct (raw_temperature_f r), (raw_humidity_percent r), (raw_noise_level_db r);
      reflexivity.
Qed.

Lemma environment_rows_need_all_measurements_witness :
  exists e,
    In e (transform_environment_data
            [{| raw_env_timestamp := at_time 100 9 0; raw_kennel_section := "A";
                raw_temperature_f := Some 70%Q; raw_humidity_percent := Some 50%Q;
                raw_noise_level_db := Some 35%Q |};
             {| raw_env_timestamp := at_time 100 10 0; raw_kennel_section := "A";
                raw_temperature_f := None; raw_humidity_percent := Some 50%Q;
                raw_noise_level_db := Some 35%Q |}]) /\
    env_hour e = hour_of (env_timestamp e) /\
    temp_comfort e = _categorize_temperature (temperature_f e).
Proof.
  set (rows := [{| raw_env_timestamp := at_time 100 9 0; raw_kennel_section := "A";
                   raw_temperature_f := Some 70%Q; raw_humidity_percent := Some 50%Q;
                   raw_noise_level_db := Some 35%Q |};
                {| raw_env_timestamp := at_time 100 10 0; raw_kennel_section := "A";
                   raw_temperature_f := None; raw_humidity_percent := Some 50%Q;
                   raw_noise_level_db := Some 35%Q |}]).
  destruct (environment_rows_need_all_measurements rows) as [P _].
  assert (R : exists e, In e (transform_environment_data rows)).
  { vm_compute. eexists. left. reflexivity. }
  destruct R as [e He]. exists e. split; [exact He|].
  destruct (P e He) as [_ [_ [Hh [_ [Ht _]]]]]. split; [exact Hh | exact Ht].
Defined.

Lemma delta_hours_value (d : Z) : delta_hours d == d # 3600.
Proof.
  unfold delta_hours, seconds_per_hour. rewrite Qred_correct.
  unfold Qeq, Qdiv, Qmult, Qinv, inject_Z. simpl. lia.
Qed.

Lemma delta_hours_zero_iff (d : Z) : delta_hours d == 0 <-> d = 0.
Proof. rewrite delta_hours_value. unfold Qeq. simpl. lia. Qed.

Lemma rate_of_negative_duration (t : Q) (d : Z) :
  (0 <= t)%Q -> d < 0 -> (t / delta_hours d <= 0)%Q.
Proof.
  intros Ht Hd. rewrite delta_hours_value.
  destruct d as [|p|p]; try lia.
  destruct t as [tn td]. unfold Qle in *. unfold Qdiv, Qmult, Qinv. simpl in *.
  nia.
Qed.

(** The columns of a row that [transform_staff_logs] keeps. *)
Lemma staff_row_facts (staff_df : list RawStaffLog) (out : StaffLog) :
  In out (transform_staff_logs staff_df) ->
  (exists r t,
      In r staff_df /\ raw_tasks_completed r = Some t /\ (0 <= t)%Q /\
      out = staff_finish (staff_stage r)) /\
  (0 <= tasks_completed out)%Q /\
  shift_duration_hours out = delta_hours (shift_end out - shift_start out) /\
  (shift_type out = "morning" <-> 5 <= hour_of (shift_start out) < 14) /\
  (shift_type out = "afternoon" <-> 14 <= hour_of (shift_start out) < 22) /\
  (shift_type out = "night" <->
   hour_of (shift_start out) < 5 \/ 22 <= hour_of (shift_start out)) /\
  (is_finite (tasks_per_hour out) = true <-> shift_end out <> shift_start out) /\
  (shift_end out < shift_start out ->
   exists q, tasks_per_hour out = Fin q /\ (q <= 0)%Q).
Proof.
  intros Hout.
  destruct staff_df as [|r0 rest]; [destruct Hout|].
  unfold transform_staff_logs in Hout. apply in_map_iff in Hout.
  destruct Hout as [s [Es Hs]]. apply filter_In in Hs. destruct Hs as [Hs Hv].
  apply in_map_iff in Hs. destruct Hs as [r [Er Hr]]. subst s out.
  unfold tasks_valid, staff_stage in Hv. simpl in Hv.
  destruct (raw_tasks_completed r) as [t|] eqn:Et; [|discriminate].
  apply Qle_bool_iff in Hv.
  split; [exists r, t; repeat split; assumption|].
  unfold staff_finish, staff_stage. simpl. rewrite Et.
  set (h := hour_of (raw_shift_start r)).
  set (d := raw_shift_end r - raw_shift_start r).
  split; [exact Hv|]. split; [reflexivity|].
  assert (Hshift :
            (_categorize_shift h = "morning" <-> 5 <= h < 14) /\
            (_categorize_shift h = "afternoon" <-> 14 <= h < 22) /\
            (_categorize_shift h = "night" <-> h < 5 \/ 22 <= h)).
  { unfold _categorize_shift.
    destruct (Z.leb_spec 5 h), (Z.ltb_spec h 14), (Z.leb_spec 14 h), (Z.ltb_spec h 22);
      simpl; repeat split; intros; try lia; try discriminate; try reflexivity. }
  destruct Hshift as [M [A N]].
  split; [exact M|]. split; [exact A|]. split; [exact N|].
  unfold pydiv.
  destruct (Qeq_bool (delta_hours d) 0) eqn:Z0.
  - apply Qeq_bool_iff in Z0. apply (proj1 (delta_hours_zero_iff d)) in Z0. split.
    + split.
      * destruct (Qeq_bool t 0); [discriminate|].
        destruct (Qle_bool 0 t); discriminate.
      * intros N0. exfalso. unfold d in Z0. apply N0.
        apply (proj1 (Z.sub_move_0_r _ _) Z0).
    + intros L. exfalso. unfold d in Z0. lia.
  - split.
    + split; [|reflexivity]. intros _ E.
      assert (D0 : d = 0) by (unfold d; rewrite E; apply Z.sub_diag).
      apply (proj2 (delta_hours_zero_iff d)) in D0. apply Qeq_bool_iff in D0. congruence.
    + intros L. eexists. split; [reflexivity|].
      rewrite Qred_correct. apply rate_of_negative_duration; [exact Hv | unfold d; lia].
Qed.

Lemma staff_rows_count (l : list RawStaffLog) :
  (List.length (filter tasks_valid (map staff_stage l))
   + List.length
       (filter (fun r => match raw_tasks_completed r with
                         | Some t => negb (Qle_bool 0 t)
                         | None => true
                         end) l)
   = List.length l)%nat.
Proof.
  induction l as [|r t IH]; [reflexivity|]. cbn [map filter].
  unfold tasks_valid at 1. cbn [staff_stage st_tasks].
  destruct (raw_tasks_completed r) as [c|]; [destruct (Qle_bool 0 c)|];
    cbn [negb List.length]; lia.
Qed.

Lemma valid_staff_row_is_kept (staff_df : list RawStaffLog) (r : RawStaffLog) (t : Q) :
  In r staff_df -> raw_tasks_completed r = Some t -> (0 <= t)%Q ->
  In (staff_finish (staff_stage r)) (transform_staff_logs staff_df).
Proof.
  intros Hr Et Ht. destruct staff_df as [|r0 rest]; [destruct Hr|].
  unfold transform_staff_logs. apply in_map, filter_In. split.
  - apply in_map, Hr.
  - unfold tasks_valid, staff_stage. cbn [st_tasks]. rewrite Et.
    apply Qle_bool_iff, Ht.
Qed.

(** [transform_staff_logs] keeps a raw row exactly on its task count:
    every row whose [tasks_completed] parses and is not negative is kept,
    whatever its times are, and the rows kept and the rows with a missing
    or negative count add up to the input.  In particular a shift that
    ends before it starts is kept, with a negative duration and a rate
    that is not positive.  Every row kept comes from such a raw row and has
    a task count that is not negative, the duration
    [(shift_end - shift_start) / 3600] and one of the three shift types,
    read off the hour of [shift_start] (morning from 5 to 13, afternoon
    from 14 to 21, night otherwise); its [tasks_per_hour] is a finite
    number exactly when the shift does not end at the instant it
    starts. *)
Theorem staff_rows_after_transform :
  forall (staff_df : list RawStaffLog),
    (forall r t,
        In r staff_df -> raw_tasks_completed r = Some t -> (0 <= t)%Q ->
        In (staff_finish (staff_stage r)) (transform_staff_logs staff_df)) /\
    (forall r t,
        In r staff_df -> raw_tasks_completed r = Some t -> (0 <= t)%Q ->
        raw_shift_end r < raw_shift_start r ->
        exists out q,
          In out (transform_staff_logs staff_df) /\
          log_staff_id out = raw_staff_id r /\
          shift_start out = raw_shift_start r /\
          shift_end out = raw_shift_end r /\
          tasks_completed out = t /\
          (shift_duration_hours out < 0)%Q /\
          tasks_per_hour out = Fin q /\ (q <= 0)%Q) /\
    (List.length (transform_staff_logs staff_df)
     + List.length
         (filter (fun r => match raw_tasks_completed r with
                           | Some t => negb (Qle_bool 0 t)
                           | None => true
                           end) staff_df)
     = List.length staff_df)%nat /\
    (forall out,
        In out (transform_staff_logs staff_df) ->
        (exists r t,
            In r staff_df /\ raw_tasks_completed r = Some t /\ (0 <= t)%Q /\
            out = staff_finish (staff_stage r)) /\
        (0 <= tasks_completed out)%Q /\
        shift_duration_hours out = delta_hours (shift_end out - shift_start out) /\
        (shift_type out = "morning" <-> 5 <= hour_of (shift_start out) < 14) /\
        (shift_type out = "afternoon" <-> 14 <= hour_of (shift_start out) < 22) /\
        (shift_type out = "night" <->
         hour_of (shift_start out) < 5 \/ 22 <= hour_of (shift_start out)) /\
        (is_finite (tasks_per_hour out) = true <-> shift_end out <> shift_start out) /\
        (shift_end out < shift_start out ->
         exists q, tasks_per_hour out = Fin q /\ (q <= 0)%Q)).
Proof.
  intros staff_df.
  split; [intros r t; apply valid_staff_row_is_kept|].
  split; [|split; [|intros out; apply staff_row_facts]].
  - intros r t Hr Et Ht Hrev.
    pose proof (valid_staff_row_is_kept staff_df r t Hr Et Ht) as Hin.
    destruct (staff_row_facts staff_df _ Hin) as [_ [_ [_ [_ [_ [_ [_ Hq]]]]]]].
    destruct Hq as [q [Eq Hq]]; [exact Hrev|].
    exists (staff_finish (staff_stage r)), q.
    split; [exact Hin|]. split; [reflexivity|]. split; [reflexivity|].
    split; [reflexivity|].
    split; [unfold staff_finish, staff_stage; cbn; rewrite Et; reflexivity|].
    split; [|split; [exact Eq | exact Hq]].
    unfold staff_finish, staff_stage. cbn [shift_duration_hours st_duration_hours].
    rewrite delta_hours_value. unfold Qlt. cbn [Qnum Qden]. lia.
  - destruct staff_df as [|r0 rest]; [reflexivity|].
    unfold transform_staff_logs. rewrite length_map. apply staff_rows_count.
Qed.

Lemma staff_rows_after_transform_witness :
  exists out q,
    In out (transform_staff_logs
              [day_shift 100;
               {| raw_staff_id := "S3"; raw_staff_name := "Cy";
                  raw_shift_start := at_time 100 17 0; raw_shift_end := at_time 100 9 0;
                  raw_tasks_completed := Some 4%Q |}]) /\
    shift_start out = at_time 100 17 0 /\
    shift_end out = at_time 100 9 0 /\
    (shift_duration_hours out < 0)%Q /\
    tasks_per_hour out = Fin q /\ (q <= 0)%Q.
Proof.
  set (late := {| raw_staff_id := "S3"; raw_staff_name := "Cy";
                  raw_shift_start := at_time 100 17 0; raw_shift_end := at_time 100 9 0;
                  raw_tasks_completed := Some 4%Q |}).
  destruct (staff_rows_after_transform [day_shift 100; late]) as [_ [K _]].
  destruct (K late 4%Q) as [out [q [I [_ [S [E [_ [D [R Hq]]]]]]]]].
  - right. left. reflexivity.
  - reflexivity.
  - discriminate.
  - vm_compute. reflexivity.
  - exists out, q. repeat split; assumption.
Defined.

Lemma date_filter_is_key (d : Z) (pet_df : list ActivityRecord) :
  filter (fun a => date a =? d) pet_df = filter (key_is Z.eq_dec date d) pet_df.
Proof.
  apply filter_ext. intros a. unfold key_is.
  destruct (Z.eq_dec (date a) d) as [E|N].
  - apply Z.eqb_eq, E.
  - apply Z.eqb_neq, N.
Qed.

Lemma shift_date_filter_is_key (d : Z) (staff_df : list StaffLog) :
  filter (fun s => date_of (shift_start s) =? d) staff_df
  = filter (key_is Z.eq_dec (fun s => date_of (shift_start s)) d) staff_df.
Proof.
  apply filter_ext. intros a. unfold key_is.
  destruct (Z.eq_dec (date_of (shift_start a)) d) as [E|N].
  - apply Z.eqb_eq, E.
  - apply Z.eqb_neq, N.
Qed.

Lemma list_sum_perm_map {A : Type} (f : A -> nat) (l l' : list A) :
  Permutation l l' ->
  fold_right Nat.add 0%nat (map f l) = fold_right Nat.add 0%nat (map f l').
Proof.
  intros P. apply (Permutation_list_sum (Permutation_map f P)).
Qed.

(** The daily summary lists its dates in strictly increasing order and
    loses no row: the [total_activities] of its rows add up to the number
    of activity rows, and the [staff_shifts] to the number of staff
    rows. *)
Theorem daily_summary_is_sorted_and_complete :
  forall (pet_df : list ActivityRecord) (env_df : list EnvironmentReading)
         (staff_df : list StaffLog),
    StronglySorted Z.lt (map summary_date (create_daily_summary pet_df env_df staff_df)) /\
    fold_right Nat.add 0%nat
      (map total_activities (create_daily_summary pet_df env_df staff_df))
    = List.length pet_df /\
    fold_right Nat.add 0%nat
      (map staff_shifts (create_daily_summary pet_df env_df staff_df))
    = List.length staff_df.
Proof.
  intros pet_df env_df staff_df. unfold create_daily_summary.
  pose proof (SummaryFacts.summary_dates_NoDup pet_df env_df staff_df) as ND.
  pose proof (SummaryFacts.summary_dates_In pet_df env_df staff_df) as Hin.
  set (dates := summary_dates pet_df env_df staff_df) in *.
  split; [|split].
  - rewrite SummaryFacts.summary_row_date. apply sort_distinct_increasing, ND.
  - rewrite map_map. unfold summary_row. cbn [total_activities].
    rewrite (list_sum_perm_map _ _ _ (sort_by_perm Z.leb dates)).
    erewrite map_ext.
    2: { intros d. rewrite SummaryFacts.guarded_filter, date_filter_is_key. reflexivity. }
    rewrite (size_groups Z.eq_dec date dates pet_df ND).
    rewrite filter_all; [reflexivity|].
    intros a Ha. apply key_in_true, Hin. left. apply in_map, Ha.
  - rewrite map_map. unfold summary_row. cbn [staff_shifts].
    rewrite (list_sum_perm_map _ _ _ (sort_by_perm Z.leb dates)).
    erewrite map_ext.
    2: { intros d. rewrite SummaryFacts.guarded_filter, shift_date_filter_is_key.
         reflexivity. }
    rewrite (size_groups Z.eq_dec (fun s => date_of (shift_start s)) dates staff_df ND).
    rewrite filter_all; [reflexivity|].
    intros a Ha. apply key_in_true, Hin. right. right.
    apply (in_map (fun s => date_of (shift_start s))), Ha.
Qed.

(** A part of a column of numbers that are not negative adds up to no
    more than the column. *)
Lemma sum_filter_le {A : Type} (f : A -> Q) (p : A -> bool) (l : list A) :
  (forall a, In a l -> (0 <= f a)%Q) ->
  (fold_right Qplus 0 (map f (filter p l)) <= fold_right Qplus 0 (map f l))%Q.
Proof.
  induction l as [|a t IH]; intros H; [apply Qle_refl|].
  assert (IH' := IH (fun b Hb => H b (or_intror Hb))).
  pose proof (H a (or_introl eq_refl)) as Ha.
  cbn [filter map fold_right]. destruct (p a); cbn [map fold_right]; lra.
Qed.

(** Through the whole transformation, for activity data whose positive
    durations add up to no more than [int64_max] (so that no sum of the
    column wraps): a day of the summary that counts activities has a
    positive number of activity minutes, itself no more than [int64_max],
    and between one and [total_activities] distinct pets: rows without a
    positive duration never reach the summary. *)
Theorem summary_of_pipeline_counts_positive_minutes :
  forall (raw_activities : list RawActivity) (raw_environment : list RawReading)
         (raw_staff : list RawStaffLog) (row : DailySummary),
    (fold_right Qplus 0
       (map duration_minutes (transform_pet_activities raw_activities))
     <= inject_Z int64_max)%Q ->
    In row (td_daily_summary
              (transform_all_data raw_activities raw_environment raw_staff)) ->
    (0 < total_activities row)%nat ->
    exists minutes pets,
      total_activity_minutes row = Some minutes /\
      (0 < minutes)%Q /\
      (minutes <= inject_Z int64_max)%Q /\
      unique_pets row = Some pets /\
      (1 <= pets <= total_activities row)%nat.
Proof.
  intros raw_activities raw_environment raw_staff row Hbound Hrow Hpos.
  unfold transform_all_data in Hrow. cbn [td_daily_summary] in Hrow.
  unfold create_daily_summary in Hrow. apply in_map_iff in Hrow.
  destruct Hrow as [d [E _]]. subst row.
  unfold summary_row in *. cbv zeta in *.
  rewrite SummaryFacts.guarded_filter in *.
  cbn [total_activities total_activity_minutes unique_pets] in *.
  assert (Hle : (fold_right Qplus 0
                   (map duration_minutes
                      (filter (fun a => date a =? d)
                              (transform_pet_activities raw_activities)))
                 <= inject_Z int64_max)%Q).
  { eapply Qle_trans; [|exact Hbound]. apply sum_filter_le.
    intros a Ha. apply Qlt_le_weak, (kept_duration_positive raw_activities), Ha. }
  set (day := filter (fun a => date a =? d) (transform_pet_activities raw_activities)) in *.
  assert (Hday : forall a, In a day -> (0 < duration_minutes a)%Q).
  { intros a Ha. apply filter_In in Ha. destruct Ha as [Ha _].
    apply (kept_duration_positive raw_activities), Ha. }
  destruct day as [|a rest] eqn:Eday; [simpl in Hpos; lia|].
  cbn [is_empty negb]. eexists. eexists.
  split; [reflexivity|]. split; [|split; [|split; [reflexivity|]]].
  - unfold qsum. rewrite Qred_correct. apply sum_positive; [discriminate|].
    intros x Hx. apply in_map_iff in Hx. destruct Hx as [b [Eb Hb]]. subst x.
    apply Hday, Hb.
  - unfold qsum. rewrite Qred_correct. exact Hle.
  - split.
    + assert (Hin : In (pet_id a) (nodup string_dec (map pet_id (a :: rest)))).
      { apply nodup_In. left. reflexivity. }
      destruct (nodup string_dec (map pet_id (a :: rest))); [destruct Hin | simpl; lia].
    + rewrite <- (length_map pet_id (a :: rest)).
      apply NoDup_incl_length; [apply NoDup_nodup|].
      intros x Hx. apply nodup_In in Hx. exact Hx.
Qed.

Lemma summary_of_pipeline_counts_positive_minutes_witness :
  exists minutes pets,
    total_activity_minutes (summary_row (transform_pet_activities rex_raw_activities)
                                        [] [] 100) = Some minutes /\
    (0 < minutes)%Q /\
    (minutes <= inject_Z int64_max)%Q /\
    unique_pets (summary_row (transform_pet_activities rex_raw_activities) [] [] 100)
      = Some pets /\
    (1 <= pets <= total_activities
                    (summary_row (transform_pet_activities rex_raw_activities)
                                 [] [] 100))%nat.
Proof.
  apply (summary_of_pipeline_counts_positive_minutes rex_raw_activities [] []).
  - vm_compute. discriminate.
  - left. vm_compute. reflexivity.
  - vm_compute. lia.
Defined.

End TransformExtras.

(** ** Rounding and percentages *)

Module RoundFacts.

Lemma round_half_even_lower (a : Z) (q : Q) :
  (inject_Z a <= q)%Q -> a <= round_half_even q.
Proof.
  intros H. apply Qfloor_resp_le in H. rewrite Qfloor_Z in H.
  unfold round_half_even.
  destruct (q - inject_Z (Qfloor q) ?= 1 # 2)%Q; try lia.
  destruct (Z.even (Qfloor q)); lia.
Qed.

Lemma round_half_even_upper (b : Z) (q : Q) :
  (q <= inject_Z b)%Q -> round_half_even q <= b.
Proof.
  intros H. pose proof (Qfloor_resp_le _ _ H) as F. rewrite Qfloor_Z in F.
  unfold round_half_even.
  destruct (Z.eq_dec (Qfloor q) b) as [E|N].
  - assert (C : (q - inject_Z (Qfloor q) ?= 1 # 2)%Q = Lt).
    { apply Qlt_alt. rewrite E.
      apply (Qle_lt_trans _ 0); [|reflexivity].
      apply (Qplus_le_l _ _ (inject_Z b)). ring_simplify. exact H. }
    rewrite C. lia.
  - destruct (q - inject_Z (Qfloor q) ?= 1 # 2)%Q; try lia.
    destruct (Z.even (Qfloor q)); lia.
Qed.

Lemma scale_positive (n : nat) : (0 < inject_Z (10 ^ Z.of_nat n))%Q.
Proof.
  change 0%Q with (inject_Z 0). rewrite <- Zlt_Qlt. apply Z.pow_pos_nonneg; lia.
Qed.

(** Rounding to decimals never leaves an interval with integer ends. *)
Lemma round_dec_bounds (n : nat) (a b : Z) (q : Q) :
  (inject_Z a <= q)%Q -> (q <= inject_Z b)%Q ->
  (inject_Z a <= round_dec n q)%Q /\ (round_dec n q <= inject_Z b)%Q.
Proof.
  intros Ha Hb. unfold round_dec.
  pose proof (scale_positive n) as Hs.
  set (s := 10 ^ Z.of_nat n) in *.
  rewrite Qred_correct. split.
  - apply Qle_shift_div_l; [exact Hs|].
    rewrite <- inject_Z_mult, <- Zle_Qle.
    apply round_half_even_lower. rewrite inject_Z_mult.
    apply Qmult_le_compat_r; [exact Ha | apply Qlt_le_weak, Hs].
  - apply Qle_shift_div_r; [exact Hs|].
    rewrite <- inject_Z_mult, <- Zle_Qle.
    apply round_half_even_upper. rewrite inject_Z_mult.
    apply Qmult_le_compat_r; [exact Hb | apply Qlt_le_weak, Hs].
Qed.

Lemma count_q_le (a b : nat) : (a <= b)%nat -> (count_q a <= count_q b)%Q.
Proof. intros H. unfold count_q. rewrite <- Zle_Qle. lia. Qed.

Lemma count_q_pos (b : nat) : (0 < b)%nat -> (0 < count_q b)%Q.
Proof.
  intros H. unfold count_q. change 0%Q with (inject_Z 0). rewrite <- Zlt_Qlt. lia.
Qed.

Lemma count_q_nonneg (a : nat) : (0 <= count_q a)%Q.
Proof.
  unfold count_q. change 0%Q with (inject_Z 0). rewrite <- Zle_Qle. lia.
Qed.

(** A share of a total, as a fraction between 0 and 1. *)
Lemma share_bounds (part total : nat) :
  (part <= total)%nat -> (0 < total)%nat ->
  (0 <= count_q part / count_q total)%Q /\ (count_q part / count_q total <= 1)%Q.
Proof.
  intros Hle Hpos. pose proof (count_q_pos total Hpos) as Ht. split.
  - apply Qle_shift_div_l; [exact Ht|]. rewrite Qmult_0_l. apply count_q_nonneg.
  - apply Qle_shift_div_r; [exact Ht|]. rewrite Qmult_1_l. apply count_q_le, Hle.
Qed.

End RoundFacts.

(** ** Pet wellness: summary, feeding and weight analyses *)

Module WellnessExtras.

Import PetWellnessAnalyzer WellnessSummary Scenarios.
Import TableFacts ExtraFacts RoundFacts WellnessFacts.

Lemma rate_percent_bounds (part total : nat) :
  (part <= total)%nat ->
  (0 <= rate_percent part total)%Q /\ (rate_percent part total <= 100)%Q.
Proof.
  intros Hle. unfold rate_percent.
  destruct (Nat.ltb_spec 0 total) as [Hpos|Hz].
  - rewrite Qred_correct.
    destruct (share_bounds part total Hle Hpos) as [L U]. split.
    + apply Qmult_le_0_compat; [exact L | discriminate].
    + apply (Qle_trans _ (1 * 100)); [|apply Qle_refl].
      apply Qmult_le_compat_r; [exact U | discriminate].
  - split; [apply Qle_refl | discriminate].
Qed.

Lemma activity_level_labels (x : pyfloat) :
  _categorize_activity_level x = "low" \/
  _categorize_activity_level x = "high" \/
  _categorize_activity_level x = "optimal".
Proof.
  unfold _categorize_activity_level.
  destruct (flt x _); [left; reflexivity|].
  destruct (fgt x _); [right; left | right; right]; reflexivity.
Qed.

Lemma output_rows (self_df : list ActivityRecord) (now : instant) (days : option Z)
  (row : PetAverage) :
  In row (get_avg_activity_time_per_pet self_df now days) ->
  In row (pet_averages_of
            (daily_activity_of
               (since timestamp
                      (now - timedelta_days (days_or days (ANALYSIS_WINDOWS medium_term)))
                      self_df))).
Proof. unfold get_avg_activity_time_per_pet. cbv zeta. apply sort_by_In. Qed.

Lemma output_status (self_df : list ActivityRecord) (now : instant) (days : option Z)
  (row : PetAverage) :
  In row (get_avg_activity_time_per_pet self_df now days) ->
  activity_status row = "low" \/ activity_status row = "high" \/
  activity_status row = "optimal".
Proof.
  intros H. apply output_rows, average_row in H.
  destruct H as [_ [_ S]]. rewrite S. apply activity_level_labels.
Qed.

(** The pets with a feeding in the window are pets of the window. *)
Lemma feeding_pets_are_active (self_df : list ActivityRecord) (cutoff : instant) :
  (List.length
     (groupby pet_key_dec pet_key_leb fst
        (map (fun g : pet_day_key * list ActivityRecord =>
                (fst (fst g), List.length (snd g)))
             (groupby pet_day_key_dec pet_day_key_leb pet_day_of
                (filter (fun a => String.eqb (activity_type a) "feeding"
                                  && (cutoff <=? timestamp a)%Z) self_df))))
   <= List.length
        (pet_averages_of (daily_activity_of (since timestamp cutoff self_df))))%nat.
Proof.
  rewrite groupby_length. unfold pet_averages_of.
  rewrite length_map, groupby_length.
  apply NoDup_incl_length; [apply NoDup_nodup|].
  intros p Hp. apply nodup_In in Hp. apply nodup_In.
  apply pets_of_daily_activity.
  rewrite map_map in Hp. cbn [fst] in Hp.
  apply in_map_iff in Hp. destruct Hp as [g [Eg Hg]].
  pose proof (groupby_group_nonempty _ _ _ _ _ Hg) as Hne.
  destruct (snd g) as [|a rest] eqn:Es; [congruence|].
  destruct (groupby_group_incl _ _ _ _ _ a Hg) as [Ha Hk];
    [rewrite Es; left; reflexivity|].
  apply filter_In in Ha. destruct Ha as [Ha Hf].
  apply andb_prop in Hf. destruct Hf as [_ Hc].
  exists a. split.
  - apply filter_In. split; assumption.
  - rewrite <- Eg, <- Hk. reflexivity.
Qed.

(** [get_pet_wellness_summary] always returns its mapping.  Every pet of
    it is rated ['optimal'] or needs attention (['low'] or ['high']), never
    both, so the two groups add up to [total_pets]; the activity and the
    feeding wellness rates lie between 0 and 100, and both are 0 when no
    pet was active in the window. *)
Theorem wellness_summary_is_consistent :
  forall (self_df : list ActivityRecord) (now : instant),
    exists s,
      get_pet_wellness_summary self_df now = Some s /\
      total_pets s
        = (List.length (filter (status_is "optimal") (activity_details s))
           + List.length (pets_needing_attention s))%nat /\
      (0 <= activity_wellness_rate s)%Q /\ (activity_wellness_rate s <= 100)%Q /\
      (0 <= feeding_wellness_rate s)%Q /\ (feeding_wellness_rate s <= 100)%Q /\
      (total_pets s = 0%nat ->
       activity_wellness_rate s = 0%Q /\ feeding_wellness_rate s = 0%Q).
Proof.
  intros self_df now. unfold get_pet_wellness_summary. cbv zeta.
  unfold get_feeding_frequency_analysis. cbv zeta.
  eexists. split; [reflexivity|].
  cbn [total_pets activity_details pets_needing_attention activity_wellness_rate
       feeding_wellness_rate feeding_detailed_per_pet].
  set (rows := get_avg_activity_time_per_pet self_df now None).
  split; [|split; [|split; [|split; [|split]]]].
  - rewrite <- (filter_all (fun _ => true) rows) at 1 by reflexivity.
    apply filter_split_length.
    + intros r Hr. unfold status_is.
      destruct (output_status _ _ _ r Hr) as [S|[S|S]]; rewrite S; reflexivity.
    + intros r _ Ho. unfold status_is in *. apply String.eqb_eq in Ho.
      rewrite Ho. reflexivity.
  - apply rate_percent_bounds, filter_length_bound.
  - apply rate_percent_bounds, filter_length_bound.
  - apply rate_percent_bounds.
    eapply Nat.le_trans; [apply filter_length_bound|].
    rewrite length_map. unfold rows, get_avg_activity_time_per_pet. cbv zeta.
    rewrite sort_by_length. apply feeding_pets_are_active.
  - apply rate_percent_bounds.
    eapply Nat.le_trans; [apply filter_length_bound|].
    rewrite length_map. unfold rows, get_avg_activity_time_per_pet. cbv zeta.
    rewrite sort_by_length. apply feeding_pets_are_active.
  - intros Z0. unfold rate_percent. rewrite Z0. split; reflexivity.
Qed.

Lemma wellness_summary_is_consistent_witness :
  exists s,
    get_pet_wellness_summary [] (at_time 100 0 0) = Some s /\
    activity_wellness_rate s = 0%Q /\ feeding_wellness_rate s = 0%Q.
Proof.
  destruct (wellness_summary_is_consistent [] (at_time 100 0 0))
    as [s [E [_ [_ [_ [_ [_ Z0]]]]]]].
  exists s. split; [exact E|]. apply Z0.
  injection E as E. rewrite <- E. reflexivity.
Defined.

Lemma count_q_succ (n : nat) : count_q (S n) == count_q n + 1.
Proof.
  unfold count_q. rewrite Nat2Z.inj_succ. unfold Z.succ.
  rewrite inject_Z_plus. reflexivity.
Qed.

Lemma sum_lower (lo : Q) (l : list Q) :
  (forall x, In x l -> lo <= x)%Q ->
  (lo * count_q (List.length l) <= fold_right Qplus 0 l)%Q.
Proof.
  induction l as [|x t IH]; intros H; simpl.
  - rewrite Qmult_0_r. apply Qle_refl.
  - rewrite count_q_succ.
    setoid_replace (lo * (count_q (List.length t) + 1))%Q
      with (lo + lo * count_q (List.length t))%Q by ring.
    apply Qplus_le_compat.
    + apply H. left. reflexivity.
    + apply IH. intros y Hy. apply H. right. exact Hy.
Qed.

Lemma sum_upper (hi : Q) (l : list Q) :
  (forall x, In x l -> x <= hi)%Q ->
  (fold_right Qplus 0 l <= hi * count_q (List.length l))%Q.
Proof.
  induction l as [|x t IH]; intros H; simpl.
  - rewrite Qmult_0_r. apply Qle_refl.
  - rewrite count_q_succ.
    setoid_replace (hi * (count_q (List.length t) + 1))%Q
      with (hi + hi * count_q (List.length t))%Q by ring.
    apply Qplus_le_compat.
    + apply H. left. reflexivity.
    + apply IH. intros y Hy. apply H. right. exact Hy.
Qed.

(** The rounded mean of a column of counts lies between two integers
    that bound the counts. *)
Lemma rounded_mean_of_counts (n : nat) (lo hi : nat) (counts : list nat) :
  counts <> [] ->
  (forall c, In c counts -> (lo <= c <= hi)%nat) ->
  exists v,
    fround n (mean (map count_q counts)) = Fin v /\
    (count_q lo <= v)%Q /\ (v <= count_q hi)%Q.
Proof.
  intros Hne Hb.
  rewrite mean_nonempty by (intros N; apply map_eq_nil in N; contradiction).
  cbn [fround]. eexists. split; [reflexivity|].
  assert (Hpos : (0 < count_q (List.length (map count_q counts)))%Q).
  { apply count_q_pos. rewrite length_map. destruct counts; [congruence | simpl; lia]. }
  apply round_dec_bounds; rewrite Qred_correct.
  - apply Qle_shift_div_l; [exact Hpos|]. apply sum_lower.
    intros x Hx. apply in_map_iff in Hx. destruct Hx as [c [E Hc]]. subst x.
    apply count_q_le, Hb, Hc.
  - apply Qle_shift_div_r; [exact Hpos|]. apply sum_upper.
    intros x Hx. apply in_map_iff in Hx. destruct Hx as [c [E Hc]]. subst x.
    apply count_q_le, Hb, Hc.
Qed.

Lemma fold_min_lower (d : nat) (l : list nat) (c : nat) :
  In c l -> (fold_right Nat.min d l <= c)%nat.
Proof.
  induction l as [|x t IH]; intros H; simpl; [destruct H|].
  destruct H as [E|H]; [subst; lia | specialize (IH H); lia].
Qed.

Lemma fold_min_ge (d lo : nat) (l : list nat) :
  (lo <= d)%nat -> (forall c, In c l -> (lo <= c)%nat) ->
  (lo <= fold_right Nat.min d l)%nat.
Proof.
  intros Hd. induction l as [|x t IH]; intros H; simpl; [exact Hd|].
  apply Nat.min_glb; [apply H; left; reflexivity|].
  apply IH. intros c Hc. apply H. right. exact Hc.
Qed.

Lemma fold_max_upper (l : list nat) (c : nat) :
  In c l -> (c <= fold_right Nat.max 0%nat l)%nat.
Proof.
  induction l as [|x t IH]; intros H; simpl; [destruct H|].
  destruct H as [E|H]; [subst; lia | specialize (IH H); lia].
Qed.

(** [get_feeding_frequency_analysis] never returns an error.  It has one
    row per pet with a feeding in the window; every pet was fed at least
    once on each day counted, so [1 <= min_daily <= max_daily], and the
    average per day lies between the two.  The pets with an irregular
    feeding status are among the pets analysed. *)
Theorem feeding_analysis_invariants :
  forall (self_df : list ActivityRecord) (now : instant) (days : option Z),
    exists f,
      get_feeding_frequency_analysis self_df now days = Metrics f /\
      total_pets_analyzed f = List.length (feeding_detailed_per_pet f) /\
      (pets_with_irregular_feeding f <= total_pets_analyzed f)%nat /\
      NoDup (map fr_pet (feeding_detailed_per_pet f)) /\
      (forall row,
          In row (feeding_detailed_per_pet f) ->
          (1 <= min_daily row)%nat /\
          (min_daily row <= max_daily row)%nat /\
          exists v,
            avg_feedings_per_day row = Fin v /\
            (count_q (min_daily row) <= v)%Q /\ (v <= count_q (max_daily row))%Q).
Proof.
  intros self_df now days. unfold get_feeding_frequency_analysis. cbv zeta.
  eexists. split; [reflexivity|].
  cbn [total_pets_analyzed feeding_detailed_per_pet pets_with_irregular_feeding].
  split; [reflexivity|]. split; [apply filter_length_bound|]. split.
  - rewrite map_map. cbn [fr_pet]. apply groupby_keys_NoDup.
  - intros row Hrow. apply in_map_iff in Hrow. destruct Hrow as [g [E Hg]].
    subst row. cbn [min_daily max_daily avg_feedings_per_day].
    set (counts := map snd (snd g)).
    assert (Hne : counts <> []).
    { unfold counts. intros N. apply map_eq_nil in N.
      revert N. apply (groupby_group_nonempty _ _ _ _ _ Hg). }
    assert (Hone : forall c, In c counts -> (1 <= c)%nat).
    { intros c Hc. unfold counts in Hc. apply in_map_iff in Hc.
      destruct Hc as [x [Ex Hx]]. subst c.
      destruct (groupby_group_incl _ _ _ _ _ x Hg Hx) as [Hd _].
      apply in_map_iff in Hd. destruct Hd as [g' [Eg' Hg']]. subst x. cbn [snd].
      pose proof (groupby_group_nonempty _ _ _ _ _ Hg') as N.
      destruct (snd g'); [congruence | simpl; lia]. }
    assert (Hmin : (1 <= fold_right Nat.min (hd 0%nat counts) counts)%nat).
    { apply fold_min_ge; [|exact Hone].
      destruct counts as [|c t]; [congruence|]. apply Hone. left. reflexivity. }
    assert (Hbounds : forall c, In c counts ->
              (fold_right Nat.min (hd 0%nat counts) counts <= c
               <= fold_right Nat.max 0%nat counts)%nat).
    { intros c Hc. split; [apply fold_min_lower | apply fold_max_upper]; exact Hc. }
    split; [exact Hmin|]. split.
    + destruct counts as [|c t] eqn:Ec; [congruence|].
      specialize (Hbounds c (or_introl eq_refl)). lia.
    + apply rounded_mean_of_counts; assumption.
Qed.

Lemma feeding_analysis_invariants_witness :
  exists f row,
    get_feeding_frequency_analysis [activity "Rex" "feeding" 100 8 5] (at_time 101 0 0) None
      = Metrics f /\
    In row (feeding_detailed_per_pet f) /\
    (1 <= min_daily row)%nat.
Proof.
  destruct (feeding_analysis_invariants
              [activity "Rex" "feeding" 100 8 5] (at_time 101 0 0) None)
    as [f [E [_ [_ [_ H]]]]].
  assert (L : feeding_detailed_per_pet f <> []).
  { vm_compute in E. inversion E. discriminate. }
  assert (R : exists row, In row (feeding_detailed_per_pet f)).
  { revert L. destruct (feeding_detailed_per_pet f) as [|row rest]; intros L;
      [congruence | exists row; left; reflexivity]. }
  destruct R as [row R].
  exists f, row. split; [exact E|]. split; [exact R|].
  apply H, R.
Defined.

Lemma fold_Zmin_le_default (d : Z) (l : list Z) : fold_right Z.min d l <= d.
Proof. induction l as [|x t IH]; simpl; lia. Qed.

Lemma fold_Zmax_ge_default (d : Z) (l : list Z) : d <= fold_right Z.max d l.
Proof. induction l as [|x t IH]; simpl; lia. Qed.

Lemma firstn_In {A : Type} (n : nat) (l : list A) (x : A) :
  In x (firstn n l) -> In x l.
Proof.
  revert l. induction n as [|n IH]; intros l H; simpl in H; [destruct H|].
  destruct l as [|y t]; [destruct H|].
  destruct H as [E|H]; [left; exact E | right; apply IH, H].
Qed.

(** [get_weight_trend_analysis] has no error branch.  It counts every
    weight mention once: the per-pet check counts add up to
    [total_weight_checks]; each pet listed has at least one check, its
    first check is not after its latest, and [days_between_checks] is not
    negative.  The recent list has at most ten entries, all of them medical
    records of the window; when the notes of such an entry are ASCII text
    they contain "weight" in some letter case.  Conversely the pet of
    every medical record of the window whose notes contain "weight" in
    some ASCII letter case is listed with its checks. *)
Theorem weight_analysis_invariants :
  forall (self_df : list ActivityRecord) (now : instant) (days : option Z),
    exists w,
      get_weight_trend_analysis self_df now days = Metrics w /\
      pets_with_weight_monitoring w = List.length (weight_detailed_per_pet w) /\
      fold_right Nat.add 0%nat
        (map total_weight_checks_of_pet (weight_detailed_per_pet w))
      = total_weight_checks w /\
      (forall row,
          In row (weight_detailed_per_pet w) ->
          (1 <= total_weight_checks_of_pet row)%nat /\
          first_check row <= latest_check row /\
          0 <= days_between_checks row) /\
      (List.length (recent_weight_activities w) <= 10)%nat /\
      (forall a,
          In a (recent_weight_activities w) ->
          In a self_df /\
          activity_type a = "medical" /\
          now - timedelta_days (days_or days 30) <= timestamp a /\
          (is_ascii (notes a) = true -> contains "weight" (lower (notes a)) = true)) /\
      (forall a,
          In a self_df ->
          activity_type a = "medical" ->
          now - timedelta_days (days_or days 30) <= timestamp a ->
          contains "weight" (lower (notes a)) = true ->
          In (pet_of a) (map wr_pet (weight_detailed_per_pet w)) /\
          (1 <= total_weight_checks w)%nat).
Proof.
  intros self_df now days. unfold get_weight_trend_analysis. cbv zeta.
  change (ANALYSIS_WINDOWS medium_term) with 30.
  set (mentions :=
         filter (fun a => contains "weight" (lower (notes a)))
                (filter (fun a => String.eqb (activity_type a) "medical"
                                  && (now - timedelta_days (days_or days 30) <=? timestamp a))
                        self_df)).
  eexists. split; [reflexivity|].
  cbn [pets_with_weight_monitoring weight_detailed_per_pet total_weight_checks
       recent_weight_activities].
  split; [reflexivity|]. split; [|split; [|split; [|split]]].
  - rewrite map_map. cbn [total_weight_checks_of_pet].
    unfold groupby. rewrite map_map. cbn [snd].
    rewrite size_groups by apply unique_sorted_NoDup.
    f_equal. apply filter_all. intros a Ha.
    apply key_in_true, unique_sorted_In, in_map, Ha.
  - intros row Hrow. apply in_map_iff in Hrow. destruct Hrow as [g [E Hg]].
    subst row. cbn [total_weight_checks_of_pet first_check latest_check
                    days_between_checks].
    pose proof (groupby_group_nonempty _ _ _ _ _ Hg) as Hne.
    set (ts := map timestamp (snd g)).
    assert (Hord : fold_right Z.min (hd 0 ts) ts <= fold_right Z.max (hd 0 ts) ts).
    { pose proof (fold_Zmin_le_default (hd 0 ts) ts).
      pose proof (fold_Zmax_ge_default (hd 0 ts) ts). lia. }
    split; [|split].
    + destruct (snd g); [congruence | simpl; lia].
    + exact Hord.
    + unfold delta_days, seconds_per_day. apply Z.div_pos; lia.
  - apply firstn_le_length.
  - intros a Ha. apply firstn_In in Ha. apply sort_by_In in Ha.
    unfold mentions in Ha.
    apply filter_In in Ha. destruct Ha as [Ha Hw].
    apply filter_In in Ha. destruct Ha as [Ha Hm].
    apply andb_prop in Hm. destruct Hm as [Ht Hc].
    split; [exact Ha|]. split; [apply String.eqb_eq, Ht|].
    split; [apply Z.leb_le, Hc | intros _; exact Hw].
  - intros a Ha Hm Hc Hw.
    assert (Hin : In a mentions).
    { unfold mentions. apply filter_In. split; [|exact Hw].
      apply filter_In. split; [exact Ha|]. apply andb_true_iff.
      split; [apply String.eqb_eq, Hm | apply Z.leb_le, Hc]. }
    split.
    + rewrite map_map. cbn [wr_pet].
      change (In (pet_of a)
                 (map fst (groupby pet_key_dec pet_key_leb pet_of mentions))).
      rewrite groupby_keys. apply unique_sorted_In, in_map, Hin.
    + destruct mentions; [destruct Hin | simpl; lia].
Qed.

Lemma weight_analysis_invariants_witness :
  exists w a,
    get_weight_trend_analysis
      [{| pet_id := "P1"; pet_name := "Rex"; activity_type := "medical";
          timestamp := at_time 100 9 0; duration_minutes := 15;
          staff_id := "S1"; notes := "Weight check: 30 kg";
          date := 100; hour := 9 |}] (at_time 101 0 0) None = Metrics w /\
    In a (recent_weight_activities w) /\
    contains "weight" (lower (notes a)) = true /\
    In ("P1", "Rex") (map wr_pet (weight_detailed_per_pet w)).
Proof.
  set (rex := {| pet_id := "P1"; pet_name := "Rex"; activity_type := "medical";
                 timestamp := at_time 100 9 0; duration_minutes := 15;
                 staff_id := "S1"; notes := "Weight check: 30 kg";
                 date := 100; hour := 9 |}).
  destruct (weight_analysis_invariants [rex] (at_time 101 0 0) None)
    as [w [E [_ [_ [_ [_ [H C]]]]]]].
  assert (L : recent_weight_activities w <> []).
  { vm_compute in E. inversion E. discriminate. }
  assert (R : exists a, In a (recent_weight_activities w)).
  { revert L. destruct (recent_weight_activities w) as [|a rest]; intros L;
      [congruence | exists a; left; reflexivity]. }
  destruct R as [a R].
  exists w, a. split; [exact E|]. split; [exact R|].
  destruct (H a R) as [I [_ [_ A]]].
  split.
  - apply A. destruct I as [I|[]]. rewrite <- I. reflexivity.
  - apply (C rex); [left; reflexivity | reflexivity | vm_compute; discriminate
                    | reflexivity].
Defined.

End WellnessExtras.

(** ** Environmental analyzer: categories and score *)

Module EnvironmentExtras.

Import EnvironmentalAnalyzer Labels Scenarios.
Import TableFacts ExtraFacts RoundFacts CountFacts.

Lemma Qle_bool_false (x c : Q) : Qle_bool x c = false <-> (c < x)%Q.
Proof.
  split.
  - intros H. apply Qnot_le_lt. intros L. apply Qle_bool_iff in L. congruence.
  - intros H. destruct (Qle_bool x c) eqn:E; [|reflexivity].
    apply Qle_bool_iff in E. exfalso. apply (Qlt_not_le _ _ H E).
Qed.

Lemma noise_category_of (x : Q) :
  (x <= 40 /\ _categorize_noise_level (Fin x) = "normal")%Q \/
  (40 < x /\ x <= 45 /\ _categorize_noise_level (Fin x) = "elevated")%Q \/
  (45 < x /\ x <= 50 /\ _categorize_noise_level (Fin x) = "high")%Q \/
  (50 < x /\ _categorize_noise_level (Fin x) = "critical")%Q.
Proof.
  unfold _categorize_noise_level. cbn [fle noise ENVIRONMENT normal_max alert_threshold
                                       critical_threshold].
  destruct (Qle_bool x 40) eqn:A.
  { left. split; [apply Qle_bool_iff, A | reflexivity]. }
  apply Qle_bool_false in A.
  destruct (Qle_bool x 45) eqn:B.
  { right. left. split; [exact A|]. split; [apply Qle_bool_iff, B | reflexivity]. }
  apply Qle_bool_false in B.
  destruct (Qle_bool x 50) eqn:C.
  { right. right. left. split; [exact B|]. split; [apply Qle_bool_iff, C | reflexivity]. }
  apply Qle_bool_false in C.
  right. right. right. split; [exact C | reflexivity].
Qed.

Ltac q_order :=
  unfold Qle, Qlt in *; cbn [Qnum Qden] in *; lia.

Ltac by_noise_cases x :=
  let xn := fresh "xn" in
  let xd := fresh "xd" in
  destruct x as [xn xd];
  let A := fresh "A" in
  let B := fresh "B" in
  let E := fresh "E" in
  destruct (noise_category_of (xn # xd)) as [[A E]|[[A [B E]]|[[A [B E]]|[A E]]]];
  rewrite E.

Lemma noise_normal_iff (x : Q) :
  (_categorize_noise_level (Fin x) = "normal" <-> x <= 40)%Q.
Proof.
  by_noise_cases x; split; intros S; try discriminate S; try assumption;
    try reflexivity; exfalso; q_order.
Qed.

Lemma noise_elevated_iff (x : Q) :
  (_categorize_noise_level (Fin x) = "elevated" <-> 40 < x /\ x <= 45)%Q.
Proof.
  by_noise_cases x; split; intros S; try discriminate S; try (split; assumption);
    try reflexivity; destruct S; exfalso; q_order.
Qed.

Lemma noise_high_iff (x : Q) :
  (_categorize_noise_level (Fin x) = "high" <-> 45 < x /\ x <= 50)%Q.
Proof.
  by_noise_cases x; split; intros S; try discriminate S; try (split; assumption);
    try reflexivity; destruct S; exfalso; q_order.
Qed.

Lemma noise_critical_iff (x : Q) :
  (_categorize_noise_level (Fin x) = "critical" <-> 50 < x)%Q.
Proof.
  by_noise_cases x; split; intros S; try discriminate S; try assumption;
    try reflexivity; exfalso; q_order.
Qed.

Lemma noise_rank_monotone (x y : Q) :
  (x <= y)%Q ->
  (noise_rank (_categorize_noise_level (Fin x))
   <= noise_rank (_categorize_noise_level (Fin y)))%nat.
Proof.
  intros L. by_noise_cases x; by_noise_cases y;
    match goal with
    | |- (?a <= ?b)%nat =>
        let c := eval vm_compute in (Nat.leb a b) in
        match c with
        | true => apply Nat.leb_le; vm_compute; reflexivity
        | false =>
            exfalso;
            repeat match goal with
                   | H : (?c < ?u)%Q |- _ =>
                       pose proof (Qlt_le_trans _ _ _ H L); clear H
                   end;
            clear L; q_order
        end
    end.
Qed.

(** The noise categories split the readings into four adjoining
    intervals, a boundary value belonging to the lower category, and the
    category never decreases when the reading increases.  A reading that
    is NaN falls through every test and is ['critical']. *)
Theorem noise_categories_are_ordered_intervals :
  forall x y : Q,
    (_categorize_noise_level (Fin x) = "normal" <-> x <= 40)%Q /\
    (_categorize_noise_level (Fin x) = "elevated" <-> 40 < x /\ x <= 45)%Q /\
    (_categorize_noise_level (Fin x) = "high" <-> 45 < x /\ x <= 50)%Q /\
    (_categorize_noise_level (Fin x) = "critical" <-> 50 < x)%Q /\
    ((x <= y)%Q ->
     (noise_rank (_categorize_noise_level (Fin x))
      <= noise_rank (_categorize_noise_level (Fin y)))%nat) /\
    _categorize_noise_level NaN = "critical".
Proof.
  intros x y.
  split; [apply noise_normal_iff|]. split; [apply noise_elevated_iff|].
  split; [apply noise_high_iff|]. split; [apply noise_critical_iff|].
  split; [apply noise_rank_monotone | reflexivity].
Qed.

Lemma noise_categories_are_ordered_intervals_witness :
  (noise_rank (_categorize_noise_level (Fin 40))
   <= noise_rank (_categorize_noise_level (Fin (401 # 10))))%nat /\
  _categorize_noise_level (Fin 40) = "normal" /\
  _categorize_noise_level (Fin (401 # 10)) = "elevated".
Proof.
  destruct (noise_categories_are_ordered_intervals 40 (401 # 10))
    as [N [_ [_ [_ [M _]]]]].
  destruct (noise_categories_are_ordered_intervals (401 # 10) 40)
    as [_ [E _]].
  split; [apply M; vm_compute; discriminate|].
  split; [apply N; vm_compute; discriminate|].
  apply E. split; [reflexivity | vm_compute; discriminate].
Defined.

(** The comfort score reaches 100 exactly when the average temperature
    and the average humidity are rated ['optimal'] and the average noise is
    categorised ['normal']; it is 50 exactly when none of the three is. *)
Theorem comfort_score_extremes :
  forall s : OverallStats,
    (_calculate_comfort_score s = 100%Q <->
     _rate_temperature_comfort (avg_temperature s) = "optimal" /\
     _rate_humidity_comfort (avg_humidity s) = "optimal" /\
     _categorize_noise_level (avg_noise s) = "normal") /\
    (_calculate_comfort_score s = 50%Q <->
     _rate_temperature_comfort (avg_temperature s) <> "optimal" /\
     _rate_humidity_comfort (avg_humidity s) <> "optimal" /\
     _categorize_noise_level (avg_noise s) <> "normal").
Proof.
  intros s.
  unfold _calculate_comfort_score, temp_score, humidity_score, noise_score,
    _rate_temperature_comfort, _rate_humidity_comfort, _categorize_noise_level.
  cbv zeta.
  cbn [ENVIRONMENT temperature humidity noise optimal_min optimal_max alert_min
       alert_max normal_max alert_threshold critical_threshold].
  destruct (within 68 78 (avg_temperature s));
    destruct (within 60 85 (avg_temperature s));
    destruct (within 40 60 (avg_humidity s));
    destruct (within 30 80 (avg_humidity s));
    destruct (fle (avg_noise s) (Fin 40));
    destruct (fle (avg_noise s) (Fin 45));
    destruct (fle (avg_noise s) (Fin 50));
    (split;
     (split;
      [ intros H; vm_compute in H; try discriminate H;
        repeat split; try reflexivity; discriminate
      | intros [H1 [H2 H3]]; try discriminate H1; try discriminate H2;
        try discriminate H3;
        try (exfalso; apply H1; reflexivity);
        try (exfalso; apply H2; reflexivity);
        try (exfalso; apply H3; reflexivity);
        vm_compute; reflexivity ])).
Qed.

Lemma comfort_score_extremes_witness :
  _calculate_comfort_score
    {| avg_temperature := Fin 70; avg_humidity := Fin 50; avg_noise := Fin 35;
       total_readings := 1; days_analyzed := 30 |} = 100%Q.
Proof.
  apply (comfort_score_extremes
           {| avg_temperature := Fin 70; avg_humidity := Fin 50; avg_noise := Fin 35;
              total_readings := 1; days_analyzed := 30 |}).
  repeat split.
Defined.

Lemma strength_case_of (a : Q) :
  (7 # 10 <= Qabs a /\ _interpret_correlation (Fin a) = "strong")%Q \/
  (4 # 10 <= Qabs a /\ Qabs a < 7 # 10 /\ _interpret_correlation (Fin a) = "moderate")%Q \/
  (2 # 10 <= Qabs a /\ Qabs a < 4 # 10 /\ _interpret_correlation (Fin a) = "weak")%Q \/
  (Qabs a < 2 # 10 /\ _interpret_correlation (Fin a) = "negligible")%Q.
Proof.
  unfold _interpret_correlation. cbv zeta. cbn [fabs fge fle].
  destruct (Qle_bool (7 # 10) (Qabs a)) eqn:A.
  { left. split; [apply Qle_bool_iff, A | reflexivity]. }
  apply Qle_bool_false in A.
  destruct (Qle_bool (4 # 10) (Qabs a)) eqn:B.
  { right. left. split; [apply Qle_bool_iff, B|]. split; [exact A | reflexivity]. }
  apply Qle_bool_false in B.
  destruct (Qle_bool (2 # 10) (Qabs a)) eqn:C.
  { right. right. left. split; [apply Qle_bool_iff, C|]. split; [exact B | reflexivity]. }
  apply Qle_bool_false in C.
  right. right. right. split; [exact C | reflexivity].
Qed.

Ltac by_strength_cases a :=
  let A := fresh "A" in
  let B := fresh "B" in
  let E := fresh "E" in
  destruct (strength_case_of a) as [[A E]|[[A [B E]]|[[A [B E]]|[A E]]]];
  rewrite E.

(** The strength label of a correlation depends on its magnitude only:
    a coefficient and its opposite get the same label, a coefficient of
    larger magnitude never gets a weaker one, ['strong'] means a magnitude
    of at least 0.7 and ['negligible'] one below 0.2.  A coefficient that is
    NaN (a join of a single row) is ['negligible']. *)
Theorem correlation_strength_follows_magnitude :
  forall a b : Q,
    _interpret_correlation (Fin (- a)) = _interpret_correlation (Fin a) /\
    ((Qabs a <= Qabs b)%Q ->
     (strength_rank (_interpret_correlation (Fin a))
      <= strength_rank (_interpret_correlation (Fin b)))%nat) /\
    (_interpret_correlation (Fin a) = "strong" <-> (7 # 10 <= Qabs a)%Q) /\
    (_interpret_correlation (Fin a) = "negligible" <-> (Qabs a < 2 # 10)%Q) /\
    _interpret_correlation NaN = "negligible".
Proof.
  intros a b. split; [|split; [|split; [|split]]].
  - unfold _interpret_correlation. cbv zeta. cbn [fabs fge fle].
    rewrite !(Qabs_opp a). reflexivity.
  - intros L. by_strength_cases a; by_strength_cases b;
      match goal with
      | |- (?x <= ?y)%nat =>
          let c := eval vm_compute in (Nat.leb x y) in
          match c with
          | true => apply Nat.leb_le; vm_compute; reflexivity
          | false =>
              exfalso;
              repeat match goal with
                     | H : (?c <= Qabs a)%Q |- _ =>
                         pose proof (Qle_trans _ _ _ H L); clear H
                     end;
              clear L; q_order
          end
      end.
  - by_strength_cases a; split; intros S; try discriminate S; try assumption;
      try reflexivity; exfalso; q_order.
  - by_strength_cases a; split; intros S; try discriminate S; try assumption;
      try reflexivity; exfalso; q_order.
  - reflexivity.
Qed.

Lemma correlation_strength_follows_magnitude_witness :
  (strength_rank (_interpret_correlation (Fin (- (3 # 10))))
   <= strength_rank (_interpret_correlation (Fin (8 # 10))))%nat.
Proof.
  apply (correlation_strength_follows_magnitude (- (3 # 10)) (8 # 10)).
  vm_compute. discriminate.
Defined.

Lemma above_alert_iff (x : Q) :
  Qlt_bool 45 x
  = String.eqb (_categorize_noise_level (Fin x)) "high"
    || String.eqb (_categorize_noise_level (Fin x)) "critical".
Proof.
  unfold Qlt_bool.
  by_noise_cases x;
    match goal with |- _ = ?r => let v := eval vm_compute in r in change r with v end;
    match goal with
    | |- negb ?b = true => apply negb_true_iff, Qle_bool_false; q_order
    | |- negb ?b = false => apply negb_false_iff, Qle_bool_iff; q_order
    end.
Qed.

Lemma above_critical_iff (x : Q) :
  Qlt_bool 50 x = String.eqb (_categorize_noise_level (Fin x)) "critical".
Proof.
  unfold Qlt_bool.
  by_noise_cases x;
    match goal with |- _ = ?r => let v := eval vm_compute in r in change r with v end;
    match goal with
    | |- negb ?b = true => apply negb_true_iff, Qle_bool_false; q_order
    | |- negb ?b = false => apply negb_false_iff, Qle_bool_iff; q_order
    end.
Qed.

Lemma label_count (k : string) {A : Type} (label : A -> string) (l : list A) :
  count_of k (value_counts (map label l))
  = List.length (filter (fun a => String.eqb (label a) k) l).
Proof. rewrite count_of_value_counts, filter_map_swap, length_map. reflexivity. Qed.

(** On a window with at least one reading, the entries of the noise
    analysis agree with each other.  The alerts are the readings categorised ['high'] or ['critical'] and the critical
    alerts those categorised ['critical'], so [critical_alerts <=
    total_alerts]; the distribution counts every reading of the window
    once; the hourly alert counts add up to [total_alerts];
    [alerts_per_day] times the days of the window gives back the number of
    alerts; every peak hour has a mean above the alert threshold. *)
Theorem noise_alerts_are_consistent :
  forall (self_df : list EnvironmentReading) (now : instant) (days : option Z),
    since env_timestamp (now - timedelta_days (days_or days 7)) self_df <> [] ->
    exists a,
      get_noise_level_alerts self_df now days = Metrics a /\
      total_alerts a
        = (count_of "high" (noise_distribution a)
           + count_of "critical" (noise_distribution a))%nat /\
      critical_alerts a = count_of "critical" (noise_distribution a) /\
      (critical_alerts a <= total_alerts a)%nat /\
      fold_right Nat.add 0%nat (map snd (noise_distribution a))
        = List.length
            (since env_timestamp (now - timedelta_days (days_or days 7)) self_df) /\
      fold_right Nat.add 0%nat (map snd (hourly_alerts a)) = total_alerts a /\
      (alerts_per_day a * inject_Z (days_or days 7) == count_q (total_alerts a))%Q /\
      (forall h v, In (h, v) (peak_noise_hours a) -> fgt v (Fin 45) = true).
Proof.
  intros self_df now days _. unfold get_noise_level_alerts. cbv zeta.
  change (ANALYSIS_WINDOWS short_term) with 7.
  set (recent := since env_timestamp (now - timedelta_days (days_or days 7)) self_df).
  eexists. split; [reflexivity|].
  cbn [total_alerts critical_alerts noise_distribution hourly_alerts alerts_per_day
       peak_noise_hours].
  cbn [alert_threshold critical_threshold noise ENVIRONMENT].
  assert (T : List.length (filter (fun e => Qlt_bool 45 (noise_level_db e)) recent)
              = (List.length
                   (filter (fun e => String.eqb
                                       (_categorize_noise_level (Fin (noise_level_db e)))
                                       "high") recent)
                 + List.length
                     (filter (fun e => String.eqb
                                         (_categorize_noise_level (Fin (noise_level_db e)))
                                         "critical") recent))%nat).
  { apply filter_split_length.
    - intros e _. apply above_alert_iff.
    - intros e _ H. apply String.eqb_eq in H. rewrite H. reflexivity. }
  assert (C : filter (fun e => Qlt_bool 50 (noise_level_db e)) recent
              = filter (fun e => String.eqb
                                   (_categorize_noise_level (Fin (noise_level_db e)))
                                   "critical") recent).
  { apply filter_ext. intros e. apply above_critical_iff. }
  split; [|split; [|split; [|split; [|split; [|split]]]]].
  - rewrite !label_count. exact T.
  - rewrite label_count, C. reflexivity.
  - rewrite C, T. lia.
  - rewrite sum_of_value_counts, length_map. reflexivity.
  - rewrite map_map. cbn [snd]. unfold groupby. rewrite map_map. cbn [snd].
    rewrite size_groups by apply unique_sorted_NoDup.
    f_equal. apply filter_all. intros e He.
    apply key_in_true, unique_sorted_In, in_map, He.
  - unfold truediv. rewrite Qred_correct.
    assert (D : ~ inject_Z (days_or days 7) == 0).
    { unfold Qeq. simpl. unfold days_or.
      destruct days as [d|]; [|lia]. destruct (Z.eqb_spec d 0); lia. }
    field. exact D.
  - intros h v Hin. apply sort_by_In in Hin. apply filter_In in Hin.
    destruct Hin as [_ Hv]. exact Hv.
Qed.

Lemma noise_alerts_are_consistent_witness :
  exists a,
    get_noise_level_alerts [reading 100 9 70 50 48] (at_time 101 0 0) None = Metrics a /\
    total_alerts a
      = (count_of "high" (noise_distribution a)
         + count_of "critical" (noise_distribution a))%nat.
Proof.
  destruct (noise_alerts_are_consistent [reading 100 9 70 50 48] (at_time 101 0 0) None)
    as [a [E [T _]]].
  - vm_compute. discriminate.
  - exists a. split; [exact E | exact T].
Defined.

(** On a window with at least one reading,
    [get_temperature_humidity_averages] reports finite averages, the number
    of readings of the window and the days used; each of its three comfort
    distributions counts every reading once.  With [by_section] it has one
    row per kennel section present in the window, each rated from its own
    rounded means; without it, no row. *)
Theorem temperature_humidity_report_is_consistent :
  forall (self_df : list EnvironmentReading) (now : instant) (days : option Z)
         (by_section_flag : bool),
    since env_timestamp (now - timedelta_days (days_or days 30)) self_df <> [] ->
    exists t,
      get_temperature_humidity_averages self_df now days by_section_flag = Metrics t /\
      total_readings (overall t)
        = List.length
            (since env_timestamp (now - timedelta_days (days_or days 30)) self_df) /\
      days_analyzed (overall t) = days_or days 30 /\
      is_finite (avg_temperature (overall t)) = true /\
      is_finite (avg_humidity (overall t)) = true /\
      is_finite (avg_noise (overall t)) = true /\
      fold_right Nat.add 0%nat
        (map snd (temperature_comfort_distribution (comfort_summary t)))
        = total_readings (overall t) /\
      fold_right Nat.add 0%nat
        (map snd (humidity_comfort_distribution (comfort_summary t)))
        = total_readings (overall t) /\
      fold_right Nat.add 0%nat
        (map snd (noise_level_distribution (comfort_summary t)))
        = total_readings (overall t) /\
      (by_section_flag = false -> by_section t = []) /\
      (by_section_flag = true ->
       NoDup (map section (by_section t)) /\
       forall k,
         In k (map section (by_section t)) <->
         exists e,
           In e (since env_timestamp (now - timedelta_days (days_or days 30)) self_df) /\
           kennel_section e = k) /\
      (forall row,
          In row (by_section t) ->
          is_finite (mean_temperature_f row) = true /\
          temp_comfort_rating row = _rate_temperature_comfort (mean_temperature_f row) /\
          humidity_comfort_rating row
            = _rate_humidity_comfort (mean_humidity_percent row)).
Proof.
  intros self_df now days flag Hne.
  unfold get_temperature_humidity_averages. cbv zeta.
  change (ANALYSIS_WINDOWS medium_term) with 30.
  set (recent := since env_timestamp (now - timedelta_days (days_or days 30)) self_df) in *.
  eexists. split; [reflexivity|].
  cbn [overall by_section comfort_summary total_readings days_analyzed avg_temperature
       avg_humidity avg_noise].
  unfold _get_comfort_summary.
  cbn [temperature_comfort_distribution humidity_comfort_distribution
       noise_level_distribution].
  rewrite !sum_of_value_counts, !length_map.
  split; [reflexivity|]. split; [reflexivity|].
  split; [destruct recent; [congruence | reflexivity]|].
  split; [destruct recent; [congruence | reflexivity]|].
  split; [destruct recent; [congruence | reflexivity]|].
  split; [reflexivity|]. split; [reflexivity|]. split; [reflexivity|].
  split; [intros F; rewrite F; reflexivity|]. split.
  - intros F. rewrite F.
    match goal with
    | |- NoDup ?l /\ _ =>
        assert (K : l = unique_sorted string_dec String.leb (map kennel_section recent))
    end.
    { rewrite map_map. cbn [section].
      apply (groupby_keys string_dec String.leb kennel_section recent). }
    rewrite K. split; [apply unique_sorted_NoDup|].
    intros k. rewrite unique_sorted_In, in_map_iff.
    split; intros [e [A B]]; exists e; tauto.
  - intros row Hrow. destruct flag; [|destruct Hrow].
    apply in_map_iff in Hrow. destruct Hrow as [g [E Hg]]. subst row.
    cbn [mean_temperature_f temp_comfort_rating humidity_comfort_rating
         mean_humidity_percent].
    split; [|split; reflexivity].
    pose proof (groupby_group_nonempty _ _ _ _ _ Hg) as N.
    destruct (snd g); [congruence | reflexivity].
Qed.

Lemma temperature_humidity_report_is_consistent_witness :
  exists t,
    get_temperature_humidity_averages one_reading (at_time 101 0 0) None true = Metrics t /\
    total_readings (overall t) = 1%nat /\
    NoDup (map section (by_section t)).
Proof.
  destruct (temperature_humidity_report_is_consistent
              one_reading (at_time 101 0 0) None true)
    as [t [E [R [_ [_ [_ [_ [_ [_ [_ [_ [S _]]]]]]]]]]]].
  - vm_compute. discriminate.
  - exists t. split; [exact E|]. split; [rewrite R; reflexivity | apply S; reflexivity].
Defined.

Lemma filter_key_unique {A K : Type} (K_dec : forall x y : K, {x = y} + {x <> y})
  (key : A -> K) (k : K) (l : list A) :
  NoDup (map key l) ->
  (List.length (filter (fun a => if K_dec (key a) k then true else false) l) <= 1)%nat.
Proof.
  induction l as [|a t IH]; intros ND; simpl; [lia|].
  inversion ND as [|? ? Hn NDt]; subst.
  destruct (K_dec (key a) k) as [E|N]; [|apply IH, NDt].
  simpl. assert (Z0 : filter (fun a0 => if K_dec (key a0) k then true else false) t = []).
  { destruct (filter _ t) as [|b r] eqn:F; [reflexivity|].
    assert (Hb : In b (filter (fun a0 => if K_dec (key a0) k then true else false) t))
      by (rewrite F; left; reflexivity).
    apply filter_In in Hb. destruct Hb as [Hb Hk].
    destruct (K_dec (key b) k) as [Eb|]; [|discriminate].
    exfalso. apply Hn. rewrite E, <- Eb. apply in_map, Hb. }
  rewrite Z0. simpl. lia.
Qed.

Lemma merge_inner_In (E : list EnvHourly) (A : list ActivityHourly) (m : Merged) :
  In m (merge_inner E A) <->
  exists e a,
    In e E /\ In a A /\ ah_slot a = eh_slot e /\
    m = {| m_slot := eh_slot e;
           m_temperature_f := eh_temperature_f e;
           m_humidity_percent := eh_humidity_percent e;
           m_noise_level_db := eh_noise_level_db e;
           m_total_activity_minutes := ah_total_activity_minutes a;
           m_activity_count := ah_activity_count a |}.
Proof.
  unfold merge_inner. rewrite in_flat_map. split.
  - intros [e [He Hm]]. apply in_map_iff in Hm. destruct Hm as [a [Em Ha]].
    apply filter_In in Ha. destruct Ha as [Ha Hs].
    destruct (slot_key_dec (ah_slot a) (eh_slot e)) as [S|]; [|discriminate].
    exists e, a. repeat split; try assumption. symmetry. exact Em.
  - intros [e [a [He [Ha [S Em]]]]]. exists e. split; [exact He|].
    apply in_map_iff. exists a. split; [symmetry; exact Em|].
    apply filter_In. split; [exact Ha|].
    destruct (slot_key_dec (ah_slot a) (eh_slot e)); [reflexivity | contradiction].
Qed.

Lemma merge_inner_slots_NoDup (E : list EnvHourly) (A : list ActivityHourly) :
  NoDup (map eh_slot E) -> NoDup (map ah_slot A) ->
  NoDup (map m_slot (merge_inner E A)).
Proof.
  intros NE NA. induction E as [|e E' IH]; [constructor|].
  inversion NE as [|? ? Hn NE']; subst.
  change (merge_inner (e :: E') A)
    with (map (fun a => {| m_slot := eh_slot e;
                           m_temperature_f := eh_temperature_f e;
                           m_humidity_percent := eh_humidity_percent e;
                           m_noise_level_db := eh_noise_level_db e;
                           m_total_activity_minutes := ah_total_activity_minutes a;
                           m_activity_count := ah_activity_count a |})
               (filter (fun a => if slot_key_dec (ah_slot a) (eh_slot e)
                                 then true else false) A)
          ++ merge_inner E' A).
  rewrite map_app, map_map. cbn [m_slot].
  pose proof (filter_key_unique slot_key_dec ah_slot (eh_slot e) A NA) as L.
  destruct (filter _ A) as [|a [|b r]]; simpl in L; try lia; simpl.
  - apply IH, NE'.
  - constructor; [|apply IH, NE'].
    intros Hin. apply in_map_iff in Hin. destruct Hin as [m [Em Hm]].
    apply merge_inner_In in Hm. destruct Hm as [e' [a' [He' [_ [_ Eq]]]]].
    subst m. cbn [m_slot] in Em. apply Hn. rewrite <- Em. apply in_map, He'.
Qed.

Lemma idxmax_In (l : list (string * pyfloat)) (x : string * pyfloat) :
  idxmax l = Some x -> In x l.
Proof.
  revert x. induction l as [|y t IH]; intros x H; simpl in H; [discriminate|].
  destruct (idxmax t) as [z|].
  - destruct (fgt (snd z) (snd y)); inversion H; subst.
    + right. apply IH. reflexivity.
    + left. reflexivity.
  - inversion H. left. reflexivity.
Qed.

Lemma idxmax_nonempty (l : list (string * pyfloat)) :
  l <> [] -> exists x, idxmax l = Some x.
Proof.
  destruct l as [|y t]; [congruence|]. intros _. simpl.
  destruct (idxmax t) as [z|]; [|eexists; reflexivity].
  destruct (fgt (snd z) (snd y)); eexists; reflexivity.
Qed.

Lemma interpret_labels (x : pyfloat) :
  In (_interpret_correlation x) ["strong"; "moderate"; "weak"; "negligible"].
Proof.
  unfold _interpret_correlation. cbv zeta.
  destruct (fge (fabs x) _); [left; reflexivity|].
  destruct (fge (fabs x) _); [right; left; reflexivity|].
  destruct (fge (fabs x) _); [right; right; left; reflexivity|].
  right. right. right. left. reflexivity.
Qed.

(** The hourly join of [get_temperature_activity_correlation] has one row
    per (date, hour) slot that holds both an environment reading and an
    activity of the window, and no other row.  When the method returns
    results, [data_points] is the number of these rows (at least one), the
    reported optimal temperature range is the range of one of them (never
    ['unknown']) and the strength is one of the four labels, whatever
    the coefficient is. *)
Theorem hourly_join_is_exact :
  forall (corr : list pyfloat -> list pyfloat -> pyfloat)
         (env : list EnvironmentReading) (acts : list ActivityRecord)
         (now : instant) (days : option Z),
    NoDup (map m_slot (merged_df_of env acts now days)) /\
    (forall slot,
        In slot (map m_slot (merged_df_of env acts now days)) <->
        exists e a,
          In e (since env_timestamp (now - timedelta_days (days_or days 30)) env) /\
          In a (since timestamp (now - timedelta_days (days_or days 30)) acts) /\
          slot_of e = slot /\ (date a, hour a) = slot) /\
    (forall r,
        get_temperature_activity_correlation corr env acts now days = Metrics r ->
        data_points r = List.length (merged_df_of env acts now days) /\
        (1 <= data_points r)%nat /\
        In (optimal_temperature_range r)
           (map temp_range (merged_df_of env acts now days)) /\
        In (correlation_strength r) ["strong"; "moderate"; "weak"; "negligible"]).
Proof.
  intros corr env acts now days.
  unfold get_temperature_activity_correlation, merged_df_of. cbv zeta.
  change (ANALYSIS_WINDOWS medium_term) with 30.
  set (recentE := since env_timestamp (now - timedelta_days (days_or days 30)) env).
  set (recentA := since timestamp (now - timedelta_days (days_or days 30)) acts).
  assert (KE : map eh_slot (env_hourly_of recentE)
               = unique_sorted slot_key_dec slot_key_leb (map slot_of recentE)).
  { unfold env_hourly_of. rewrite map_map. cbn [eh_slot].
    apply (groupby_keys slot_key_dec slot_key_leb slot_of recentE). }
  assert (KA : map ah_slot (activity_hourly_of recentA)
               = unique_sorted slot_key_dec slot_key_leb
                   (map (fun a => (date a, hour a)) recentA)).
  { unfold activity_hourly_of. rewrite map_map. cbn [ah_slot].
    apply (groupby_keys slot_key_dec slot_key_leb (fun a => (date a, hour a)) recentA). }
  set (merged := merge_inner (env_hourly_of recentE) (activity_hourly_of recentA)).
  split; [|split].
  - apply merge_inner_slots_NoDup; [rewrite KE | rewrite KA]; apply unique_sorted_NoDup.
  - intros slot. rewrite in_map_iff. split.
    + intros [m [Em Hm]]. apply merge_inner_In in Hm.
      destruct Hm as [e [a [He [Ha [S Eq]]]]]. subst m. cbn [m_slot] in Em.
      apply (in_map eh_slot) in He. rewrite KE in He.
      apply (proj1 (unique_sorted_In _ _ _ _)) in He.
      apply (in_map ah_slot) in Ha. rewrite KA in Ha.
      apply (proj1 (unique_sorted_In _ _ _ _)) in Ha.
      apply in_map_iff in He. destruct He as [e0 [E0 He0]].
      apply in_map_iff in Ha. destruct Ha as [a0 [A0 Ha0]].
      exists e0, a0. repeat split; try assumption; congruence.
    + intros [e0 [a0 [He0 [Ha0 [S1 S2]]]]].
      assert (He : In slot (map eh_slot (env_hourly_of recentE))).
      { rewrite KE. apply unique_sorted_In. rewrite <- S1. apply in_map, He0. }
      assert (Ha : In slot (map ah_slot (activity_hourly_of recentA))).
      { rewrite KA. apply unique_sorted_In. rewrite <- S2.
        apply (in_map (fun a => (date a, hour a))), Ha0. }
      apply in_map_iff in He. destruct He as [e [Ee He]].
      apply in_map_iff in Ha. destruct Ha as [a [Ea Ha]].
      eexists. split; [|apply merge_inner_In; exists e, a;
                        split; [exact He|]; split; [exact Ha|];
                        split; [congruence | reflexivity]].
      exact Ee.
  - intros r Hr. destruct merged as [|m rest] eqn:Em; [discriminate Hr|].
    cbn [is_empty] in Hr. inversion Hr; subst r; clear Hr.
    cbn [data_points optimal_temperature_range correlation_strength].
    split; [reflexivity|]. split; [simpl; lia|]. split; [|apply interpret_labels].
    unfold _find_optimal_temperature_range. cbv zeta.
    set (table := map (fun g : string * list Merged =>
                         (fst g, mean (map m_total_activity_minutes (snd g))))
                      (groupby string_dec String.leb temp_range (m :: rest))).
    destruct (idxmax_nonempty table) as [best Hbest].
    { unfold table. intros N. apply map_eq_nil in N.
      revert N. apply OperationsFacts.groupby_of_nonempty. discriminate. }
    rewrite Hbest. apply idxmax_In in Hbest.
    apply (in_map fst) in Hbest. unfold table in Hbest.
    rewrite map_map in Hbest. cbn [fst] in Hbest.
    change (In (fst best)
               (map fst (groupby string_dec String.leb temp_range (m :: rest)))) in Hbest.
    rewrite groupby_keys in Hbest.
    apply (proj1 (unique_sorted_In _ _ _ _)) in Hbest. exact Hbest.
Qed.

Lemma hourly_join_is_exact_witness :
  In (100, 9) (map m_slot (merged_df_of one_reading one_activity (at_time 101 0 0) None)).
Proof.
  destruct (hourly_join_is_exact (fun _ _ => NaN) one_reading one_activity
                                 (at_time 101 0 0) None) as [_ [H _]].
  apply (proj2 (H (100, 9))).
  exists (reading 100 9 70 50 35), (activity "Rex" "play" 100 9 30).
  repeat split; left; reflexivity.
Defined.

End EnvironmentExtras.

(** ** Operations: grooming, staff, alerts, scores and recommendations *)

Module OperationsExtras.

Import OperationsAnalyzer Recommendations Scenarios.
Import TableFacts ExtraFacts RoundFacts CountFacts.

(** The groups of a table hold each row once. *)
Lemma group_lengths_sum {A K : Type} (K_dec : forall x y : K, {x = y} + {x <> y})
  (leb : K -> K -> bool) (key : A -> K) (l : list A) :
  fold_right Nat.add 0%nat
    (map (fun g : K * list A => List.length (snd g)) (groupby K_dec leb key l))
  = List.length l.
Proof.
  unfold groupby. rewrite map_map. cbn [snd].
  rewrite size_groups by apply unique_sorted_NoDup.
  f_equal. apply filter_all. intros a Ha.
  apply key_in_true, unique_sorted_In, in_map, Ha.
Qed.

Lemma group_sizes_sum {K : Type} (K_dec : forall x y : K, {x = y} + {x <> y})
  (leb : K -> K -> bool) (key : ActivityRecord -> K) (l : list ActivityRecord) :
  fold_right Nat.add 0%nat (map snd (group_sizes K_dec leb key l)) = List.length l.
Proof.
  unfold group_sizes. rewrite map_map. cbn [snd]. apply group_lengths_sum.
Qed.

Lemma group_sizes_In {K : Type} (K_dec : forall x y : K, {x = y} + {x <> y})
  (leb : K -> K -> bool) (key : ActivityRecord -> K) (l : list ActivityRecord)
  (k : K) (n : nat) :
  In (k, n) (group_sizes K_dec leb key l) ->
  (1 <= n)%nat /\ exists a, In a l /\ key a = k.
Proof.
  unfold group_sizes. intros H. apply in_map_iff in H. destruct H as [g [E Hg]].
  inversion E; subst k n; clear E.
  pose proof (groupby_group_nonempty _ _ _ _ _ Hg) as N.
  destruct (snd g) as [|a r] eqn:S; [congruence|]. split; [simpl; lia|].
  exists a. apply (groupby_group_incl _ _ _ g l a Hg). rewrite S. left. reflexivity.
Qed.

Lemma nodup_length_le {A : Type} (dec : forall x y : A, {x = y} + {x <> y}) (l : list A) :
  (List.length (nodup dec l) <= List.length l)%nat.
Proof.
  apply NoDup_incl_length; [apply NoDup_nodup|].
  intros x Hx. apply nodup_In in Hx. exact Hx.
Qed.

Lemma nodup_length_pos {A : Type} (dec : forall x y : A, {x = y} + {x <> y}) (l : list A) :
  l <> [] -> (1 <= List.length (nodup dec l))%nat.
Proof.
  destruct l as [|a t]; [congruence|]. intros _.
  assert (H : In a (nodup dec (a :: t))) by (apply nodup_In; left; reflexivity).
  destruct (nodup dec (a :: t)); [destruct H | simpl; lia].
Qed.

Lemma fold_min_In (d : Z) (l : list Z) : In (fold_right Z.min d l) (d :: l).
Proof.
  induction l as [|x t IH]; simpl.
  - left. reflexivity.
  - destruct (Z.min_spec x (fold_right Z.min d t)) as [[_ E]|[_ E]]; rewrite E.
    + right. left. reflexivity.
    + destruct IH as [IH|IH]; [left; exact IH | right; right; exact IH].
Qed.

Lemma earliest_In (l : list Z) : l <> [] -> In (fold_right Z.min (hd 0 l) l) l.
Proof.
  destruct l as [|x t]; [congruence|]. intros _.
  destruct (fold_min_In x (x :: t)) as [E|H]; [|exact H].
  simpl hd. rewrite <- E. left. reflexivity.
Qed.

Lemma grooming_rows (self : t) (now : instant) (days : option Z) (a : ActivityRecord) :
  In a (grooming_df_of self now days) ->
  In a (activities_df self) /\ activity_type a = "grooming" /\
  now - timedelta_days (days_or days 30) <= timestamp a.
Proof.
  unfold grooming_df_of. cbv zeta. change (ANALYSIS_WINDOWS medium_term) with 30.
  intros H. apply filter_In in H. destruct H as [Ha H].
  apply andb_true_iff in H. destruct H as [T C].
  split; [exact Ha|]. split; [apply String.eqb_eq, T | apply Z.leb_le, C].
Qed.

(** A row of the per-pet grooming table, for sessions not older than
    [cutoff]. *)
Lemma pet_grooming_row (now cutoff : instant) (grooming_df : list ActivityRecord)
  (row : PetGrooming) :
  (forall a, In a grooming_df -> cutoff <= timestamp a) ->
  In row (pet_grooming_of now grooming_df) ->
  (1 <= pg_total_grooming_sessions row)%nat /\
  cutoff <= first_groom row /\
  first_groom row <= latest_groom row /\
  days_since_last_groom row = delta_days (now - latest_groom row) /\
  (0 <= grooming_frequency_days row)%Q /\
  (pg_total_grooming_sessions row = 1%nat -> grooming_frequency_days row = 0%Q) /\
  exists a, In a grooming_df /\ pet_of a = pg_pet row /\ timestamp a = latest_groom row.
Proof.
  intros W H. unfold pet_grooming_of in H. apply in_map_iff in H.
  destruct H as [g [E Hg]]. subst row.
  cbn [pg_total_grooming_sessions first_groom latest_groom days_since_last_groom
       grooming_frequency_days pg_pet].
  pose proof (groupby_group_nonempty _ _ _ _ _ Hg) as N.
  set (ts := map timestamp (snd g)).
  assert (Nts : ts <> []).
  { unfold ts. intros Z0. apply map_eq_nil in Z0. contradiction. }
  assert (Hord : fold_right Z.min (hd 0 ts) ts <= fold_right Z.max (hd 0 ts) ts).
  { pose proof (WellnessExtras.fold_Zmin_le_default (hd 0 ts) ts).
    pose proof (WellnessExtras.fold_Zmax_ge_default (hd 0 ts) ts). lia. }
  split; [destruct (snd g); [congruence | simpl; lia]|].
  split.
  { pose proof (earliest_In ts Nts) as M. unfold ts in M at 3.
    apply in_map_iff in M. destruct M as [a [Ea Ha]]. rewrite <- Ea.
    apply W. apply (groupby_group_incl _ _ _ g grooming_df a Hg Ha). }
  split; [exact Hord|]. split; [reflexivity|]. split; [|split].
  - destruct (1 <? List.length (snd g))%nat; [|apply Qle_refl].
    unfold truediv. rewrite Qred_correct. apply Qle_shift_div_l.
    + change 0%Q with (inject_Z 0). rewrite <- Zlt_Qlt. lia.
    + rewrite Qmult_0_l. change 0%Q with (inject_Z 0). rewrite <- Zle_Qle.
      unfold delta_days, seconds_per_day. apply Z.div_pos; lia.
  - intros One. rewrite One. reflexivity.
  - pose proof (ContractFacts.latest_In ts Nts) as M. unfold ts in M at 3.
    apply in_map_iff in M. destruct M as [a [Ea Ha]]. exists a.
    destruct (groupby_group_incl _ _ _ g grooming_df a Hg Ha) as [I K].
    split; [exact I|]. split; [exact K | exact Ea].
Qed.

Lemma days_since_bound (now latest days : Z) :
  now - timedelta_days days <= latest -> delta_days (now - latest) <= days.
Proof.
  unfold timedelta_days, delta_days, seconds_per_day. intros H.
  apply Z.div_le_upper_bound; lia.
Qed.

Lemma compliance_bounds (overdue groomed : nat) :
  (overdue <= groomed)%nat -> (0 < groomed)%nat ->
  let c := Qred ((1 - truediv (count_q overdue) (count_q groomed)) * 100) in
  (0 <= c)%Q /\ (c <= 100)%Q /\ (c == 100 <-> overdue = 0%nat)%Q.
Proof.
  intros Hle Hpos c. unfold c, truediv. rewrite !Qred_correct.
  destruct (share_bounds overdue groomed Hle Hpos) as [L U].
  pose proof (count_q_pos groomed Hpos) as P.
  assert (Z0 : (count_q overdue / count_q groomed == 0 <-> overdue = 0%nat)%Q).
  { split.
    - intros E. assert (E' : (count_q overdue == 0)%Q).
      { rewrite <- (Qmult_div_r (count_q overdue) (count_q groomed)) by lra.
        unfold Qdiv in *. rewrite E. lra. }
      unfold count_q, Qeq in E'. simpl in E'. lia.
    - intros ->. unfold Qdiv. change (count_q 0) with 0%Q. lra. }
  set (x := (count_q overdue / count_q groomed)%Q) in *.
  split; [lra|]. split; [lra|]. rewrite <- Z0. split; intros; lra.
Qed.

(** When [get_grooming_cleaning_frequency] returns metrics: at least one
    pet was groomed and no more pets than sessions; the overdue pets are
    among those needing grooming, which are among the groomed ones; the
    compliance is a percentage, and is 100 exactly when no pet is overdue;
    the per-pet and the per-day session counts both add up to the total;
    every per-pet row has at least one session, starts inside the window
    and cannot be more than [days] days old.  Hence a window of at most
    7 days reports no pet as needing grooming, and one of at most 10 days
    none as overdue: a pet with no session in the window is not a row at
    all. *)
Theorem grooming_report_invariants :
  forall (self : t) (now : instant) (days : option Z) (g : GroomingAnalysis),
    get_grooming_cleaning_frequency self now days = Metrics g ->
    (1 <= pets_groomed g)%nat /\
    (pets_groomed g <= total_grooming_sessions g)%nat /\
    (pets_overdue_grooming g <= pets_needing_grooming g)%nat /\
    (pets_needing_grooming g <= pets_groomed g)%nat /\
    (0 <= grooming_schedule_compliance g)%Q /\
    (grooming_schedule_compliance g <= 100)%Q /\
    (grooming_schedule_compliance g == 100 <-> pets_overdue_grooming g = 0%nat)%Q /\
    List.length (pets_needing_attention g) = pets_overdue_grooming g /\
    fold_right Nat.add 0%nat
      (map pg_total_grooming_sessions (grooming_detailed_per_pet g))
      = total_grooming_sessions g /\
    fold_right Nat.add 0%nat (map grooming_sessions (daily_patterns g))
      = total_grooming_sessions g /\
    (forall row,
        In row (grooming_detailed_per_pet g) ->
        (1 <= pg_total_grooming_sessions row)%nat /\
        now - timedelta_days (days_or days 30) <= first_groom row /\
        first_groom row <= latest_groom row /\
        days_since_last_groom row <= days_or days 30 /\
        (0 <= grooming_frequency_days row)%Q) /\
    (forall d,
        In d (daily_patterns g) ->
        (1 <= staff_involved d)%nat /\ (staff_involved d <= grooming_sessions d)%nat) /\
    (days_or days 30 <= 7 -> pets_needing_grooming g = 0%nat) /\
    (days_or days 30 <= 10 -> pets_overdue_grooming g = 0%nat).
Proof.
  intros self now days g H.
  unfold get_grooming_cleaning_frequency in H. cbv zeta in H.
  destruct (is_empty (grooming_df_of self now days)) eqn:E; [discriminate|].
  apply is_empty_false in E.
  apply (f_equal (fun r => match r with Metrics a => a | Error _ => g end)) in H.
  cbv beta iota in H. subst g.
  cbn [pets_groomed total_grooming_sessions pets_overdue_grooming pets_needing_grooming
       grooming_schedule_compliance pets_needing_attention grooming_detailed_per_pet
       daily_patterns].
  change (target_days_between (grooming_frequency OPERATIONS)) with 7.
  change (alert_days_overdue (grooming_frequency OPERATIONS)) with 10.
  set (gdf := grooming_df_of self now days) in *.
  set (table := pet_grooming_of now gdf).
  assert (W : forall a, In a gdf -> now - timedelta_days (days_or days 30) <= timestamp a).
  { intros a Ha. apply (grooming_rows self now days a Ha). }
  assert (R : forall row, In row table ->
                days_since_last_groom row <= days_or days 30).
  { intros row Hrow.
    destruct (pet_grooming_row now _ gdf row W Hrow) as [_ [F [O [D _]]]].
    rewrite D. apply days_since_bound. lia. }
  assert (Len : List.length table = List.length (nodup pet_key_dec (map pet_of gdf))).
  { unfold table, pet_grooming_of. rewrite length_map. apply groupby_length. }
  assert (Pos : (1 <= List.length table)%nat).
  { rewrite Len. apply nodup_length_pos. intros Z0. apply map_eq_nil in Z0.
    contradiction. }
  assert (OvNeed : (List.length (filter (fun p => (10 <? days_since_last_groom p)%Z) table)
                    <= List.length
                         (filter (fun p => (7 <? days_since_last_groom p)%Z) table))%nat).
  { apply filter_length_mono. intros p _ Hp.
    apply Z.ltb_lt in Hp. apply Z.ltb_lt. lia. }
  pose proof (filter_length_bound (fun p => 7 <? days_since_last_groom p) table) as NeedLe.
  split; [exact Pos|].
  split; [rewrite Len; rewrite <- (length_map pet_of gdf); apply nodup_length_le|].
  split; [exact OvNeed|]. split; [exact NeedLe|].
  destruct (Nat.ltb_spec 0 (List.length table)) as [_|Bad]; [|lia].
  destruct (compliance_bounds
              (List.length (filter (fun p => 10 <? days_since_last_groom p) table))
              (List.length table)) as [C1 [C2 C3]]; [lia | lia |].
  split; [exact C1|]. split; [exact C2|]. split; [exact C3|].
  split; [apply length_map|].
  split.
  { unfold table, pet_grooming_of. rewrite map_map.
    cbn [pg_total_grooming_sessions]. apply group_lengths_sum. }
  split.
  { rewrite map_map. cbn [grooming_sessions]. apply group_lengths_sum. }
  split.
  { intros row Hrow.
    destruct (pet_grooming_row now _ gdf row W Hrow) as [S1 [F [O [D [Q0 _]]]]].
    split; [exact S1|]. split; [exact F|]. split; [exact O|].
    split; [apply R, Hrow | exact Q0]. }
  split.
  { intros d Hd. apply in_map_iff in Hd. destruct Hd as [grp [Ed Hg]]. subst d.
    cbn [staff_involved grooming_sessions].
    pose proof (groupby_group_nonempty _ _ _ _ _ Hg) as N.
    split.
    - apply nodup_length_pos. intros Z0. apply map_eq_nil in Z0. contradiction.
    - rewrite <- (length_map staff_id (snd grp)). apply nodup_length_le. }
  split.
  - intros Short. apply length_zero_iff_nil.
    destruct (filter (fun p => 7 <? days_since_last_groom p) table) as [|p r] eqn:F;
      [reflexivity|].
    assert (Hp : In p (filter (fun p => 7 <? days_since_last_groom p) table))
      by (rewrite F; left; reflexivity).
    apply filter_In in Hp. destruct Hp as [Hp Late].
    apply Z.ltb_lt in Late. pose proof (R p Hp). lia.
  - intros Short. apply length_zero_iff_nil.
    destruct (filter (fun p => 10 <? days_since_last_groom p) table) as [|p r] eqn:F;
      [reflexivity|].
    assert (Hp : In p (filter (fun p => 10 <? days_since_last_groom p) table))
      by (rewrite F; left; reflexivity).
    apply filter_In in Hp. destruct Hp as [Hp Late].
    apply Z.ltb_lt in Late. pose proof (R p Hp). lia.
Qed.

Lemma grooming_report_invariants_witness :
  exists g,
    get_grooming_cleaning_frequency (init [] day100_activities) (at_time 101 0 0) (Some 7)
      = Metrics g /\
    pets_needing_grooming g = 0%nat /\
    (grooming_schedule_compliance g == 100)%Q.
Proof.
  destruct (get_grooming_cleaning_frequency (init [] day100_activities) (at_time 101 0 0)
              (Some 7)) as [msg|g] eqn:E; [vm_compute in E; discriminate|].
  exists g. split; [reflexivity|].
  pose proof (grooming_report_invariants _ _ _ g E) as H.
  split.
  - apply H. vm_compute. discriminate.
  - apply H. apply H. vm_compute. discriminate.
Defined.


Lemma rating_labels (x : pyfloat) :
  _rate_staff_performance x = "excellent" \/
  _rate_staff_performance x = "satisfactory" \/
  _rate_staff_performance x = "below_target".
Proof.
  unfold _rate_staff_performance. cbv zeta.
  destruct (fge x _); [left; reflexivity|].
  destruct (fge x _); [right; left; reflexivity | right; right; reflexivity].
Qed.

Lemma staff_row_rating (recent_staff : list StaffLog) (p : StaffPerformance) :
  In p (staff_performance_of recent_staff) ->
  performance_rating p = _rate_staff_performance (avg_tasks_per_hour p) /\
  (1 <= total_shifts p)%nat /\
  exists s, In s recent_staff /\ (log_staff_id s, staff_name s) = sp_staff p.
Proof.
  unfold staff_performance_of. intros H. apply in_map_iff in H.
  destruct H as [g [E Hg]]. subst p.
  cbn [performance_rating avg_tasks_per_hour total_shifts sp_staff].
  split; [reflexivity|].
  pose proof (groupby_group_nonempty _ _ _ _ _ Hg) as N.
  destruct (snd g) as [|s r] eqn:S; [congruence|]. split; [simpl; lia|].
  exists s. apply (groupby_group_incl _ _ _ g recent_staff s Hg).
  rewrite S. left. reflexivity.
Qed.

Lemma three_ratings (table : list StaffPerformance) :
  (forall p, In p table ->
     performance_rating p = "excellent" \/
     performance_rating p = "satisfactory" \/
     performance_rating p = "below_target") ->
  (List.length (filter (fun s => String.eqb (performance_rating s) "excellent") table)
   + List.length (filter (fun s => String.eqb (performance_rating s) "satisfactory") table)
   + List.length (filter (fun s => String.eqb (performance_rating s) "below_target") table)
   = List.length table)%nat.
Proof.
  induction table as [|p t IH]; intros H; [reflexivity|].
  assert (IH' := IH (fun q Hq => H q (or_intror Hq))).
  cbn [filter]. destruct (H p (or_introl eq_refl)) as [E|[E|E]]; rewrite E;
    cbn [String.eqb Ascii.eqb Bool.eqb andb]; simpl List.length; lia.
Qed.

(** When [get_staff_performance_analysis] returns metrics: the staff rows
    are the distinct (id, name) pairs of the window, at least one and no
    more than the shifts; every staff member has exactly one of the three
    ratings, so the three counts of [performance_distribution] add up to
    [total_staff_analyzed]; [staff_needing_support] is the 'below_target'
    part of the distribution; [top_performers] holds five rows, or all of
    them when there are fewer, each a row of the staff table. *)
Theorem staff_report_invariants :
  forall (self : t) (now : instant) (days : option Z) (s : StaffAnalysis),
    get_staff_performance_analysis self now days = Metrics s ->
    let table := staff_performance_of (recent_staff_of self now days) in
    (1 <= total_staff_analyzed s)%nat /\
    (total_staff_analyzed s <= List.length (recent_staff_of self now days))%nat /\
    total_staff_analyzed s = List.length table /\
    NoDup (map sp_staff table) /\
    fold_right Nat.add 0%nat (map total_shifts table)
      = List.length (recent_staff_of self now days) /\
    fold_right Nat.add 0%nat (map snd (performance_distribution s))
      = total_staff_analyzed s /\
    (count_of "excellent" (performance_distribution s)
     + count_of "satisfactory" (performance_distribution s)
     + count_of "below_target" (performance_distribution s)
     = total_staff_analyzed s)%nat /\
    List.length (staff_needing_support s)
      = count_of "below_target" (performance_distribution s) /\
    (forall p,
        In p (staff_needing_support s) <->
        In p table /\
        fge (avg_tasks_per_hour p) (Fin (8 # 10)) = false) /\
    List.length (top_performers s) = Nat.min 5 (total_staff_analyzed s) /\
    (forall p, In p (top_performers s) -> In p table).
Proof.
  intros self now days s H table.
  unfold get_staff_performance_analysis in H. cbv zeta in H.
  destruct (is_empty (recent_staff_of self now days)) eqn:E; [discriminate|].
  apply is_empty_false in E. injection H as <-.
  cbn [total_staff_analyzed performance_distribution staff_needing_support
       top_performers].
  fold table.
  assert (Len : List.length table
                = List.length
                    (nodup pet_key_dec
                       (map (fun s => (log_staff_id s, staff_name s))
                            (recent_staff_of self now days)))).
  { unfold table, staff_performance_of. rewrite length_map. apply groupby_length. }
  split; [rewrite Len; apply nodup_length_pos; intros Z0; apply map_eq_nil in Z0;
          contradiction|].
  split.
  { rewrite Len.
    rewrite <- (length_map (fun s => (log_staff_id s, staff_name s))
                           (recent_staff_of self now days)).
    apply nodup_length_le. }
  split; [reflexivity|].
  split.
  { unfold table, staff_performance_of. rewrite map_map. cbn [sp_staff].
    apply (groupby_keys_NoDup pet_key_dec pet_key_leb
             (fun s => (log_staff_id s, staff_name s))). }
  split.
  { unfold table, staff_performance_of. rewrite map_map. cbn [total_shifts].
    apply group_lengths_sum. }
  split; [rewrite sum_of_value_counts; apply length_map|].
  split.
  { rewrite !OperationsFacts.rated_count. apply three_ratings.
    intros p Hp. destruct (staff_row_rating _ p Hp) as [R _]. rewrite R.
    apply rating_labels. }
  split; [rewrite OperationsFacts.rated_count; reflexivity|].
  split.
  { intros p. rewrite filter_In. split.
    - intros [Hp B]. split; [exact Hp|].
      destruct (staff_row_rating _ p Hp) as [R _]. rewrite R in B.
      unfold _rate_staff_performance in B. cbv zeta in B.
      change (min_tasks_per_hour (staff_performance OPERATIONS)) with (8 # 10) in B.
      destruct (fge (avg_tasks_per_hour p) (Fin (target_tasks_per_hour _)));
        [discriminate B|].
      destruct (fge (avg_tasks_per_hour p) (Fin (8 # 10))); [discriminate B | reflexivity].
    - intros [Hp B]. split; [exact Hp|].
      destruct (staff_row_rating _ p Hp) as [R _]. rewrite R.
      unfold _rate_staff_performance. cbv zeta.
      change (min_tasks_per_hour (staff_performance OPERATIONS)) with (8 # 10).
      rewrite B.
      destruct (fge (avg_tasks_per_hour p) (Fin (target_tasks_per_hour _))) eqn:T;
        [|reflexivity].
      exfalso.
      assert (C : fge (avg_tasks_per_hour p) (Fin (8 # 10)) = true).
      { apply (PyNumFacts.fge_trans _ (Fin (target_tasks_per_hour
                                              (staff_performance OPERATIONS))));
          [exact T | reflexivity]. }
      congruence. }
  set (sorted := sort_by (fun x y => PetWellnessAnalyzer.desc_leb
                                      (avg_tasks_per_hour x) (avg_tasks_per_hour y))
                         table).
  match goal with
  | |- List.length ?x = _ /\ _ => change x with (firstn 5 sorted)
  end.
  split; [unfold sorted; rewrite length_firstn, sort_by_length; reflexivity|].
  intros p Hp. apply WellnessExtras.firstn_In in Hp. apply sort_by_In in Hp. exact Hp.
Qed.

Lemma staff_report_invariants_witness :
  exists s,
    get_staff_performance_analysis
      (init (DataTransformer.transform_staff_logs [day_shift 100]) [])
      (at_time 101 0 0) None = Metrics s /\
    total_staff_analyzed s = 1%nat /\
    staff_needing_support s = [].
Proof.
  destruct (get_staff_performance_analysis
              (init (DataTransformer.transform_staff_logs [day_shift 100]) [])
              (at_time 101 0 0) None) as [msg|s] eqn:E; [vm_compute in E; discriminate|].
  exists s. split; [reflexivity|].
  pose proof (staff_report_invariants _ _ _ s E) as H. cbv zeta in H.
  destruct H as [_ [_ [T [_ [_ [_ [_ [N _]]]]]]]].
  split.
  - rewrite T. vm_compute. reflexivity.
  - apply length_zero_iff_nil. rewrite N.
    vm_compute in E. injection E as <-. reflexivity.
Defined.


Lemma fgt_irrefl (x : pyfloat) : fgt x x = false.
Proof. unfold fgt, flt. destruct (fle x x); reflexivity. Qed.

Lemma trend_labels (daily : list (Z * nat)) :
  trend_of daily = "increasing" \/ trend_of daily = "stable".
Proof.
  unfold trend_of. cbv zeta. destruct (fgt _ _); [left | right]; reflexivity.
Qed.

(** With at most three dates the first three and the last three daily
    counts are the same rows. *)
Lemma short_trend_is_stable (daily : list (Z * nat)) :
  (List.length daily <= 3)%nat -> trend_of daily = "stable".
Proof.
  intros H. unfold trend_of. cbv zeta.
  set (counts := map (fun x : Z * nat => count_q (snd x)) daily).
  assert (L : (List.length counts <= 3)%nat) by (unfold counts; rewrite length_map; exact H).
  replace (List.length counts - 3)%nat with 0%nat by lia.
  rewrite firstn_all2 by exact L. cbn [skipn].
  rewrite fgt_irrefl. reflexivity.
Qed.

Lemma window_days_nonzero (days : option Z) (default : Z) :
  default <> 0 -> ~ (inject_Z (days_or days default) == 0)%Q.
Proof.
  intros D. unfold Qeq. simpl. unfold days_or.
  destruct days as [d|]; [|lia]. destruct (Z.eqb_spec d 0); lia.
Qed.

Lemma not_normal_hour (a : ActivityRecord) :
  negb (existsb (Z.eqb (hour a)) normal_feeding_hours) = true <->
  ~ In (hour a) normal_feeding_hours.
Proof.
  rewrite negb_true_iff. split.
  - intros F Hin.
    assert (T : existsb (Z.eqb (hour a)) normal_feeding_hours = true).
    { apply existsb_exists. exists (hour a). split; [exact Hin | apply Z.eqb_refl]. }
    congruence.
  - intros N. destruct (existsb (Z.eqb (hour a)) normal_feeding_hours) eqn:T;
      [|reflexivity].
    exfalso. apply N. apply existsb_exists in T. destruct T as [h [Hin Eh]].
    apply Z.eqb_eq in Eh. rewrite Eh. exact Hin.
Qed.

(** On a table with the expected columns [get_alert_trends_analysis]
    never returns an error mapping, whatever the window holds.  The daily counts and the per-staff counts add up to
    the totals; a rate times the days of the window is the total; no
    feeding delay is reported at one of the six expected feeding hours;
    the peak lists have at most three entries; a pet is listed for health
    alerts from three alerts on and for feeding issues from two on; alerts
    and delays together are no more than the activities of the window;
    and a trend is 'increasing' or 'stable', and always 'stable' when
    no more than three dates have an entry. *)
Theorem alert_report_invariants :
  forall (self : t) (now : instant) (days : option Z),
    exists a,
      get_alert_trends_analysis self now days = Metrics a /\
      fold_right Nat.add 0%nat (map snd (daily_health_trend a)) = total_health_alerts a /\
      fold_right Nat.add 0%nat (map snd (daily_feeding_trend a)) = total_feeding_delays a /\
      fold_right Nat.add 0%nat (map snd (staff_alert_response a)) = total_health_alerts a /\
      (avg_health_alerts_per_day a * inject_Z (days_or days 30)
       == count_q (total_health_alerts a))%Q /\
      (avg_feeding_delays_per_day a * inject_Z (days_or days 30)
       == count_q (total_feeding_delays a))%Q /\
      (forall h n,
          In (h, n) (peak_feeding_issue_hours a) ->
          ~ In h [7; 8; 12; 13; 17; 18] /\ (1 <= n)%nat) /\
      (List.length (peak_health_alert_hours a) <= 3)%nat /\
      (List.length (peak_feeding_issue_hours a) <= 3)%nat /\
      (forall p n, In (p, n) (pets_with_frequent_health_alerts a) -> (3 <= n)%nat) /\
      (forall p n, In (p, n) (pets_with_feeding_issues a) -> (2 <= n)%nat) /\
      (total_health_alerts a + total_feeding_delays a
       <= List.length
            (since timestamp (now - timedelta_days (days_or days 30))%Z
                   (activities_df self)))%nat /\
      (health_alerts_trend (alert_summary a) = "increasing" \/
       health_alerts_trend (alert_summary a) = "stable") /\
      ((List.length (daily_health_trend a) <= 3)%nat ->
       health_alerts_trend (alert_summary a) = "stable") /\
      ((List.length (daily_feeding_trend a) <= 3)%nat ->
       feeding_delays_trend (alert_summary a) = "stable").
Proof.
  intros self now days. unfold get_alert_trends_analysis. cbv zeta.
  change (ANALYSIS_WINDOWS medium_term) with 30.
  set (recent := since timestamp (now - timedelta_days (days_or days 30))
                       (activities_df self)).
  set (health := filter (fun a => String.eqb (activity_type a) "medical") recent).
  set (feeding := filter (fun a => String.eqb (activity_type a) "feeding") recent).
  set (delays := filter (fun a => negb (existsb (Z.eqb (hour a)) normal_feeding_hours))
                        feeding).
  eexists. split; [reflexivity|].
  cbn [daily_health_trend daily_feeding_trend staff_alert_response total_health_alerts
       total_feeding_delays avg_health_alerts_per_day avg_feeding_delays_per_day
       peak_feeding_issue_hours peak_health_alert_hours pets_with_frequent_health_alerts
       pets_with_feeding_issues alert_summary health_alerts_trend feeding_delays_trend].
  pose proof (window_days_nonzero days 30 ltac:(lia)) as D.
  split; [apply group_sizes_sum|]. split; [apply group_sizes_sum|].
  split; [apply group_sizes_sum|].
  split; [unfold truediv; rewrite Qred_correct; field; exact D|].
  split; [unfold truediv; rewrite Qred_correct; field; exact D|].
  split.
  { intros h n Hin. unfold nlargest3 in Hin.
    apply WellnessExtras.firstn_In in Hin. apply sort_by_In in Hin.
    apply group_sizes_In in Hin. destruct Hin as [Pos [x [Hx Eh]]].
    split; [|exact Pos]. unfold delays in Hx. apply filter_In in Hx.
    destruct Hx as [_ Hx]. apply not_normal_hour in Hx. rewrite <- Eh. exact Hx. }
  split; [apply firstn_le_length|]. split; [apply firstn_le_length|].
  split.
  { intros p n Hin. apply filter_In in Hin. destruct Hin as [_ Hn].
    cbn [snd] in Hn. apply Nat.ltb_lt in Hn. lia. }
  split.
  { intros p n Hin. apply filter_In in Hin. destruct Hin as [_ Hn].
    cbn [snd] in Hn. apply Nat.ltb_lt in Hn. lia. }
  split.
  { pose proof (filter_length_bound
                  (fun a => negb (existsb (Z.eqb (hour a)) normal_feeding_hours))
                  feeding) as B1.
    fold delays in B1.
    pose proof (filter_split_length
                  (fun a => String.eqb (activity_type a) "medical"
                            || String.eqb (activity_type a) "feeding")
                  (fun a => String.eqb (activity_type a) "medical")
                  (fun a => String.eqb (activity_type a) "feeding") recent
                  (fun a _ => eq_refl)) as B2.
    fold health feeding in B2.
    pose proof (filter_length_bound
                  (fun a => String.eqb (activity_type a) "medical"
                            || String.eqb (activity_type a) "feeding") recent) as B3.
    rewrite B2 in B3; [lia|].
    intros x _ M. apply String.eqb_eq in M. rewrite M. reflexivity. }
  split; [apply trend_labels|].
  split; apply short_trend_is_stable.
Qed.

Lemma alert_report_invariants_witness :
  exists a,
    get_alert_trends_analysis (init [] day100_activities) (at_time 101 0 0) None
      = Metrics a /\
    health_alerts_trend (alert_summary a) = "stable".
Proof.
  destruct (alert_report_invariants (init [] day100_activities) (at_time 101 0 0) None)
    as [a [E H]].
  exists a. split; [exact E|].
  apply H. injection E as <-. vm_compute. lia.
Defined.


(** Rounding is monotone. *)
Lemma round_half_even_mono (p q : Q) :
  (p <= q)%Q -> round_half_even p <= round_half_even q.
Proof.
  intros H. pose proof (Qfloor_resp_le _ _ H) as F.
  destruct (Z.eq_dec (Qfloor p) (Qfloor q)) as [E|N].
  - unfold round_half_even. cbv zeta. rewrite E. set (f := Qfloor q).
    destruct (Qcompare_spec (p - inject_Z f) (1 # 2)),
             (Qcompare_spec (q - inject_Z f) (1 # 2));
      first [ solve [lia] | solve [destruct (Z.even f); lia] | exfalso; lra ].
  - apply (Z.le_trans _ (Qfloor p + 1)).
    + apply round_half_even_upper. apply Qlt_le_weak, Qlt_floor.
    + apply round_half_even_lower.
      apply (Qle_trans _ (inject_Z (Qfloor q))); [|apply Qfloor_le].
      rewrite <- Zle_Qle. lia.
Qed.

Lemma round_dec_mono (n : nat) (p q : Q) :
  (p <= q)%Q -> (round_dec n p <= round_dec n q)%Q.
Proof.
  intros H. unfold round_dec. cbv zeta. rewrite !Qred_correct.
  pose proof (scale_positive n) as S.
  unfold Qdiv. apply Qmult_le_compat_r.
  - rewrite <- Zle_Qle. apply round_half_even_mono.
    apply Qmult_le_compat_r; [exact H | apply Qlt_le_weak, S].
  - apply Qinv_le_0_compat, Qlt_le_weak, S.
Qed.

Lemma staff_score_range (staff_analysis : analysis StaffAnalysis) :
  (0 <= _calculate_staff_score staff_analysis)%Q /\
  (_calculate_staff_score staff_analysis <= 100)%Q.
Proof.
  unfold _calculate_staff_score. destruct staff_analysis as [msg|a]; [split; lra|].
  cbv zeta.
  set (total := fold_right Nat.add 0%nat (map snd (performance_distribution a))).
  destruct (Nat.eqb_spec total 0) as [Z0|NZ]; [split; lra|].
  split; [|apply Q.le_min_l].
  apply Q.min_glb; [lra|].
  unfold truediv. rewrite Qred_correct.
  apply Qle_shift_div_l; [apply count_q_pos; lia|].
  pose proof (count_q_nonneg (count_of "excellent" (performance_distribution a))).
  pose proof (count_q_nonneg (count_of "satisfactory" (performance_distribution a))).
  lra.
Qed.

Lemma alert_score_range (a : AlertAnalysis) :
  (0 <= avg_health_alerts_per_day a)%Q -> (0 <= avg_feeding_delays_per_day a)%Q ->
  (50 <= _calculate_alert_score (Metrics a))%Q /\
  (_calculate_alert_score (Metrics a) <= 100)%Q /\
  (_calculate_alert_score (Metrics a) == 100 <->
   avg_health_alerts_per_day a == 0 /\ avg_feeding_delays_per_day a == 0)%Q.
Proof.
  intros H F. unfold _calculate_alert_score. cbv zeta.
  set (h := avg_health_alerts_per_day a) in *.
  set (f := avg_feeding_delays_per_day a) in *.
  pose proof (Q.le_min_l 30 (h * 5)) as H1.
  pose proof (Q.le_min_r 30 (h * 5)) as H1'.
  pose proof (Q.le_min_l 20 (f * 10)) as F1.
  pose proof (Q.le_min_r 20 (f * 10)) as F1'.
  assert (H2 : (0 <= Qmin 30 (h * 5))%Q) by (apply Q.min_glb; lra).
  assert (F2 : (0 <= Qmin 20 (f * 10))%Q) by (apply Q.min_glb; lra).
  set (hp := Qmin 30 (h * 5)) in *. set (fp := Qmin 20 (f * 10)) in *.
  assert (M : (Qmax 0 (100 - hp - fp) == 100 - hp - fp)%Q) by (apply Q.max_r; lra).
  rewrite M. split; [lra|]. split; [lra|]. split.
  - intros E. assert (Hp0 : (hp == 0)%Q) by lra. assert (Fp0 : (fp == 0)%Q) by lra.
    unfold hp in Hp0. unfold fp in Fp0.
    destruct (Q.min_spec 30 (h * 5)) as [[_ E1]|[_ E1]]; rewrite E1 in Hp0; [lra|].
    destruct (Q.min_spec 20 (f * 10)) as [[_ E2]|[_ E2]]; rewrite E2 in Fp0; [lra|].
    split; lra.
  - intros [Eh Ef].
    assert (Hp0 : (hp == 0)%Q).
    { unfold hp. rewrite Q.min_r by lra. lra. }
    assert (Fp0 : (fp == 0)%Q).
    { unfold fp. rewrite Q.min_r by lra. lra. }
    lra.
Qed.

Lemma rate_nonneg (n : nat) (days : Z) :
  0 < days -> (0 <= truediv (count_q n) (inject_Z days))%Q.
Proof.
  intros D. unfold truediv. rewrite Qred_correct. apply Qle_shift_div_l.
  - change 0%Q with (inject_Z 0). rewrite <- Zlt_Qlt. exact D.
  - rewrite Qmult_0_l. apply count_q_nonneg.
Qed.

Lemma rate_zero (n : nat) (days : Z) :
  0 < days -> (truediv (count_q n) (inject_Z days) == 0 <-> n = 0%nat)%Q.
Proof.
  intros D. unfold truediv. rewrite Qred_correct.
  assert (P : (0 < inject_Z days)%Q)
    by (change 0%Q with (inject_Z 0); rewrite <- Zlt_Qlt; exact D).
  split.
  - intros E. assert (E' : (count_q n == 0)%Q).
    { rewrite <- (Qmult_div_r (count_q n) (inject_Z days)) by lra.
      unfold Qdiv in *. rewrite E. lra. }
    unfold count_q, Qeq in E'. simpl in E'. lia.
  - intros ->. unfold Qdiv. change (count_q 0) with 0%Q. lra.
Qed.

Lemma grooming_score_range (self : t) (now : instant) (days : option Z) :
  let grooming_score :=
    match get_grooming_cleaning_frequency self now days with
    | Metrics g => grooming_schedule_compliance g
    | Error _ => 0%Q
    end in
  (0 <= grooming_score)%Q /\ (grooming_score <= 100)%Q.
Proof.
  cbv zeta. unfold get_grooming_cleaning_frequency. cbv zeta.
  destruct (is_empty (grooming_df_of self now days)); [split; lra|].
  cbn [grooming_schedule_compliance].
  set (table := pet_grooming_of now (grooming_df_of self now days)).
  destruct (Nat.ltb_spec 0 (List.length table)) as [Pos|_]; [|split; lra].
  set (overdue := filter _ table).
  destruct (compliance_bounds (List.length overdue) (List.length table))
    as [C1 [C2 _]]; [apply filter_length_bound | exact Pos |].
  split; [exact C1 | exact C2].
Qed.

(** The scores of [get_operations_summary].  The staff score of any
    staff analysis lies in [0, 100].  For a window of a positive number of
    days the alert score of [get_alert_trends_analysis] lies in [50, 100]:
    the two penalties are capped at 30 and 20, so the floor at 0 is never
    reached; it is 100 exactly when the window has no health alert and no
    feeding delay.  The [operations_score] therefore lies in
    [16.7, 100].  With no activity and no shift in the 30-day window it is
    50.0, and the recommendations then read that operations are running
    smoothly. *)
Theorem operations_scores_are_bounded :
  forall (self : t) (now : instant) (days : option Z)
         (staff_analysis : analysis StaffAnalysis),
    ((0 <= _calculate_staff_score staff_analysis)%Q /\
     (_calculate_staff_score staff_analysis <= 100)%Q) /\
    (0 < days_or days 30 ->
     (50 <= _calculate_alert_score (get_alert_trends_analysis self now days))%Q /\
     (_calculate_alert_score (get_alert_trends_analysis self now days) <= 100)%Q /\
     (_calculate_alert_score (get_alert_trends_analysis self now days) == 100 <->
      exists a, get_alert_trends_analysis self now days = Metrics a /\
                total_health_alerts a = 0%nat /\ total_feeding_delays a = 0%nat)%Q) /\
    ((167 # 10 <= operations_score (get_operations_summary self now))%Q /\
     (operations_score (get_operations_summary self now) <= 100)%Q) /\
    (since timestamp (now - timedelta_days 30) (activities_df self) = [] ->
     recent_staff_of self now None = [] ->
     operations_score (get_operations_summary self now) = 50%Q /\
     key_recommendations self now = [smooth_message]).
Proof.
  intros self now days staff_analysis.
  split; [apply staff_score_range|]. split; [|split].
  - intros D. unfold get_alert_trends_analysis. cbv zeta.
    change (ANALYSIS_WINDOWS medium_term) with 30.
    match goal with
    | |- (50 <= _calculate_alert_score (Metrics ?r))%Q /\ _ => set (a := r)
    end.
    assert (H : (0 <= avg_health_alerts_per_day a)%Q) by (apply rate_nonneg, D).
    assert (F : (0 <= avg_feeding_delays_per_day a)%Q) by (apply rate_nonneg, D).
    destruct (alert_score_range a H F) as [R1 [R2 R3]].
    split; [exact R1|]. split; [exact R2|]. rewrite R3. split.
    + intros [Eh Ef]. exists a. split; [reflexivity|].
      split; [apply (rate_zero _ _ D), Eh | apply (rate_zero _ _ D), Ef].
    + intros [a' [E [Th Tf]]]. injection E as <-.
      split; [apply (rate_zero _ _ D), Th | apply (rate_zero _ _ D), Tf].
  - unfold get_operations_summary. cbv zeta. cbn [operations_score].
    pose proof (grooming_score_range self now None) as G. cbv zeta in G.
    pose proof (staff_score_range (get_staff_performance_analysis self now None)) as S.
    assert (A : (50 <= _calculate_alert_score (get_alert_trends_analysis self now None))%Q
                /\ (_calculate_alert_score (get_alert_trends_analysis self now None)
                    <= 100)%Q).
    { unfold get_alert_trends_analysis. cbv zeta.
      change (days_or None (ANALYSIS_WINDOWS medium_term)) with 30.
      match goal with
      | |- (50 <= _calculate_alert_score (Metrics ?r))%Q /\ _ => set (a := r)
      end.
      assert (H : (0 <= avg_health_alerts_per_day a)%Q) by (apply rate_nonneg; lia).
      assert (F : (0 <= avg_feeding_delays_per_day a)%Q) by (apply rate_nonneg; lia).
      destruct (alert_score_range a H F) as [R1 [R2 _]]. split; assumption. }
    set (g := match get_grooming_cleaning_frequency self now None with
              | Metrics g => grooming_schedule_compliance g
              | Error _ => 0%Q
              end) in *.
    set (s := _calculate_staff_score (get_staff_performance_analysis self now None)) in *.
    set (a := _calculate_alert_score (get_alert_trends_analysis self now None)) in *.
    split.
    + change (167 # 10)%Q with (round_dec 1 (50 / 3)).
      apply round_dec_mono. unfold Qdiv.
      apply Qmult_le_compat_r; [lra | discriminate].
    + apply (Qle_trans _ (round_dec 1 (300 / 3))); [|vm_compute; discriminate].
      apply round_dec_mono. unfold Qdiv.
      apply Qmult_le_compat_r; [lra | discriminate].
  - intros NoAct NoStaff.
    assert (G : grooming_df_of self now None = []).
    { unfold grooming_df_of. cbv zeta.
      change (days_or None (ANALYSIS_WINDOWS medium_term)) with 30.
      destruct (filter _ (activities_df self)) as [|x r] eqn:Fx; [reflexivity|].
      assert (Hx : In x (since timestamp (now - timedelta_days 30) (activities_df self))).
      { assert (Hin : In x (x :: r)) by (left; reflexivity).
        rewrite <- Fx in Hin. apply filter_In in Hin. destruct Hin as [I C].
        apply andb_true_iff in C. apply filter_In. split; [exact I | apply C]. }
      rewrite NoAct in Hx. destruct Hx. }
    assert (Eg : get_grooming_cleaning_frequency self now None
                 = Error "No grooming data found for the specified period").
    { unfold get_grooming_cleaning_frequency. cbv zeta. rewrite G. reflexivity. }
    assert (Es : get_staff_performance_analysis self now None
                 = Error "No staff data found for the specified period").
    { unfold get_staff_performance_analysis. cbv zeta. rewrite NoStaff. reflexivity. }
    split.
    + unfold get_operations_summary. cbv zeta. cbn [operations_score].
      rewrite Eg, Es. unfold get_alert_trends_analysis. cbv zeta.
      change (days_or None (ANALYSIS_WINDOWS medium_term)) with 30.
      rewrite NoAct. vm_compute. reflexivity.
    + unfold key_recommendations. rewrite Eg, Es.
      unfold get_alert_trends_analysis. cbv zeta.
      change (days_or None (ANALYSIS_WINDOWS medium_term)) with 30.
      rewrite NoAct. vm_compute. reflexivity.
Qed.

Lemma operations_scores_are_bounded_witness :
  operations_score (get_operations_summary (init [] []) (at_time 100 0 0)) = 50%Q /\
  key_recommendations (init [] []) (at_time 100 0 0)
    = ["Operations are running smoothly - maintain current standards"] /\
  (50 <= _calculate_alert_score
           (get_alert_trends_analysis (init [] day100_activities) (at_time 101 0 0) None))%Q.
Proof.
  pose proof (operations_scores_are_bounded (init [] []) (at_time 100 0 0) None
                (Error "none")) as [_ [_ [_ H]]].
  destruct (H eq_refl eq_refl) as [S K].
  split; [exact S|]. split; [exact K|].
  destruct (operations_scores_are_bounded (init [] day100_activities) (at_time 101 0 0)
              None (Error "none")) as [_ [B _]].
  apply B. reflexivity.
Defined.

Lemma messages_differ (n : nat) :
  grooming_message n <> smooth_message /\ staff_message n <> smooth_message /\
  health_message <> smooth_message /\ feeding_message <> smooth_message.
Proof.
  unfold grooming_message, staff_message, health_message, feeding_message,
    smooth_message.
  repeat split; intros C; cbn [append] in C; discriminate C.
Qed.

Lemma grooming_recommendations_shape (grooming : analysis GroomingAnalysis) :
  (List.length (grooming_recommendations grooming) <= 1)%nat /\
  ~ In smooth_message (grooming_recommendations grooming).
Proof.
  unfold grooming_recommendations. destruct grooming as [msg|g]; [simpl; split; [lia|tauto]|].
  destruct (0 <? pets_overdue_grooming g)%nat; simpl; split; try lia; try tauto.
  intros [C|[]]. revert C. apply messages_differ.
Qed.

Lemma staff_recommendations_shape (staff : analysis StaffAnalysis) :
  (List.length (staff_recommendations staff) <= 1)%nat /\
  ~ In smooth_message (staff_recommendations staff).
Proof.
  unfold staff_recommendations. destruct staff as [msg|s]; [simpl; split; [lia|tauto]|].
  cbv zeta. destruct (0 <? List.length (staff_needing_support s))%nat; simpl; split;
    try lia; try tauto.
  intros [C|[]]. revert C. apply messages_differ.
Qed.

Lemma alert_recommendations_shape (alerts : analysis AlertAnalysis) :
  (List.length (alert_recommendations alerts) <= 2)%nat /\
  ~ In smooth_message (alert_recommendations alerts).
Proof.
  unfold alert_recommendations. destruct alerts as [msg|a]; [simpl; split; [lia|tauto]|].
  destruct (Qlt_bool 2 (avg_health_alerts_per_day a)),
           (Qlt_bool 1 (avg_feeding_delays_per_day a)); simpl; split; try lia; try tauto;
    intros C; repeat (destruct C as [C|C]; [revert C; apply (messages_differ 0)|]);
    destruct C.
Qed.

(** [_generate_recommendations] returns between one and four messages.
    The message that operations are running smoothly appears exactly when
    none of the three analyses triggers a recommendation, and then it is
    the only one.  An analysis that is an error mapping triggers nothing:
    three error mappings give the smooth-running message. *)
Theorem recommendations_shape :
  forall (grooming : analysis GroomingAnalysis) (staff : analysis StaffAnalysis)
         (alerts : analysis AlertAnalysis),
    let r := _generate_recommendations grooming staff alerts in
    (1 <= List.length r)%nat /\ (List.length r <= 4)%nat /\
    (In smooth_message r <->
     grooming_recommendations grooming = [] /\ staff_recommendations staff = [] /\
     alert_recommendations alerts = []) /\
    (In smooth_message r -> r = [smooth_message]) /\
    (has_error grooming = true -> has_error staff = true -> has_error alerts = true ->
     r = [smooth_message]).
Proof.
  intros grooming staff alerts r. unfold r, _generate_recommendations. cbv zeta.
  destruct (grooming_recommendations_shape grooming) as [G1 G2].
  destruct (staff_recommendations_shape staff) as [S1 S2].
  destruct (alert_recommendations_shape alerts) as [A1 A2].
  set (all := grooming_recommendations grooming ++ staff_recommendations staff
              ++ alert_recommendations alerts).
  assert (L : (List.length all <= 4)%nat).
  { unfold all. rewrite !length_app. lia. }
  assert (N : ~ In smooth_message all).
  { unfold all. rewrite !in_app_iff. tauto. }
  assert (E : all = [] <->
              grooming_recommendations grooming = [] /\
              staff_recommendations staff = [] /\ alert_recommendations alerts = []).
  { unfold all. split.
    - intros Z0. apply app_eq_nil in Z0. destruct Z0 as [Z1 Z2].
      apply app_eq_nil in Z2. tauto.
    - intros [-> [-> ->]]. reflexivity. }
  destruct all as [|m rest] eqn:Eall; cbn [is_empty].
  - split; [simpl; lia|]. split; [simpl; lia|].
    split; [split; [intros _; apply E; reflexivity | intros _; left; reflexivity]|].
    split; reflexivity.
  - split; [simpl; lia|]. split; [exact L|].
    split; [split; [intros C; contradiction | intros C; apply E in C; discriminate C]|].
    split; [intros C; contradiction|].
    intros Hg Hs Ha. destruct grooming; [|discriminate Hg].
    destruct staff; [|discriminate Hs]. destruct alerts; [|discriminate Ha].
    exfalso. assert (C : m :: rest = []) by (apply E; repeat split; reflexivity).
    discriminate C.
Qed.

Lemma recommendations_shape_witness :
  _generate_recommendations (Error "no grooming") (Error "no staff") (Error "no alerts")
  = ["Operations are running smoothly - maintain current standards"].
Proof.
  apply (recommendations_shape (Error "no grooming") (Error "no staff")
                               (Error "no alerts")); reflexivity.
Defined.

End OperationsExtras.

(** ** The metric functions of [app_working.py] against the analyzers *)

Module DashboardExtras.

Import WorkingDashboard Scenarios.
Import TableFacts ExtraFacts RoundFacts CountFacts.

Lemma column_min_le (d : Q) (l : list Q) (x : Q) :
  In x l -> (fold_right Qmin d l <= x)%Q.
Proof.
  induction l as [|y t IH]; intros H; [destruct H|]. simpl.
  destruct H as [E|H].
  - subst y. apply Q.le_min_l.
  - apply (Qle_trans _ (fold_right Qmin d t)); [apply Q.le_min_r | apply IH, H].
Qed.

Lemma column_max_ge (d : Q) (l : list Q) (x : Q) :
  In x l -> (x <= fold_right Qmax d l)%Q.
Proof.
  induction l as [|y t IH]; intros H; [destruct H|]. simpl.
  destruct H as [E|H].
  - subst y. apply Q.le_max_l.
  - apply (Qle_trans _ (fold_right Qmax d t)); [apply IH, H | apply Q.le_max_r].
Qed.

(** The mean of a column lies between its minimum and its maximum. *)
Lemma mean_between (l : list Q) :
  l <> [] ->
  exists v, mean l = Fin v /\ (column_min l <= v)%Q /\ (v <= column_max l)%Q.
Proof.
  intros N. rewrite (WellnessFacts.mean_nonempty l N). eexists. split; [reflexivity|].
  rewrite Qred_correct.
  assert (P : (0 < count_q (List.length l))%Q).
  { apply count_q_pos. destruct l; [congruence | simpl; lia]. }
  split.
  - apply Qle_shift_div_l; [exact P|]. apply WellnessExtras.sum_lower.
    intros x Hx. apply column_min_le, Hx.
  - apply Qle_shift_div_r; [exact P|]. apply WellnessExtras.sum_upper.
    intros x Hx. apply column_max_ge, Hx.
Qed.

Lemma days_or_some (days default : Z) : days <> 0 -> days_or (Some days) default = days.
Proof. intros D. unfold days_or. destruct (Z.eqb_spec days 0); [contradiction | reflexivity]. Qed.

(** [calculate_environmental_metrics] returns the empty mapping exactly
    when the window has no reading.  Otherwise the averages lie between
    the reported minimum and maximum, the noise alerts are no more than
    the readings, and for a window of [days <> 0] days the figures are
    those of the analyzer: [noise_alerts] is [total_alerts] of
    [get_noise_level_alerts] (the 45 dB written here is the configured
    alert threshold) and the three averages and the number of readings are
    those of [get_temperature_humidity_averages]. *)
Theorem dashboard_environment_metrics :
  forall (environment_df : list EnvironmentReading) (now : instant) (days : Z),
    (calculate_environmental_metrics environment_df now days = None <->
     since env_timestamp (now - timedelta_days days) environment_df = []) /\
    (forall m,
        calculate_environmental_metrics environment_df now days = Some m ->
        (1 <= em_total_readings m)%nat /\
        (em_noise_alerts m <= em_total_readings m)%nat /\
        (exists v, em_avg_temperature m = Fin v /\
                   (fst (em_temp_range m) <= v)%Q /\ (v <= snd (em_temp_range m))%Q) /\
        (exists v, em_avg_humidity m = Fin v /\
                   (fst (em_humidity_range m) <= v)%Q /\
                   (v <= snd (em_humidity_range m))%Q) /\
        (days <> 0 ->
         exists a t,
           EnvironmentalAnalyzer.get_noise_level_alerts environment_df now (Some days)
             = Metrics a /\
           EnvironmentalAnalyzer.total_alerts a = em_noise_alerts m /\
           EnvironmentalAnalyzer.get_temperature_humidity_averages
             environment_df now (Some days) false = Metrics t /\
           EnvironmentalAnalyzer.avg_temperature (EnvironmentalAnalyzer.overall t)
             = em_avg_temperature m /\
           EnvironmentalAnalyzer.avg_humidity (EnvironmentalAnalyzer.overall t)
             = em_avg_humidity m /\
           EnvironmentalAnalyzer.avg_noise (EnvironmentalAnalyzer.overall t)
             = em_avg_noise m /\
           EnvironmentalAnalyzer.total_readings (EnvironmentalAnalyzer.overall t)
             = em_total_readings m)).
Proof.
  intros env now days. unfold calculate_environmental_metrics. cbv zeta.
  set (recent := since env_timestamp (now - timedelta_days days) env).
  split.
  - destruct recent; simpl; split; intros H; try reflexivity; discriminate H.
  - intros m H. destruct (is_empty recent) eqn:E; [discriminate H|].
    apply is_empty_false in E. injection H as <-.
    cbn [em_total_readings em_noise_alerts em_avg_temperature em_avg_humidity
         em_avg_noise em_temp_range em_humidity_range fst snd].
    split; [destruct recent; [congruence | simpl; lia]|].
    split; [apply filter_length_bound|].
    split.
    { apply mean_between. intros Z0. apply map_eq_nil in Z0. contradiction. }
    split.
    { apply mean_between. intros Z0. apply map_eq_nil in Z0. contradiction. }
    intros D.
    unfold EnvironmentalAnalyzer.get_noise_level_alerts,
      EnvironmentalAnalyzer.get_temperature_humidity_averages. cbv zeta.
    rewrite !(days_or_some days _ D). fold recent.
    eexists. eexists. split; [reflexivity|]. split; [reflexivity|].
    split; [reflexivity|]. repeat split; reflexivity.
Qed.

Lemma dashboard_environment_metrics_witness :
  exists m,
    calculate_environmental_metrics [reading 100 9 70 50 48] (at_time 101 0 0) 30 = Some m /\
    em_noise_alerts m = 1%nat /\
    exists a,
      EnvironmentalAnalyzer.get_noise_level_alerts [reading 100 9 70 50 48]
        (at_time 101 0 0) (Some 30) = Metrics a /\
      EnvironmentalAnalyzer.total_alerts a = 1%nat.
Proof.
  destruct (calculate_environmental_metrics [reading 100 9 70 50 48] (at_time 101 0 0) 30)
    as [m|] eqn:E; [|vm_compute in E; discriminate].
  exists m. split; [reflexivity|].
  assert (N : em_noise_alerts m = 1%nat) by (injection E as <-; vm_compute; reflexivity).
  split; [exact N|].
  destruct (dashboard_environment_metrics [reading 100 9 70 50 48] (at_time 101 0 0) 30)
    as [_ H].
  destruct (H m E) as [_ [_ [_ [_ K]]]].
  destruct K as [a [t [Ea [Ta _]]]]; [lia|].
  exists a. split; [exact Ea|]. rewrite Ta. exact N.
Defined.

Lemma filter_and {A : Type} (p q : A -> bool) (l : list A) :
  filter p (filter q l) = filter (fun a => p a && q a) l.
Proof.
  induction l as [|a t IH]; [reflexivity|]. simpl.
  destruct (q a); simpl; rewrite ?andb_true_r, ?andb_false_r.
  - destruct (p a); rewrite IH; reflexivity.
  - exact IH.
Qed.

(** Counting the distinct values of a coarser key gives no more than
    counting those of a finer one. *)
Lemma nodup_coarser {A B C : Type} (decB : forall x y : B, {x = y} + {x <> y})
  (decC : forall x y : C, {x = y} + {x <> y}) (fine : A -> B) (coarse : B -> C)
  (l : list A) :
  (List.length (nodup decC (map (fun a => coarse (fine a)) l))
   <= List.length (nodup decB (map fine l)))%nat.
Proof.
  rewrite <- (length_map coarse (nodup decB (map fine l))).
  apply NoDup_incl_length; [apply NoDup_nodup|].
  intros c Hc. apply nodup_In in Hc. apply in_map_iff in Hc.
  destruct Hc as [a [E Ha]]. subst c. apply in_map. apply nodup_In.
  apply in_map, Ha.
Qed.

(** [calculate_pet_wellness_metrics] returns the empty mapping exactly
    when the window has no activity.  Otherwise, for [days <> 0], its
    per-pet averages are the rows of [get_avg_activity_time_per_pet] in
    another order and without the status; the counts by activity type add
    up to [total_activities]; and the feedings counted per pet are no more
    than the activities and concern no more pets than [total_pets]. *)
Theorem dashboard_wellness_metrics :
  forall (pet_activities_df : list ActivityRecord) (now : instant) (days : Z),
    (calculate_pet_wellness_metrics pet_activities_df now days = None <->
     since timestamp (now - timedelta_days days) pet_activities_df = []) /\
    (forall w,
        calculate_pet_wellness_metrics pet_activities_df now days = Some w ->
        (1 <= wm_total_pets w)%nat /\
        (wm_total_pets w <= wm_total_activities w)%nat /\
        NoDup (map par_pet (wm_activity_analysis w)) /\
        fold_right Nat.add 0%nat (map snd (wm_activity_types w)) = wm_total_activities w /\
        (fold_right Nat.add 0%nat (map snd (wm_feeding_analysis w))
         <= wm_total_activities w)%nat /\
        (List.length (wm_feeding_analysis w) <= wm_total_pets w)%nat /\
        (days <> 0 ->
         Permutation
           (map (fun r => (PetWellnessAnalyzer.pa_pet r,
                           PetWellnessAnalyzer.avg_daily_minutes r,
                           PetWellnessAnalyzer.avg_daily_activities r))
                (PetWellnessAnalyzer.get_avg_activity_time_per_pet
                   pet_activities_df now (Some days)))
           (map (fun r => (par_pet r, par_avg_daily_minutes r, par_avg_daily_activities r))
                (wm_activity_analysis w)))).
Proof.
  intros acts now days. unfold calculate_pet_wellness_metrics. cbv zeta.
  set (recent := since timestamp (now - timedelta_days days) acts).
  split.
  - destruct recent; simpl; split; intros H; try reflexivity; discriminate H.
  - intros w H. destruct (is_empty recent) eqn:E; [discriminate H|].
    apply is_empty_false in E. injection H as <-.
    cbn [wm_total_pets wm_total_activities wm_activity_analysis wm_activity_types
         wm_feeding_analysis].
    rewrite !length_map.
    set (daily := PetWellnessAnalyzer.daily_activity_of recent).
    assert (Pets : nodup pet_key_dec (map PetWellnessAnalyzer.da_pet daily)
                   = nodup pet_key_dec
                       (map PetWellnessAnalyzer.da_pet
                            (PetWellnessAnalyzer.daily_activity_of recent)))
      by reflexivity.
    assert (Incl : forall p, In p (map PetWellnessAnalyzer.da_pet daily) <->
                             In p (map PetWellnessAnalyzer.pet_of recent)).
    { intros p. unfold daily. rewrite WellnessFacts.pets_of_daily_activity.
      rewrite in_map_iff. split; intros [a [A1 A2]]; exists a; tauto. }
    rewrite !groupby_length.
    match goal with
    | |- (1 <= ?n)%nat /\ _ =>
        assert (Count : n = List.length
                              (nodup pet_key_dec (map PetWellnessAnalyzer.pet_of recent)))
    end.
    { apply Nat.le_antisymm; apply NoDup_incl_length; try apply NoDup_nodup;
        intros p Hp; apply nodup_In; apply nodup_In in Hp; apply Incl; exact Hp. }
    rewrite !Count.
    split.
    { destruct recent as [|a r]; [congruence|].
      assert (Hin : In (PetWellnessAnalyzer.pet_of a)
                       (nodup pet_key_dec (map PetWellnessAnalyzer.pet_of (a :: r))))
        by (apply nodup_In; left; reflexivity).
      destruct (nodup pet_key_dec (map PetWellnessAnalyzer.pet_of (a :: r)));
        [destruct Hin | simpl; lia]. }
    split.
    { rewrite <- (length_map PetWellnessAnalyzer.pet_of recent).
      apply NoDup_incl_length; [apply NoDup_nodup|].
      intros p Hp. apply nodup_In in Hp. exact Hp. }
    split.
    { rewrite map_map. cbn [par_pet].
      apply (groupby_keys_NoDup pet_key_dec pet_key_leb PetWellnessAnalyzer.da_pet). }
    split; [rewrite sum_of_value_counts; apply length_map|].
    split.
    { rewrite OperationsExtras.group_sizes_sum. apply filter_length_bound. }
    split.
    { unfold OperationsAnalyzer.group_sizes. rewrite length_map, groupby_length.
      apply NoDup_incl_length; [apply NoDup_nodup|].
      intros p Hp. apply nodup_In in Hp. apply nodup_In.
      apply in_map_iff in Hp. destruct Hp as [a [Ea Ha]]. apply filter_In in Ha.
      rewrite <- Ea. apply in_map, Ha. }
    intros D. unfold PetWellnessAnalyzer.get_avg_activity_time_per_pet. cbv zeta.
    rewrite (days_or_some days _ D). fold recent. fold daily.
    eapply Permutation_trans; [apply Permutation_map, sort_by_perm|].
    unfold PetWellnessAnalyzer.pet_averages_of. rewrite !map_map.
    cbn [PetWellnessAnalyzer.pa_pet PetWellnessAnalyzer.avg_daily_minutes
         PetWellnessAnalyzer.avg_daily_activities par_pet par_avg_daily_minutes
         par_avg_daily_activities].
    apply Permutation_refl.
Qed.

Lemma dashboard_wellness_metrics_witness :
  exists w,
    calculate_pet_wellness_metrics one_activity (at_time 101 0 0) 30 = Some w /\
    wm_total_pets w = 1%nat /\
    List.length (PetWellnessAnalyzer.get_avg_activity_time_per_pet
                   one_activity (at_time 101 0 0) (Some 30)) = 1%nat.
Proof.
  destruct (calculate_pet_wellness_metrics one_activity (at_time 101 0 0) 30)
    as [w|] eqn:E; [|vm_compute in E; discriminate].
  exists w. split; [reflexivity|].
  assert (N : wm_total_pets w = 1%nat) by (injection E as <-; vm_compute; reflexivity).
  split; [exact N|].
  destruct (dashboard_wellness_metrics one_activity (at_time 101 0 0) 30) as [_ H].
  destruct (H w E) as [_ [_ [_ [_ [_ [_ P]]]]]].
  assert (D : 30 <> 0) by lia.
  apply P in D. apply Permutation_length in D. rewrite !length_map in D.
  rewrite D. injection E as <-. vm_compute. reflexivity.
Defined.


(** [calculate_operations_metrics] against [OperationsAnalyzer] on the
    same tables, for a window of [days <> 0] days.  The staff keys are
    present exactly when the staff analysis is not an error; the function
    counts distinct staff ids where the analyzer counts distinct
    (id, name) pairs, so [total_staff] is at most [total_staff_analyzed],
    which is at most [total_shifts].  The activity keys are present
    exactly when the window has an activity; then [medical_checks] is the
    analyzer's [total_health_alerts], [grooming_sessions] is 0 exactly
    when the grooming analysis is an error, and otherwise equals its
    [total_grooming_sessions], with [pets_groomed] (distinct pet ids) at
    most the analyzer's [pets_groomed] (distinct (id, name) pairs). *)
Theorem dashboard_operations_metrics :
  forall (staff_logs_df : list StaffLog) (pet_activities_df : list ActivityRecord)
         (now : instant) (days : Z),
    days <> 0 ->
    let result := calculate_operations_metrics staff_logs_df pet_activities_df now days in
    let self := OperationsAnalyzer.init staff_logs_df pet_activities_df in
    (fst result = None <->
     has_error (OperationsAnalyzer.get_staff_performance_analysis self now (Some days))
       = true) /\
    (forall sm,
        fst result = Some sm ->
        exists s,
          OperationsAnalyzer.get_staff_performance_analysis self now (Some days)
            = Metrics s /\
          (1 <= om_total_staff sm)%nat /\
          (om_total_staff sm <= OperationsAnalyzer.total_staff_analyzed s)%nat /\
          (OperationsAnalyzer.total_staff_analyzed s <= om_total_shifts sm)%nat) /\
    (snd result = None <->
     since timestamp (now - timedelta_days days) pet_activities_df = []) /\
    (forall am,
        snd result = Some am ->
        (om_pets_groomed am <= om_grooming_sessions am)%nat /\
        (exists a,
            OperationsAnalyzer.get_alert_trends_analysis self now (Some days) = Metrics a /\
            OperationsAnalyzer.total_health_alerts a = om_medical_checks am) /\
        (om_grooming_sessions am = 0%nat <->
         has_error (OperationsAnalyzer.get_grooming_cleaning_frequency self now (Some days))
           = true) /\
        (forall g,
            OperationsAnalyzer.get_grooming_cleaning_frequency self now (Some days)
              = Metrics g ->
            OperationsAnalyzer.total_grooming_sessions g = om_grooming_sessions am /\
            (om_pets_groomed am <= OperationsAnalyzer.pets_groomed g)%nat)).
Proof.
  intros staff acts now days D result self.
  unfold result, calculate_operations_metrics. cbv zeta. cbn [fst snd].
  unfold OperationsAnalyzer.get_staff_performance_analysis,
    OperationsAnalyzer.get_alert_trends_analysis,
    OperationsAnalyzer.get_grooming_cleaning_frequency. cbv zeta.
  unfold OperationsAnalyzer.recent_staff_of, OperationsAnalyzer.grooming_df_of.
  cbv zeta. rewrite !(days_or_some days _ D).
  unfold self. cbn [OperationsAnalyzer.staff_df OperationsAnalyzer.activities_df
                    OperationsAnalyzer.init].
  set (recent_staff := since shift_start (now - timedelta_days days) staff).
  set (recent := since timestamp (now - timedelta_days days) acts).
  assert (G : filter (fun a => String.eqb (activity_type a) "grooming"
                               && (now - timedelta_days days <=? timestamp a)) acts
              = filter (fun a => String.eqb (activity_type a) "grooming") recent).
  { unfold recent, since. rewrite filter_and. reflexivity. }
  rewrite G.
  set (grooming := filter (fun a => String.eqb (activity_type a) "grooming") recent).
  split; [|split; [|split]].
  - destruct recent_staff; simpl; split; intros H; try reflexivity; discriminate H.
  - intros sm H. destruct (is_empty recent_staff) eqn:E; [discriminate H|].
    apply is_empty_false in E. cbn [negb] in H. injection H as <-.
    eexists. split; [reflexivity|].
    cbn [om_total_staff om_total_shifts OperationsAnalyzer.total_staff_analyzed].
    split; [|split].
    + apply OperationsExtras.nodup_length_pos. intros Z0. apply map_eq_nil in Z0.
      contradiction.
    + unfold OperationsAnalyzer.staff_performance_of.
      rewrite length_map, groupby_length.
      apply (nodup_coarser pet_key_dec string_dec
               (fun s => (log_staff_id s, staff_name s)) fst recent_staff).
    + unfold OperationsAnalyzer.staff_performance_of.
      rewrite length_map, groupby_length.
      rewrite <- (length_map (fun s => (log_staff_id s, staff_name s)) recent_staff).
      apply OperationsExtras.nodup_length_le.
  - destruct recent; simpl; split; intros H; try reflexivity; discriminate H.
  - intros am H. destruct (is_empty recent) eqn:E; [discriminate H|].
    cbn [negb] in H. injection H as <-.
    cbn [om_pets_groomed om_grooming_sessions om_medical_checks].
    split; [|split; [|split]].
    + destruct (is_empty grooming); cbn [negb]; [lia|].
      rewrite <- (length_map pet_id grooming). apply OperationsExtras.nodup_length_le.
    + eexists. split; [reflexivity|]. reflexivity.
    + destruct grooming; simpl; split; intros H; try reflexivity; discriminate H.
    + intros g Hg. destruct (is_empty grooming) eqn:Eg; [discriminate Hg|].
      apply (f_equal (fun r => match r with Metrics a => a | Error _ => g end)) in Hg.
      cbv beta iota in Hg. subst g.
      cbn [OperationsAnalyzer.total_grooming_sessions OperationsAnalyzer.pets_groomed
           negb].
      split; [reflexivity|].
      unfold OperationsAnalyzer.pet_grooming_of. rewrite length_map, groupby_length.
      apply (nodup_coarser pet_key_dec string_dec OperationsAnalyzer.pet_of fst grooming).
Qed.

Lemma dashboard_operations_metrics_witness :
  exists am g,
    snd (calculate_operations_metrics [] day100_activities (at_time 101 0 0) 30) = Some am /\
    OperationsAnalyzer.get_grooming_cleaning_frequency
      (OperationsAnalyzer.init [] day100_activities) (at_time 101 0 0) (Some 30)
      = Metrics g /\
    OperationsAnalyzer.total_grooming_sessions g = om_grooming_sessions am.
Proof.
  destruct (snd (calculate_operations_metrics [] day100_activities (at_time 101 0 0) 30))
    as [am|] eqn:E; [|vm_compute in E; discriminate].
  destruct (OperationsAnalyzer.get_grooming_cleaning_frequency
              (OperationsAnalyzer.init [] day100_activities) (at_time 101 0 0) (Some 30))
    as [msg|g] eqn:Eg; [vm_compute in Eg; discriminate|].
  exists am, g. split; [reflexivity|]. split; [reflexivity|].
  assert (D : 30 <> 0) by lia.
  pose proof (dashboard_operations_metrics [] day100_activities (at_time 101 0 0) 30 D)
    as H.
  cbv zeta in H. destruct H as [_ [_ [_ H]]].
  destruct (H am E) as [_ [_ [_ K]]]. apply (K g Eg).
Defined.

End DashboardExtras.

(** ** The database URL of [get_engine] *)

Module DbExtras.

Import Db.

(** The URL [get_engine] connects to is never empty.  A non-empty
    [db_url] argument wins; an empty or missing one falls through to the
    [DATABASE_URL] variable, and an empty or missing variable to the
    SQLite file under [output], for which [check_same_thread] is
    passed.  In particular an explicit empty string is treated as no
    argument. *)
Theorem engine_url_resolution :
  forall db_url env_url : option string,
    engine_url db_url env_url <> EmptyString /\
    (truthy db_url = true -> Some (engine_url db_url env_url) = db_url) /\
    (truthy db_url = false -> truthy env_url = true ->
     Some (engine_url db_url env_url) = env_url) /\
    (truthy db_url = false -> truthy env_url = false ->
     engine_url db_url env_url = default_url /\ sqlite_args db_url env_url = true) /\
    engine_url (Some EmptyString) env_url = engine_url None env_url.
Proof.
  intros db_url env_url.
  destruct db_url as [[|c s]|], env_url as [[|c' s']|]; cbn;
    repeat split; intros; try reflexivity; try discriminate.
Qed.

Lemma engine_url_resolution_witness :
  Some (engine_url (Some EmptyString) (Some "postgresql://kennel"))
  = Some "postgresql://kennel".
Proof.
  apply (engine_url_resolution (Some EmptyString) (Some "postgresql://kennel"));
    reflexivity.
Defined.

End DbExtras.
